(** * The UBL invoice builder of efactura-ts-sdk, embedded and verified

    The development follows [src/ubl/InvoiceBuilder.ts]: the monetary
    arithmetic of [calculateLineExtension] and [groupLinesByTax], the input
    validator, the party block and the document assembled by
    [buildInvoiceXml].  It goes on to the caller of the builder,
    [UblBuilder.generateInvoiceXml], and to the pure checks of the other
    modules: the CNP validator of [src/utils/validators.ts], the URLs of
    the HTTP client, the paginated-messages parameters of [AnafClient] and
    the VAT codes of [AnafDetailsClient].

    JavaScript values are modelled as the language defines them:
    - a Number is an IEEE-754 binary64 value ([spec_float] of the Standard
      Library at precision 53 and maximal exponent 1024), with [+], [*] and
      [/] the correctly rounded operations;
    - a String is its sequence of UTF-16 code units;
    - [Number.prototype.toFixed] and [parseFloat] follow ECMA-262;
    - a [Map] is an association list in insertion order;
    - the document built through xmlbuilder2 is the tree of its elements. *)

From Stdlib Require Import ZArith NArith List Bool String Ascii Lia.
From Stdlib Require Import SpecFloat DecimalString DecimalN.
From Stdlib Require Import QArith Qround Qpower Qfield.
Import ListNotations.

Set Implicit Arguments.
Open Scope string_scope.
Open Scope list_scope.

(* ================================================================== *)
(** ** JavaScript strings *)
(* ================================================================== *)

Module JsString.

(** A string value is a finite sequence of 16-bit code units. *)
Definition jsstring := list N.

(** The code units of an ASCII literal of the source. *)
Definition js (s : string) : jsstring :=
  map N_of_ascii (list_ascii_of_string s).

Definition eqb (a b : jsstring) : bool :=
  if list_eq_dec N.eq_dec a b then true else false.

(** ECMA-262 WhiteSpace and LineTerminator code points, the ones
    [String.prototype.trim] and [parseFloat] skip. *)
Definition isWhiteSpace (c : N) : bool :=
  (existsb (N.eqb c)
     [9; 10; 11; 12; 13; 32; 160; 5760; 8232; 8233; 8239; 8287; 12288; 65279]
   || ((8192 <=? c) && (c <=? 8202)))%N.

Fixpoint trimStart (s : jsstring) : jsstring :=
  match s with
  | c :: r => if isWhiteSpace c then trimStart r else s
  | [] => []
  end.

Definition trimEnd (s : jsstring) : jsstring := rev (trimStart (rev s)).

Definition trim (s : jsstring) : jsstring := trimEnd (trimStart s).

(** ToBoolean on a string: only the empty string is falsy. *)
Definition truthy (s : jsstring) : bool :=
  match s with [] => false | _ => true end.

(** [!s?.trim()] for a possibly missing string. *)
Definition blank (s : option jsstring) : bool :=
  match s with
  | None => true
  | Some v => negb (truthy (trim v))
  end.

(** [s || d] for a possibly missing string. *)
Definition or_default (s : option jsstring) (d : jsstring) : jsstring :=
  match s with
  | Some v => if truthy v then v else d
  | None => d
  end.

Fixpoint starts_with (p s : jsstring) : option jsstring :=
  match p, s with
  | [], _ => Some s
  | a :: p', b :: s' => if N.eqb a b then starts_with p' s' else None
  | _ :: _, [] => None
  end.

Definition isDigit (c : N) : bool := ((48 <=? c) && (c <=? 57))%N.

(** Decimal digits of a natural number, no leading zeros ("0" for 0). *)
Definition digits (n : N) : jsstring :=
  js (NilZero.string_of_uint (N.to_uint n)).

End JsString.
Import JsString.

(* ================================================================== *)
(** ** JavaScript numbers *)
(* ================================================================== *)

Module JsNumber.
Local Open Scope Z_scope.

Definition prec : Z := 53.
Definition emax : Z := 1024.

Definition number := spec_float.

Definition add : number -> number -> number := SFadd prec emax.
Definition mul : number -> number -> number := SFmul prec emax.
Definition div : number -> number -> number := SFdiv prec emax.
Definition ltb : number -> number -> bool := SFltb.
Definition leb : number -> number -> bool := SFleb.
Definition gtb (x y : number) : bool := SFltb y x.

Definition pzero : number := S754_zero false.

(** ToBoolean on a number: [+0], [-0] and [NaN] are falsy. *)
Definition truthy (x : number) : bool :=
  match x with
  | S754_zero _ | S754_nan => false
  | _ => true
  end.

(** The Number nearest to the rational [p/q] (ties to even), negated when
    [neg]: the value a decimal literal or [parseFloat] denotes. *)
Definition of_ratio (neg : bool) (p q : positive) : number :=
  SFdiv prec emax (S754_finite neg p 0) (S754_finite false q 0).

(** [x >= 10^21] for the positive finite value [m * 2^e]. *)
Definition ge_1e21 (m : positive) (e : Z) : bool :=
  match e with
  | Zneg p => 10 ^ 21 <=? Zpos m / 2 ^ Zpos p
  | _ => 10 ^ 21 <=? Zpos m * 2 ^ e
  end.

(** The integer [n] for which [n / 100 - m * 2^e] is as close to zero as
    possible, the larger one when there are two (ECMA-262, toFixed). *)
Definition hundredths (m : positive) (e : Z) : N :=
  match e with
  | Zneg p => Z.to_N ((200 * Zpos m + 2 ^ Zpos p) / 2 ^ (Zpos p + 1))
  | _ => Z.to_N (100 * Zpos m * 2 ^ e)
  end.

(** *** Number::toString *)

(** [a * 2^ea ?= b * 10^tb] *)
Definition compare_scaled (a ea b tb : Z) : comparison :=
  (a * 2 ^ Z.max ea 0 * 10 ^ Z.max (- tb) 0
   ?= b * 10 ^ Z.max tb 0 * 2 ^ Z.max (- ea) 0).

(** [floor (m * 2^e / 10^t)] *)
Definition floor_scaled (m e t : Z) : Z :=
  (m * 2 ^ Z.max e 0 * 10 ^ Z.max (- t) 0)
  / (2 ^ Z.max (- e) 0 * 10 ^ Z.max t 0).

(** The least [n] from [n0] on with [m * 2^e < 10^n]. *)
Fixpoint decimalExponent (fuel : nat) (m e n0 : Z) : Z :=
  match fuel with
  | O => n0
  | S fuel' =>
      match compare_scaled m e 1 n0 with
      | Lt => n0
      | _ => decimalExponent fuel' m e (n0 + 1)
      end
  end.

(** Does [s * 10^t] read back as the number [m * 2^e]?  It does inside
    the rounding interval of the number, the ends included when [m] is
    even. *)
Definition readsBack (m e s t : Z) : bool :=
  let below := if (m =? 2 ^ 52) && (-1074 <? e) then 1 else 2 in
  let lo := compare_scaled (4 * m - below) (e - 2) s t in
  let hi := compare_scaled (4 * m + 2) (e - 2) s t in
  if Z.even m
  then negb (match lo with Gt => true | _ => false end)
       && negb (match hi with Lt => true | _ => false end)
  else (match lo with Lt => true | _ => false end)
       && (match hi with Gt => true | _ => false end).

(** The digits [s] ([k] of them, [k] least) and the exponent [n] of
    ECMA-262 Number::toString, step 5, for [m * 2^e] with
    [10^(n0-1) <= m * 2^e < 10^n0]: the decimal closest to the number
    among the shortest ones that read back as it. *)
Fixpoint shortest (fuel : nat) (m e n0 k : Z) : Z * Z :=
  let t := n0 - k in
  let s1 := floor_scaled m e t in
  let s2 := s1 + 1 in
  let pick (s : Z) := if s =? 10 ^ k then (10 ^ (k - 1), n0 + 1) else (s, n0) in
  match fuel with
  | O => (s1, n0)
  | S fuel' =>
      match readsBack m e s1 t, readsBack m e s2 t with
      | true, false => pick s1
      | false, true => pick s2
      | true, true =>
          match compare_scaled (2 * m) e (2 * s1 + 1) t with
          | Lt => pick s1
          | Gt => pick s2
          | Eq => if Z.even s1 then pick s1 else pick s2
          end
      | false, false => shortest fuel' m e n0 (k + 1)
      end
  end.

Definition zeros (n : Z) : jsstring := repeat 48%N (Z.to_nat n).

Definition positiveToString (m : positive) (e : Z) : jsstring :=
  let n0 := decimalExponent 640 (Zpos m) e (-324) in
  let '(s, n) := shortest 17 (Zpos m) e n0 1 in
  let ds := digits (Z.to_N s) in
  let k := Z.of_nat (List.length ds) in
  if (k <=? n) && (n <=? 21) then ds ++ zeros (n - k)
  else if (0 <? n) && (n <=? 21) then
    firstn (Z.to_nat n) ds ++ js "." ++ skipn (Z.to_nat n) ds
  else if (-6 <? n) && (n <=? 0) then js "0." ++ zeros (- n) ++ ds
  else
    let ex := (if n - 1 <? 0 then js "-" else js "+")
                ++ digits (Z.to_N (Z.abs (n - 1))) in
    match ds with
    | [d] => [d] ++ js "e" ++ ex
    | d :: r => [d] ++ js "." ++ r ++ js "e" ++ ex
    | [] => []
    end.

(** ECMA-262 Number::toString (radix 10). *)
Definition Number_toString (x : number) : jsstring :=
  match x with
  | S754_nan => js "NaN"
  | S754_zero _ => js "0"
  | S754_infinity s => (if s then js "-" else []) ++ js "Infinity"
  | S754_finite s m e => (if s then js "-" else []) ++ positiveToString m e
  end.

(** *** Number.prototype.toFixed(2) *)

(** What [x.toFixed(2)] denotes: a sign and a number of hundredths, or,
    for a value that is not finite or is at least 10^21 in magnitude,
    the fallback to [Number::toString]. *)
Inductive fixed :=
| Fixed (neg : bool) (n : N)
| Fallback (x : number).

Definition toFixed2_repr (x : number) : fixed :=
  match x with
  | S754_nan | S754_infinity _ => Fallback x
  | S754_zero _ => Fixed false 0
  | S754_finite s m e =>
      if ge_1e21 m e then Fallback x else Fixed s (hundredths m e)
  end.

(** The string of [n] hundredths: integer part, ".", two digits. *)
Definition fixed_string (neg : bool) (n : N) : jsstring :=
  ((if neg then js "-" else []) ++ digits (n / 100) ++ js "."
     ++ [48 + (n mod 100) / 10; 48 + (n mod 100) mod 10])%N.

Definition render (f : fixed) : jsstring :=
  match f with
  | Fixed neg n => fixed_string neg n
  | Fallback x => Number_toString x
  end.

(** [x.toFixed(2)] *)
Definition toFixed2 (x : number) : jsstring := render (toFixed2_repr x).

(** *** parseFloat *)

(** Scanning a run of decimal digits: the value accumulated, the number
    of digits read and the rest of the input. *)
Fixpoint scan_digits (s : jsstring) (acc : N) (cnt : nat)
  : N * nat * jsstring :=
  match s with
  | c :: r =>
      if isDigit c then scan_digits r (10 * acc + (c - 48))%N (S cnt)
      else (acc, cnt, s)
  | [] => (acc, cnt, [])
  end.

(** The optional exponent part [e[+-]ddd] of a StrDecimalLiteral. *)
Definition scan_exponent (s : jsstring) : Z :=
  match s with
  | c :: r =>
      if (N.eqb c 101 || N.eqb c 69)%bool then
        let '(neg, r') :=
          match r with
          | 45%N :: r' => (true, r')
          | 43%N :: r' => (false, r')
          | _ => (false, r)
          end in
        let '(v, cnt, _) := scan_digits r' 0 0 in
        match cnt with
        | O => 0
        | _ => if neg then - Z.of_N v else Z.of_N v
        end
      else 0
  | [] => 0
  end.

(** The Number value of the mantissa [v] scaled by [10^k]. *)
Definition of_decimal (neg : bool) (v : N) (k : Z) : number :=
  match v with
  | N0 => S754_zero neg
  | Npos p =>
      match k with
      | Zneg q => of_ratio neg p (Pos.pow 10 q)
      | Zpos q => of_ratio neg (p * Pos.pow 10 q) 1
      | Z0 => of_ratio neg p 1
      end
  end.

(** [parseFloat]: leading white space, a sign, then the longest prefix
    that is a StrDecimalLiteral; [NaN] when there is none. *)
Definition parseFloat (s : jsstring) : number :=
  let s0 := trimStart s in
  let '(neg, s1) :=
    match s0 with
    | 45%N :: r => (true, r)
    | 43%N :: r => (false, r)
    | _ => (false, s0)
    end in
  match starts_with (js "Infinity") s1 with
  | Some _ => S754_infinity neg
  | None =>
      let '(ip, ni, r1) := scan_digits s1 0 0 in
      let '(v, nf, r2) :=
        match r1 with
        | 46%N :: r => scan_digits r ip 0
        | _ => (ip, O, r1)
        end in
      match (ni + nf)%nat with
      | O => S754_nan
      | _ => of_decimal neg v (scan_exponent r2 - Z.of_nat nf)
      end
  end.

(** The idiom [parseFloat(x.toFixed(2))] of the source. *)
Definition round2 (x : number) : number := parseFloat (toFixed2 x).

(** The Number a decimal literal of the source denotes. *)
Definition lit (s : string) : number := parseFloat (js s).

End JsNumber.
Import JsNumber.

(* ================================================================== *)
(** ** Data model ([src/types], the interfaces of the invoice input) *)
(* ================================================================== *)

(** A field the validator tests for presence is an [option]: [None] is
    [undefined] (or [null]).  [quantity] and [unitPrice] are numbers, as
    the interface declares them; on a number the [typeof] tests of
    [validateLine] never fire. *)

Record Address := {
  street : option jsstring;
  city : option jsstring;
  postalZone : option jsstring;
  county : option jsstring;
  countryCode : option jsstring
}.

Record Party := {
  registrationName : option jsstring;
  companyId : option jsstring;
  isVatPayer : option bool;
  address : option Address
}.

Inductive InvoiceTypeCode :=
| COMMERCIAL_INVOICE
| INVOICE_INFORMATION_FOR_ACCOUNTING_PURPOSES.

Definition InvoiceTypeCode_value (c : InvoiceTypeCode) : jsstring :=
  match c with
  | COMMERCIAL_INVOICE => js "380"
  | INVOICE_INFORMATION_FOR_ACCOUNTING_PURPOSES => js "751"
  end.

Record InvoiceLine := {
  id : option (jsstring + number);
  name : option jsstring;
  description : option jsstring;
  quantity : number;
  unitCode : option jsstring;
  unitPrice : number;
  taxPercent : option number
}.

(** [string | Date]; a Date object is its time value. *)
Inductive DateArg :=
| DateString (s : jsstring)
| DateObject (time : number).

Definition DateArg_truthy (d : DateArg) : bool :=
  match d with
  | DateString s => JsString.truthy s
  | DateObject _ => true
  end.

Record InvoiceInput := {
  invoiceTypeCode : option InvoiceTypeCode;
  invoiceNumber : option jsstring;
  issueDate : option DateArg;
  dueDate : option DateArg;
  currency : option jsstring;
  supplier : option Party;
  customer : option Party;
  lines : option (list InvoiceLine);
  paymentIban : option jsstring
}.

Record TaxGroup := {
  categoryId : jsstring;
  percent : number;
  taxableAmount : number;
  taxAmount : number;
  exemptionReasonCode : option jsstring
}.

(* ================================================================== *)
(** ** Outcomes: a value, or an exception *)
(* ================================================================== *)

(** [AnafValidationError] is the one error class the builder throws.
    [UndefinedUse] marks a run that reads a property of [undefined] or
    hands [undefined] to the XML library: what JavaScript does then is not
    modelled, and [buildInvoiceXml_never_undefined] shows no run gets there. *)
Inductive error :=
| AnafValidationError (message : jsstring)
| UndefinedUse.

Inductive outcome (A : Type) :=
| Ok (a : A)
| Throw (e : error).
Arguments Ok {A} a.
Arguments Throw {A} e.

Definition bind {A B} (m : outcome A) (k : A -> outcome B) : outcome B :=
  match m with
  | Ok a => k a
  | Throw e => Throw e
  end.

Notation "x <- m ;; k" := (bind m (fun x => k))
  (at level 61, m at next level, right associativity).
Notation "m ;;; k" := (bind m (fun _ => k))
  (at level 61, right associativity).

Definition defined {A} (o : option A) : outcome A :=
  match o with
  | Some a => Ok a
  | None => Throw UndefinedUse
  end.

Definition throw_if (c : bool) (message : jsstring) : outcome unit :=
  if c then Throw (AnafValidationError message) else Ok tt.

(* ================================================================== *)
(** ** The document tree built through xmlbuilder2 *)
(* ================================================================== *)

#[warnings="-register-all"]
Inductive xml :=
| Ele (tag : string) (atts : list (string * jsstring)) (kids : list xml)
| Txt (t : jsstring).

(** [.ele(tag, atts).txt(t).up()] *)
Definition leaf (tag : string) (atts : list (string * jsstring)) (t : jsstring) : xml :=
  Ele tag atts [Txt t].

Definition tag_of (x : xml) : option string :=
  match x with
  | Ele t _ _ => Some t
  | Txt _ => None
  end.

Definition kids_of (x : xml) : list xml :=
  match x with
  | Ele _ _ k => k
  | Txt _ => []
  end.

Definition has_tag (t : string) (x : xml) : bool :=
  match x with
  | Ele t' _ _ => String.eqb t t'
  | Txt _ => false
  end.

(** The child elements of [x] named [t], in document order. *)
Definition children (t : string) (x : xml) : list xml :=
  filter (has_tag t) (kids_of x).

(** The first child element named [t]. *)
Definition child (t : string) (x : xml) : option xml :=
  find (has_tag t) (kids_of x).

(** The text of an element holding one text node. *)
Definition text_of (x : xml) : option jsstring :=
  match x with
  | Ele _ _ [Txt t] => Some t
  | _ => None
  end.

(** The text of the element reached by a path of child names. *)
Fixpoint text_at (path : list string) (x : xml) : option jsstring :=
  match path with
  | [] => text_of x
  | t :: p =>
      match child t x with
      | Some c => text_at p c
      | None => None
      end
  end.

(* ================================================================== *)
(** ** Tax grouping ([calculateLineExtension], [groupLinesByTax]) *)
(* ================================================================== *)

(** [calculateLineExtension] (InvoiceBuilder.ts, 93-97) *)
Definition calculateLineExtension (line : InvoiceLine) : number :=
  let roundedUnitPrice := parseFloat (toFixed2 (unitPrice line)) in
  parseFloat (toFixed2 (mul (quantity line) roundedUnitPrice)).

(** [line.taxPercent || 0] *)
Definition taxPercent_or_0 (line : InvoiceLine) : number :=
  match taxPercent line with
  | Some p => if JsNumber.truthy p then p else pzero
  | None => pzero
  end.

(** The category of a line and its exemption reason (the [if] chain of
    InvoiceBuilder.ts, 117-124). *)
Definition taxCategory (isSupplierVatPayer : bool) (taxPercent : number)
  : jsstring * option jsstring :=
  if negb isSupplierVatPayer then (js "O", Some (js "VATEX-EU-O"))
  else if gtb taxPercent pzero then (js "S", None)
  else (js "Z", None).

(** The key [`${categoryId}-${taxPercent}`] of the map of groups.  The
    category is one of three one-letter codes and [Number::toString] maps
    distinct numbers to distinct strings ([-0] and [+0] apart, and
    [taxPercent] is never [-0]); so two keys are the same string exactly
    when they have the same category and the same percent, and the key is
    kept as that pair. *)
Definition TaxKey := (jsstring * number)%type.

Definition number_eq_dec (x y : number) : {x = y} + {x <> y}.
Proof.
  decide equality; solve [apply Bool.bool_dec | apply Pos.eq_dec | apply Z.eq_dec].
Defined.

Definition TaxKey_eq_dec (a b : TaxKey) : {a = b} + {a <> b}.
Proof.
  decide equality; [apply number_eq_dec | apply (list_eq_dec N.eq_dec)].
Defined.

(** A [Map<string, TaxGroup>]: entries in insertion order; writing to the
    group of an existing key keeps its position. *)
Definition TaxMap := list (TaxKey * TaxGroup).

Fixpoint map_has (k : TaxKey) (m : TaxMap) : bool :=
  match m with
  | [] => false
  | (k', _) :: r => if TaxKey_eq_dec k k' then true else map_has k r
  end.

(** [f] applied to the group stored under [k]. *)
Fixpoint map_update (k : TaxKey) (f : TaxGroup -> TaxGroup) (m : TaxMap) : TaxMap :=
  match m with
  | [] => []
  | (k', g) :: r =>
      if TaxKey_eq_dec k k' then (k', f g) :: r
      else (k', g) :: map_update k f r
  end.

(** [taxGroups.set(key, g)] for a key that is not in the map. *)
Definition map_set_new (k : TaxKey) (g : TaxGroup) (m : TaxMap) : TaxMap :=
  m ++ [(k, g)].

(** The two assignments of the [has(key)] branch. *)
Definition accumulate (lineExtension lineTaxAmount : number) (group : TaxGroup) : TaxGroup :=
  {| categoryId := categoryId group;
     percent := percent group;
     taxableAmount := parseFloat (toFixed2 (add (taxableAmount group) lineExtension));
     taxAmount := parseFloat (toFixed2 (add (taxAmount group) lineTaxAmount));
     exemptionReasonCode := exemptionReasonCode group |}.

(** The tax amount of a line (InvoiceBuilder.ts, 111). *)
Definition lineTax (line : InvoiceLine) : number :=
  parseFloat (toFixed2 (mul (calculateLineExtension line)
                            (div (taxPercent_or_0 line) (lit "100")))).

Definition lineKey (isSupplierVatPayer : bool) (line : InvoiceLine) : TaxKey :=
  (fst (taxCategory isSupplierVatPayer (taxPercent_or_0 line)), taxPercent_or_0 line).

(** The body of the [forEach] of [groupLinesByTax]. *)
Definition groupStep (isSupplierVatPayer : bool) (taxGroups : TaxMap)
  (line : InvoiceLine) : TaxMap :=
  let taxPercent := taxPercent_or_0 line in
  let lineExtension := calculateLineExtension line in
  let taxAmount :=
    parseFloat (toFixed2 (mul lineExtension (div taxPercent (lit "100")))) in
  let '(categoryId, exemptionReasonCode) :=
    taxCategory isSupplierVatPayer taxPercent in
  let key : TaxKey := (categoryId, taxPercent) in
  if map_has key taxGroups then
    map_update key (accumulate lineExtension taxAmount) taxGroups
  else
    map_set_new key
      {| categoryId := categoryId;
         percent := taxPercent;
         taxableAmount := lineExtension;
         taxAmount := taxAmount;
         exemptionReasonCode := exemptionReasonCode |}
      taxGroups.

(** [groupLinesByTax] (InvoiceBuilder.ts, 105-144) *)
Definition groupLinesByTax (lines : list InvoiceLine) (isSupplierVatPayer : bool)
  : list TaxGroup :=
  map snd (fold_left (groupStep isSupplierVatPayer) lines []).

(* ================================================================== *)
(** ** The input validator *)
(* ================================================================== *)

(** [validateAddress] (InvoiceBuilder.ts, 213-225) *)
Definition validateAddress (address : Address) (role : jsstring) : outcome unit :=
  throw_if (blank (street address)) (role ++ js " street address is required") ;;;
  throw_if (blank (city address)) (role ++ js " city is required") ;;;
  throw_if (blank (postalZone address)) (role ++ js " postal zone is required").

(** [validateParty] (InvoiceBuilder.ts, 192-206) *)
Definition validateParty (party : Party) (role : jsstring) : outcome unit :=
  throw_if (blank (registrationName party))
    (role ++ js " registration name is required") ;;;
  throw_if (blank (companyId party)) (role ++ js " company ID is required") ;;;
  match address party with
  | None => Throw (AnafValidationError (role ++ js " address is required"))
  | Some a => validateAddress a role
  end.

(** [`Line ${index + 1}: `] *)
Definition linePrefix (index : nat) : jsstring :=
  js "Line " ++ digits (N.of_nat (index + 1)) ++ js ": ".

(** [validateLine] (InvoiceBuilder.ts, 232-250) *)
Definition validateLine (line : InvoiceLine) (index : nat) : outcome unit :=
  throw_if (blank (name line)) (linePrefix index ++ js "Name is required") ;;;
  throw_if (leb (quantity line) pzero)
    (linePrefix index ++ js "Quantity must be a positive number") ;;;
  throw_if (ltb (unitPrice line) pzero)
    (linePrefix index ++ js "Unit price must be a non-negative number") ;;;
  match taxPercent line with
  | None => Ok tt
  | Some p =>
      throw_if (ltb p pzero || gtb p (lit "100"))
        (linePrefix index ++ js "Tax percent must be between 0 and 100")
  end.

(** [lines.forEach((line, index) => validateLine(line, index))], from
    position [index] on. *)
Fixpoint validateLines (lines : list InvoiceLine) (index : nat) : outcome unit :=
  match lines with
  | [] => Ok tt
  | line :: rest => validateLine line index ;;; validateLines rest (S index)
  end.

Definition some_truthy {A} (truthy : A -> bool) (o : option A) : bool :=
  match o with
  | Some a => truthy a
  | None => false
  end.

(** [validateInvoiceInput] (InvoiceBuilder.ts, 151-185) *)
Definition validateInvoiceInput (input : option InvoiceInput) : outcome unit :=
  match input with
  | None => Throw (AnafValidationError (js "Invoice input data is required"))
  | Some input =>
      throw_if (blank (invoiceNumber input)) (js "Invoice number is required") ;;;
      throw_if (negb (some_truthy DateArg_truthy (issueDate input)))
        (js "Issue date is required") ;;;
      match supplier input with
      | None => Throw (AnafValidationError (js "Supplier information is required"))
      | Some s =>
          validateParty s (js "Supplier") ;;;
          match customer input with
          | None => Throw (AnafValidationError (js "Customer information is required"))
          | Some c =>
              validateParty c (js "Customer") ;;;
              match lines input with
              | None => Throw (AnafValidationError (js "Invoice lines array is required"))
              | Some ls => validateLines ls 0
              end
          end
      end
  end.

(* ================================================================== *)
(** ** The document builder *)
(* ================================================================== *)

Section Builder.

(** What the builder imports from files that are missing from the sources
    ([utils/validators], [ubl/address-sanitizer], [utils/dateUtils],
    [constants]) is a parameter of the development. *)
Variable normalizeVatNumber : jsstring -> jsstring.
Variable sanitizeCounty : option jsstring -> option jsstring.
Variable sanitizeBucharestSector : option jsstring -> option jsstring.
Variable isBucharest : option jsstring -> bool.
Variable formatDateForAnaf : DateArg -> jsstring.
Variable UBL_CUSTOMIZATION_ID : jsstring.
Variable DEFAULT_CURRENCY : jsstring.
Variable DEFAULT_COUNTRY_CODE : jsstring.
Variable DEFAULT_UNIT_CODE : jsstring.

(** The [cac:PostalAddress] element (InvoiceBuilder.ts, 33-59). *)
Definition postalAddressXml (address' : Address) : xml :=
  let county' := sanitizeCounty (county address') in
  let city' :=
    if isBucharest county' then sanitizeBucharestSector (city address')
    else city address' in
  Ele "cac:PostalAddress" []
    [ leaf "cbc:StreetName" [] (or_default (street address') []);
      leaf "cbc:CityName" [] (or_default city' []);
      leaf "cbc:PostalZone" [] (or_default (postalZone address') []);
      leaf "cbc:CountrySubentity" [] (or_default county' []);
      Ele "cac:Country" []
        [ leaf "cbc:IdentificationCode" []
            (or_default (countryCode address') DEFAULT_COUNTRY_CODE) ] ].

(** The [cac:PartyTaxScheme] element (InvoiceBuilder.ts, 63-73). *)
Definition partyTaxSchemeXml (companyId' : jsstring) : xml :=
  Ele "cac:PartyTaxScheme" []
    [ leaf "cbc:CompanyID" [] (normalizeVatNumber companyId');
      Ele "cac:TaxScheme" [] [ leaf "cbc:ID" [] (js "VAT") ] ].

(** [buildPartyXml] (InvoiceBuilder.ts, 31-86): the element [tagName]
    appended to the root. *)
Definition buildPartyXml (tagName : string) (party : Party) : outcome xml :=
  address' <- defined (address party) ;;
  companyId' <- defined (companyId party) ;;
  registrationName' <- defined (registrationName party) ;;
  Ok (Ele tagName []
        [ Ele "cac:Party" []
            ([ postalAddressXml address' ]
             ++ (if some_truthy (fun b : bool => b) (isVatPayer party)
                 then [ partyTaxSchemeXml companyId' ] else [])
             ++ [ Ele "cac:PartyLegalEntity" []
                    [ leaf "cbc:RegistrationName" [] registrationName';
                      leaf "cbc:CompanyID" [] companyId' ] ]) ]).

(** One [cac:TaxSubtotal] per group (InvoiceBuilder.ts, 373-396). *)
Definition taxSubtotalXml (currency' : jsstring) (group : TaxGroup) : xml :=
  Ele "cac:TaxSubtotal" []
    [ leaf "cbc:TaxableAmount" [("currencyID", currency')]
        (toFixed2 (taxableAmount group));
      leaf "cbc:TaxAmount" [("currencyID", currency')]
        (toFixed2 (taxAmount group));
      Ele "cac:TaxCategory" []
        ([ leaf "cbc:ID" [] (categoryId group);
           leaf "cbc:Percent" [] (toFixed2 (percent group)) ]
         ++ (match exemptionReasonCode group with
             | Some code =>
                 if JsString.truthy code
                 then [ leaf "cbc:TaxExemptionReasonCode" [] code ]
                 else []
             | None => []
             end)
         ++ [ Ele "cac:TaxScheme" [] [ leaf "cbc:ID" [] (js "VAT") ] ]) ].

(** The default subtotal of an invoice without groups
    (InvoiceBuilder.ts, 398-420). *)
Definition defaultTaxSubtotalXml (currency' : jsstring) : xml :=
  Ele "cac:TaxSubtotal" []
    [ leaf "cbc:TaxableAmount" [("currencyID", currency')] (js "0.00");
      leaf "cbc:TaxAmount" [("currencyID", currency')] (js "0.00");
      Ele "cac:TaxCategory" []
        [ leaf "cbc:ID" [] (js "S");
          leaf "cbc:Percent" [] (js "0.00");
          Ele "cac:TaxScheme" [] [ leaf "cbc:ID" [] (js "VAT") ] ] ].

(** The [cac:TaxTotal] element (InvoiceBuilder.ts, 365-421). *)
Definition taxTotalXml (currency' : jsstring) (totalTaxAmount : number)
  (taxGroups : list TaxGroup) : xml :=
  Ele "cac:TaxTotal" []
    (leaf "cbc:TaxAmount" [("currencyID", currency')] (toFixed2 totalTaxAmount)
     :: match taxGroups with
        | [] => [ defaultTaxSubtotalXml currency' ]
        | _ => map (taxSubtotalXml currency') taxGroups
        end).

(** The [cac:LegalMonetaryTotal] element (InvoiceBuilder.ts, 424-438). *)
Definition legalMonetaryTotalXml (currency' : jsstring)
  (totalTaxableAmount grandTotal : number) : xml :=
  Ele "cac:LegalMonetaryTotal" []
    [ leaf "cbc:LineExtensionAmount" [("currencyID", currency')]
        (toFixed2 totalTaxableAmount);
      leaf "cbc:TaxExclusiveAmount" [("currencyID", currency')]
        (toFixed2 totalTaxableAmount);
      leaf "cbc:TaxInclusiveAmount" [("currencyID", currency')]
        (toFixed2 grandTotal);
      leaf "cbc:PayableAmount" [("currencyID", currency')]
        (toFixed2 grandTotal) ].

(** [line.id?.toString() || (index + 1).toString()] *)
Definition lineIdText (line : InvoiceLine) (index : nat) : jsstring :=
  match id line with
  | Some (inl s) =>
      if JsString.truthy s then s else digits (N.of_nat (index + 1))
  | Some (inr x) => Number_toString x
  | None => digits (N.of_nat (index + 1))
  end.

(** One [cac:InvoiceLine] (the body of the [forEach] of
    InvoiceBuilder.ts, 441-499). *)
Definition invoiceLineXml (currency' : jsstring) (isSupplierVatPayer : bool)
  (line : InvoiceLine) (index : nat) : outcome xml :=
  let lineExtension := calculateLineExtension line in
  let taxPercent' := taxPercent_or_0 line in
  let roundedUnitPrice := parseFloat (toFixed2 (unitPrice line)) in
  let lineTaxCategory :=
    if negb isSupplierVatPayer then js "O"
    else if gtb taxPercent' pzero then js "S"
    else js "Z" in
  name' <- defined (name line) ;;
  Ok (Ele "cac:InvoiceLine" []
        [ leaf "cbc:ID" [] (lineIdText line index);
          leaf "cbc:InvoicedQuantity"
            [("unitCode", or_default (unitCode line) DEFAULT_UNIT_CODE)]
            (Number_toString (quantity line));
          leaf "cbc:LineExtensionAmount" [("currencyID", currency')]
            (toFixed2 lineExtension);
          Ele "cac:Item" []
            ([ leaf "cbc:Name" [] name' ]
             ++ (match description line with
                 | Some d =>
                     if JsString.truthy d
                     then [ leaf "cbc:Description" [] d ] else []
                 | None => []
                 end)
             ++ [ Ele "cac:ClassifiedTaxCategory" []
                    [ leaf "cbc:ID" [] lineTaxCategory;
                      leaf "cbc:Percent" [] (toFixed2 taxPercent');
                      Ele "cac:TaxScheme" []
                        [ leaf "cbc:ID" [] (js "VAT") ] ] ]);
          Ele "cac:Price" []
            [ leaf "cbc:PriceAmount" [("currencyID", currency')]
                (toFixed2 roundedUnitPrice) ] ]).

Fixpoint invoiceLinesXml (currency' : jsstring) (isSupplierVatPayer : bool)
  (lines' : list InvoiceLine) (index : nat) : outcome (list xml) :=
  match lines' with
  | [] => Ok []
  | line :: rest =>
      x <- invoiceLineXml currency' isSupplierVatPayer line index ;;
      xs <- invoiceLinesXml currency' isSupplierVatPayer rest (S index) ;;
      Ok (x :: xs)
  end.

(** [taxGroups.reduce((sum, group) => sum + group.taxableAmount, 0)] *)
Definition totalTaxable (taxGroups : list TaxGroup) : number :=
  fold_left (fun sum group => add sum (taxableAmount group)) taxGroups pzero.

(** [taxGroups.reduce((sum, group) => sum + group.taxAmount, 0)] *)
Definition totalTax (taxGroups : list TaxGroup) : number :=
  fold_left (fun sum group => add sum (taxAmount group)) taxGroups pzero.

(** The tax groups of the document (InvoiceBuilder.ts, 312). *)
Definition taxGroupsOf (lines' : list InvoiceLine) (isSupplierVatPayer : bool)
  : list TaxGroup :=
  match lines' with
  | [] => []
  | _ => groupLinesByTax lines' isSupplierVatPayer
  end.

Definition headerXml (input' : InvoiceInput) (issueDate' dueDate' : jsstring)
  (currency' : jsstring) : outcome (list xml) :=
  invoiceNumber' <- defined (invoiceNumber input') ;;
  Ok [ leaf "cbc:CustomizationID" [] UBL_CUSTOMIZATION_ID;
       leaf "cbc:ID" [] invoiceNumber';
       leaf "cbc:IssueDate" [] issueDate';
       leaf "cbc:DueDate" [] dueDate';
       leaf "cbc:InvoiceTypeCode" []
         (InvoiceTypeCode_value
                 (match invoiceTypeCode input' with
                  | Some c => c
                  | None => COMMERCIAL_INVOICE
                  end));
       leaf "cbc:DocumentCurrencyCode" [] currency' ].

(** The [cac:PaymentMeans] element (InvoiceBuilder.ts, 350-362). *)
Definition paymentMeansXml (input' : InvoiceInput) : list xml :=
  match paymentIban input' with
  | Some iban =>
      if JsString.truthy iban then
        [ Ele "cac:PaymentMeans" []
            [ leaf "cbc:PaymentMeansCode" [] (js "30");
              Ele "cac:PayeeFinancialAccount" []
                [ leaf "cbc:ID" [] iban ] ] ]
      else []
  | None => []
  end.

Definition invoiceNamespaces : list (string * jsstring) :=
  [ ("xmlns", js "urn:oasis:names:specification:ubl:schema:xsd:Invoice-2");
    ("xmlns:cbc",
     js "urn:oasis:names:specification:ubl:schema:xsd:CommonBasicComponents-2");
    ("xmlns:cac",
     js "urn:oasis:names:specification:ubl:schema:xsd:CommonAggregateComponents-2") ].

(** [buildInvoiceXml] (InvoiceBuilder.ts, 298-502): the [Invoice] element
    that [root.end] serialises. *)
Definition buildInvoiceXml (input : option InvoiceInput) : outcome xml :=
  validateInvoiceInput input ;;;
  input' <- defined input ;;
  let currency' := or_default (currency input') DEFAULT_CURRENCY in
  supplier' <- defined (supplier input') ;;
  let isSupplierVatPayer := some_truthy (fun b : bool => b) (isVatPayer supplier') in
  issue <- defined (issueDate input') ;;
  let issueDate' := formatDateForAnaf issue in
  let dueDate' :=
    match dueDate input' with
    | Some d => if DateArg_truthy d then formatDateForAnaf d else issueDate'
    | None => issueDate'
    end in
  lines' <- defined (lines input') ;;
  let taxGroups := taxGroupsOf lines' isSupplierVatPayer in
  let totalTaxableAmount := totalTaxable taxGroups in
  let totalTaxAmount := totalTax taxGroups in
  let grandTotal :=
    parseFloat (toFixed2 (add totalTaxableAmount totalTaxAmount)) in
  header <- headerXml input' issueDate' dueDate' currency' ;;
  supplierXml <- buildPartyXml "cac:AccountingSupplierParty" supplier' ;;
  customer' <- defined (customer input') ;;
  customerXml <- buildPartyXml "cac:AccountingCustomerParty" customer' ;;
  lineXmls <- invoiceLinesXml currency' isSupplierVatPayer lines' 0 ;;
  Ok (Ele "Invoice" invoiceNamespaces
        (header
         ++ [ supplierXml; customerXml ]
         ++ paymentMeansXml input'
         ++ [ taxTotalXml currency' totalTaxAmount taxGroups;
              legalMonetaryTotalXml currency' totalTaxableAmount grandTotal ]
         ++ lineXmls)).

End Builder.

(* ================================================================== *)
(** ** The address sanitizer ([src/ubl/address-sanitizer], missing from the sources) *)
(* ================================================================== *)

Module AddressSanitizer.

(** Modelled from the spec: lower-casing of the letters county names are
    written with (the file address-sanitizer.ts is missing): ASCII, the
    Latin-1 capitals, and the Romanian capitals with breve, comma or
    cedilla. *)
Definition lowerChar (c : N) : N :=
  (if (65 <=? c) && (c <=? 90) then c + 32
   else if (192 <=? c) && (c <=? 222) && negb (c =? 215) then c + 32
   else if existsb (N.eqb c) [258; 350; 354; 536; 538] then c + 1
   else c)%N.

(** Modelled from the spec: "stripping diacritics (e.g. s/t with comma or
    cedilla, a with circumflex, i with circumflex -> s/t/a/i)"; a with
    breve goes with them. *)
Definition stripDiacritic (c : N) : N :=
  (if existsb (N.eqb c) [226; 259] then 97
   else if c =? 238 then 105
   else if existsb (N.eqb c) [351; 537] then 115
   else if existsb (N.eqb c) [355; 539] then 116
   else c)%N.

(** Modelled from the spec: the separators it lists, [-], [_], [.], [,]
    and the space (address-sanitizer.ts is missing). *)
Definition isSeparator (c : N) : bool :=
  existsb (N.eqb c) [45; 95; 46; 44; 32]%N.

(** Modelled from the spec: every run of separators becomes one space. *)
Fixpoint collapseSeparators (s : jsstring) : jsstring :=
  match s with
  | [] => []
  | c :: r =>
      if isSeparator c then
        match r with
        | c' :: _ => if isSeparator c' then collapseSeparators r
                     else 32%N :: collapseSeparators r
        | [] => [32%N]
        end
      else c :: collapseSeparators r
  end.

(** Modelled from the spec: "Normalize by: trimming, lower-casing,
    stripping diacritics, collapsing separators to a single space". *)
Definition normalizeInput (s : jsstring) : jsstring :=
  collapseSeparators (map stripDiacritic (map lowerChar (trim s))).

(** Modelled from the spec: the table from normalized names to county
    codes.  The spec does not list it; it holds the canonical names of
    the 41 counties, the Bucharest aliases the spec names, and the
    alternate spellings the tests of the sanitizer use. *)
Definition countyTable : list (string * string) :=
  [ ("alba", "RO-AB"); ("arad", "RO-AR"); ("arges", "RO-AG");
    ("bacau", "RO-BC"); ("bihor", "RO-BH"); ("bistrita nasaud", "RO-BN");
    ("botosani", "RO-BT"); ("brasov", "RO-BV"); ("braila", "RO-BR");
    ("buzau", "RO-BZ"); ("caras severin", "RO-CS"); ("calarasi", "RO-CL");
    ("cluj", "RO-CJ"); ("constanta", "RO-CT"); ("covasna", "RO-CV");
    ("dambovita", "RO-DB"); ("dimbovita", "RO-DB"); ("dolj", "RO-DJ");
    ("galati", "RO-GL"); ("giurgiu", "RO-GR"); ("gorj", "RO-GJ");
    ("harghita", "RO-HR"); ("hunedoara", "RO-HD"); ("ialomita", "RO-IL");
    ("iasi", "RO-IS"); ("ilfov", "RO-IF"); ("maramures", "RO-MM");
    ("mehedinti", "RO-MH"); ("mures", "RO-MS"); ("neamt", "RO-NT");
    ("olt", "RO-OT"); ("prahova", "RO-PH"); ("satu mare", "RO-SM");
    ("salaj", "RO-SJ"); ("sibiu", "RO-SB"); ("suceava", "RO-SV");
    ("teleorman", "RO-TR"); ("timis", "RO-TM"); ("tulcea", "RO-TL");
    ("vaslui", "RO-VS"); ("valcea", "RO-VL"); ("vilcea", "RO-VL");
    ("vrancea", "RO-VN");
    ("bucuresti", "RO-B"); ("buc", "RO-B") ].

Fixpoint lookup (table : list (string * string)) (key : jsstring)
  : option jsstring :=
  match table with
  | [] => None
  | (k, v) :: r => if JsString.eqb (js k) key then Some (js v) else lookup r key
  end.

(** Modelled from the spec: the administrative qualifier words, in
    normalized form ("judetul", "municipiul", "mun", "orasul", "comuna",
    abbreviated forms). *)
Definition qualifierWords : list string :=
  [ "judetul"; "judet"; "jud"; "municipiul"; "mun"; "orasul"; "oras";
    "comuna"; "com" ].

Definition isQualifier (w : jsstring) : bool :=
  existsb (fun q => JsString.eqb (js q) w) qualifierWords.

(** The words of a normalized string (split at spaces, no empty word). *)
Fixpoint splitWords (s : jsstring) (cur : jsstring) : list jsstring :=
  match s with
  | [] => match cur with [] => [] | _ => [rev cur] end
  | c :: r =>
      if N.eqb c 32 then
        match cur with
        | [] => splitWords r []
        | _ => rev cur :: splitWords r []
        end
      else splitWords r (c :: cur)
  end.

Fixpoint joinWords (ws : list jsstring) : jsstring :=
  match ws with
  | [] => []
  | [w] => w
  | w :: r => w ++ 32%N :: joinWords r
  end.

Fixpoint dropQualifiers (ws : list jsstring) : list jsstring :=
  match ws with
  | w :: r => if isQualifier w then dropQualifiers r else ws
  | [] => []
  end.

(** Modelled from the spec: "strip leading/trailing administrative
    qualifier words". *)
Definition stripQualifiers (s : jsstring) : jsstring :=
  joinWords (rev (dropQualifiers (rev (dropQualifiers (splitWords s []))))).

(** Modelled from the spec (4.1, sanitizeCounty): null on a missing,
    empty or white-space input; a direct lookup of the normalized input;
    when that fails, one more lookup with the qualifier words stripped;
    null when neither matches. *)
Definition sanitizeCounty (input : option jsstring) : option jsstring :=
  match input with
  | None => None
  | Some s =>
      match trim s with
      | [] => None
      | _ =>
          let n := normalizeInput s in
          match lookup countyTable n with
          | Some code => Some code
          | None => lookup countyTable (stripQualifiers n)
          end
      end
  end.

(** Modelled from the spec: the prefixes of a sector token ("sector",
    "sectorul", abbreviations "sect", "s"), longest first. *)
Definition sectorPrefixes : list string := [ "sectorul"; "sector"; "sect"; "s" ].

(** A 1-2 digit number that ends its word: its value. *)
Definition sectorNumber (s : jsstring) : option N :=
  let endsWord (r : jsstring) :=
    match r with [] => true | c :: _ => N.eqb c 32 end in
  match s with
  | d1 :: d2 :: r =>
      if isDigit d1 then
        if isDigit d2 then
          if endsWord r then Some (10 * (d1 - 48) + (d2 - 48))%N else None
        else if endsWord (d2 :: r) then Some (d1 - 48)%N else None
      else None
  | [d1] => if isDigit d1 then Some (d1 - 48)%N else None
  | [] => None
  end.

(** A sector token at the head of [s]: a prefix, an optional space, the
    number. *)
Definition sectorTokenAt (s : jsstring) : option N :=
  let try (p : string) : option N :=
    match starts_with (js p) s with
    | Some (32%N :: r) =>
        match sectorNumber r with
        | Some n => Some n
        | None => None
        end
    | Some r => sectorNumber r
    | None => None
    end in
  fold_right (fun p acc => match try p with Some n => Some n | None => acc end)
    None sectorPrefixes.

(** The first sector token that starts a word of [s]. *)
Fixpoint firstSectorToken (s : jsstring) (wordStart : bool) : option N :=
  match s with
  | [] => None
  | c :: r =>
      match (if wordStart then sectorTokenAt s else None) with
      | Some n => Some n
      | None => firstSectorToken r (N.eqb c 32)
      end
  end.

(** Modelled from the spec (4.1, sanitizeBucharestSector): null on a
    missing, empty or white-space input; the first sector token of the
    normalized input; "SECTOR" and its number when that is 1 to 6, null
    otherwise. *)
Definition sanitizeBucharestSector (input : option jsstring) : option jsstring :=
  match input with
  | None => None
  | Some s =>
      match trim s with
      | [] => None
      | _ =>
          match firstSectorToken (normalizeInput s) true with
          | Some n =>
              if ((1 <=? n) && (n <=? 6))%N then Some (js "SECTOR" ++ digits n)
              else None
          | None => None
          end
      end
  end.

Definition upperChar (c : N) : N :=
  (if (97 <=? c) && (c <=? 122) then c - 32 else c)%N.

(** Modelled from the spec (4.1, isBucharest): "Case-insensitive,
    whitespace-trimmed comparison against RO-B. Any other value, null, or
    undefined -> false." *)
Definition isBucharest (countyCode : option jsstring) : bool :=
  match countyCode with
  | None => false
  | Some c => JsString.eqb (map upperChar (trim c)) (js "RO-B")
  end.

End AddressSanitizer.

(* ================================================================== *)
(** ** The specification's reading of the amounts *)
(* ================================================================== *)

(** The rational a finite number is (0 for the others). *)
Definition exact (x : number) : Q :=
  match x with
  | S754_finite s m e => inject_Z (cond_Zopp s (Zpos m)) * Qpower 2 e
  | _ => 0
  end.

(** Rounding a decimal amount to 2 places, half up: the number of
    hundredths. *)
Definition roundHalfUp2 (q : Q) : Z := Qfloor (q * 100 + (1 # 2)).

(** "Round the unit price to 2 decimals first, then multiply by quantity,
    then round the product to 2 decimals", in decimal arithmetic: the
    number of hundredths. *)
Definition decimalLineExtension (quantity' unitPrice' : number) : Z :=
  roundHalfUp2 (inject_Z (roundHalfUp2 (exact unitPrice')) / 100 * exact quantity').

(** "per-line tax amount = round(lineExtension x percent/100, 2)", in
    decimal arithmetic. *)
Definition decimalTaxAmount (lineExtension taxPercent' : number) : Z :=
  roundHalfUp2 (exact lineExtension * exact taxPercent' / 100).

(** "Round the unit price to 2 decimals first, then multiply by quantity,
    then round the product to 2 decimals": the formula of the
    specification over the operations of the program. *)
Definition lineExtensionFormula (quantity' unitPrice' : number) : number :=
  round2 (mul (round2 unitPrice') quantity').


(** The distinct keys of a sequence, in first-seen order. *)
Fixpoint firstSeen (keys : list TaxKey) : list TaxKey :=
  match keys with
  | [] => []
  | k :: rest => k :: remove TaxKey_eq_dec k (firstSeen rest)
  end.

Definition hasKey (isSupplierVatPayer : bool) (k : TaxKey) (line : InvoiceLine) : bool :=
  if TaxKey_eq_dec (lineKey isSupplierVatPayer line) k then true else false.

(** The amounts of the lines of one group, added one after the other with
    a rounding to 2 decimals after each addition. *)
Definition accumulated (amount : InvoiceLine -> number) (group : list InvoiceLine)
  : number :=
  match group with
  | [] => pzero
  | first :: rest =>
      fold_left (fun acc line => round2 (add acc (amount line))) rest (amount first)
  end.

(** The group of key [k]: its amounts are accumulated over the lines that
    carry the key, in their order. *)
Definition groupOf (isSupplierVatPayer : bool) (lines' : list InvoiceLine)
  (k : TaxKey) : TaxGroup :=
  let members := filter (hasKey isSupplierVatPayer k) lines' in
  {| categoryId := fst k;
     percent := snd k;
     taxableAmount := accumulated calculateLineExtension members;
     taxAmount := accumulated lineTax members;
     exemptionReasonCode := snd (taxCategory isSupplierVatPayer (snd k)) |}.

(** The (category, percent) pair of a group. *)
Definition groupKey (g : TaxGroup) : TaxKey := (categoryId g, percent g).

(** One group per distinct key, in first-seen order. *)
Definition groupsBySpec (isSupplierVatPayer : bool) (lines' : list InvoiceLine)
  : list TaxGroup :=
  map (groupOf isSupplierVatPayer lines')
      (firstSeen (map (lineKey isSupplierVatPayer) lines')).

(** *** The percent and the category a line states *)

(** "optional tax percent (0-100, default 0)": the percent a line states,
    0 when it states none.  The two zeros of a Number are the one number
    0, written [+0]. *)
Definition statedPercent (line : InvoiceLine) : number :=
  match taxPercent line with
  | Some (S754_zero _) => pzero
  | Some p => p
  | None => pzero
  end.

(** "tax percent in [0,100] when present", the invariant of a line. *)
Definition percentInRange (line : InvoiceLine) : bool :=
  match taxPercent line with
  | Some p => leb pzero p && leb p (lit "100")
  | None => true
  end.

(** The selection of the specification, read on the fields of the line:
    "if the supplier is not a VAT payer, category O with exemption reason
    code VATEX-EU-O, regardless of the line's stated tax percent; else if
    tax percent > 0, category S; else category Z". *)
Definition statedCategory (isSupplierVatPayer : bool) (line : InvoiceLine)
  : jsstring * option jsstring :=
  if negb isSupplierVatPayer then (js "O", Some (js "VATEX-EU-O"))
  else
    match taxPercent line with
    | Some p => if gtb p pzero then (js "S", None) else (js "Z", None)
    | None => (js "Z", None)
    end.



(** A string with exactly 2 decimal places: an optional sign, at least one
    digit, a point, two digits. *)
Fixpoint spanDigits (s : jsstring) : jsstring * jsstring :=
  match s with
  | c :: r =>
      if isDigit c then let '(a, b) := spanDigits r in (c :: a, b) else ([], s)
  | [] => ([], [])
  end.

Definition dropMinus (s : jsstring) : jsstring :=
  match s with
  | c :: r => if N.eqb c 45 then r else s
  | [] => s
  end.

Definition unsignedTwoDecimals (s : jsstring) : bool :=
  match spanDigits s with
  | (_ :: _, [dot; d1; d2]) => N.eqb dot 46 && isDigit d1 && isDigit d2
  | _ => false
  end.

Definition hasTwoDecimals (s : jsstring) : bool :=
  unsignedTwoDecimals (dropMinus s).

(** A number [toFixed(2)] writes in fixed notation: finite and below 10^21
    in magnitude. *)
Definition fixedRange (x : number) : bool :=
  match x with
  | S754_zero _ => true
  | S754_finite _ m e => negb (ge_1e21 m e)
  | _ => false
  end.

(** *** The checks of the validator, in the order of the specification *)

(** A check: whether it is violated, and the message of its error. *)
Definition check := (bool * jsstring)%type.

(** The message of the first violated check. *)
Definition firstViolation (checks : list check) : option jsstring :=
  option_map snd (find fst checks).

Definition missing {A} (o : option A) : bool :=
  match o with
  | None => true
  | Some _ => false
  end.

Definition field {A B} (f : A -> option B) (o : option A) : option B :=
  match o with
  | Some a => f a
  | None => None
  end.

(** Presence of the party and its fields: registration name, company id,
    address, then street, city and postal zone of the address. *)
Definition partyChecks (role : jsstring) (party : option Party) : list check :=
  let address' := field address party in
  [ (blank (field registrationName party),
     role ++ js " registration name is required");
    (blank (field companyId party), role ++ js " company ID is required");
    (missing address', role ++ js " address is required");
    (blank (field street address'), role ++ js " street address is required");
    (blank (field city address'), role ++ js " city is required");
    (blank (field postalZone address'), role ++ js " postal zone is required") ].

(** The checks of the line at 0-based position [index]; the messages name
    the line by [index + 1]. *)
Definition lineChecks (line : InvoiceLine) (index : nat) : list check :=
  let named (message : string) : jsstring :=
    js "Line " ++ digits (N.of_nat (index + 1)) ++ js ": " ++ js message in
  [ (blank (name line), named "Name is required");
    (leb (quantity line) pzero, named "Quantity must be a positive number");
    (ltb (unitPrice line) pzero,
     named "Unit price must be a non-negative number");
    (match taxPercent line with
     | Some p => ltb p pzero || gtb p (lit "100")
     | None => false
     end,
     named "Tax percent must be between 0 and 100") ].

Fixpoint linesChecks (lines' : list InvoiceLine) (index : nat) : list check :=
  match lines' with
  | [] => []
  | line :: rest => lineChecks line index ++ linesChecks rest (S index)
  end.

(** Invoice number, issue date, supplier presence and fields, customer
    presence and fields, lines presence, then the lines in sequence. *)
Definition inputChecks (input : InvoiceInput) : list check :=
  [ (blank (invoiceNumber input), js "Invoice number is required");
    (negb (some_truthy DateArg_truthy (issueDate input)),
     js "Issue date is required");
    (missing (supplier input), js "Supplier information is required") ]
  ++ partyChecks (js "Supplier") (supplier input)
  ++ [ (missing (customer input), js "Customer information is required") ]
  ++ partyChecks (js "Customer") (customer input)
  ++ [ (missing (lines input), js "Invoice lines array is required") ]
  ++ match lines input with
     | Some lines' => linesChecks lines' 0
     | None => []
     end.

(** The outcome of a validator that stops at the first violated check. *)
Definition stopAtFirst (checks : list check) : outcome unit :=
  match firstViolation checks with
  | Some message => Throw (AnafValidationError message)
  | None => Ok tt
  end.

(* ================================================================== *)
(** ** Attributes of the document tree *)
(* ================================================================== *)

(** The value of the attribute [a] of an element. *)
Definition attribute (a : string) (x : xml) : option jsstring :=
  match x with
  | Ele _ atts _ =>
      option_map snd (find (fun kv => String.eqb a (fst kv)) atts)
  | Txt _ => None
  end.

(* ================================================================== *)
(** ** The builder class ([UblBuilder.generateInvoiceXml]) *)
(* ================================================================== *)

Section UblBuilder.

Variable normalizeVatNumber : jsstring -> jsstring.
Variable sanitizeCounty : option jsstring -> option jsstring.
Variable sanitizeBucharestSector : option jsstring -> option jsstring.
Variable isBucharest : option jsstring -> bool.
Variable formatDateForAnaf : DateArg -> jsstring.
Variable UBL_CUSTOMIZATION_ID : jsstring.
Variable DEFAULT_CURRENCY : jsstring.
Variable DEFAULT_COUNTRY_CODE : jsstring.
Variable DEFAULT_UNIT_CODE : jsstring.

(** [error.message]: the error classes are in [src/errors], a file missing
    from the sources, and so the message of an error is a parameter. *)
Variable message_of : error -> jsstring.

(** [UblBuilder.generateInvoiceXml] (unnamed/part_001, 346-356).
    [tryCatch] is in [src/tryCatch], a file missing from the sources; it is
    taken to run the function it is given and to return its value as
    [data], or the exception it throws as [error]: an [outcome]. *)
Definition generateInvoiceXml (invoiceData : option InvoiceInput) : outcome xml :=
  match buildInvoiceXml normalizeVatNumber sanitizeCounty
          sanitizeBucharestSector isBucharest formatDateForAnaf
          UBL_CUSTOMIZATION_ID DEFAULT_CURRENCY DEFAULT_COUNTRY_CODE
          DEFAULT_UNIT_CODE invoiceData with
  | Throw error' =>
      Throw (AnafValidationError
               (js "Failed to generate invoice XML: " ++ message_of error'))
  | Ok data => Ok data
  end.

End UblBuilder.

(* ================================================================== *)
(** ** The CNP validator ([src/utils/validators.ts]) *)
(* ================================================================== *)

Module Validators.
Local Open Scope N_scope.

(** [parseInt] of the one-character string of a decimal digit.  The values
    it gives here, their products and the sum of these are integers below
    2^53, where the arithmetic of Numbers is that of the integers. *)
Definition parseIntDigit (c : N) : N := c - 48.

Definition controlKey : jsstring := js "279146358279".

(** [/^\d{13}$/.test(code)]: without the [m] flag [$] matches at the end
    of the input only, and without the [u] flag [\d] is [0-9]. *)
Definition isThirteenDigits (code : jsstring) : bool :=
  Nat.eqb (List.length code) 13 && forallb isDigit code.

(** The loop of validators.ts, 25-27. *)
Definition controlSum (code : jsstring) : N :=
  fold_left
    (fun sum i =>
       sum + parseIntDigit (nth i code 0) * parseIntDigit (nth i controlKey 0))
    (seq 0 12) 0.

(** [controlDigit] (validators.ts, 29-30) *)
Definition controlDigit (code : jsstring) : N :=
  let remainder := controlSum code mod 11 in
  if remainder =? 10 then 1 else remainder.

(** [isValidCNP] (validators.ts, 11-44) *)
Definition isValidCNP (code : jsstring) : bool :=
  if negb (isThirteenDigits code) then false
  else if JsString.eqb code (js "0000000000000") then true
  else if negb (parseIntDigit (nth 12 code 0) =? controlDigit code) then false
  else
    let sex := parseIntDigit (nth 0 code 0) in
    if negb (existsb (N.eqb sex) [1; 2; 3; 4; 5; 6; 7; 8; 9]) then false
    else true.

End Validators.

(* ================================================================== *)
(** ** The URLs of the HTTP client ([HttpClient], unnamed/part_003) *)
(* ================================================================== *)

Module HttpClient.

(** [s.endsWith(suffix)] *)
Definition endsWith (s suffix : jsstring) : bool :=
  match starts_with (rev suffix) (rev s) with
  | Some _ => true
  | None => false
  end.

(** [normalizeBaseURL] (unnamed/part_003, 192-198) *)
Definition normalizeBaseURL (baseURL : option jsstring) : jsstring :=
  match baseURL with
  | None => []
  | Some baseURL' =>
      if negb (JsString.truthy baseURL') then []
      else if endsWith baseURL' (js "/") then baseURL'
      else baseURL' ++ js "/"
  end.

Definition isAlpha (c : N) : bool :=
  (((97 <=? c) && (c <=? 122)) || ((65 <=? c) && (c <=? 90)))%N.

(** A character of the class [[a-zA-Z\d+\-.]]. *)
Definition isSchemeChar (c : N) : bool :=
  isAlpha c || isDigit c || N.eqb c 43 || N.eqb c 45 || N.eqb c 46.

(** [[a-zA-Z\d+\-.]*:] at the start of [s]: no character of the class is a
    colon, so the run of the class ends at the first colon or not at
    all. *)
Fixpoint schemeRest (s : jsstring) : bool :=
  match s with
  | c :: r =>
      if N.eqb c 58 then true
      else if isSchemeChar c then schemeRest r
      else false
  | [] => false
  end.

(** [/^[a-zA-Z][a-zA-Z\d+\-.]*:/.test(url)] *)
Definition absoluteUrlPattern (url : jsstring) : bool :=
  match url with
  | c :: r => isAlpha c && schemeRest r
  | [] => false
  end.

(** [url.replace(/^\/+/, '')] *)
Fixpoint stripLeadingSlashes (url : jsstring) : jsstring :=
  match url with
  | c :: r => if N.eqb c 47 then stripLeadingSlashes r else url
  | [] => []
  end.

(** What [buildFullUrl] returns: a string of its own, or what the
    platform's [new URL(relativeUrl, base).toString()] gives, which is not
    modelled and is kept as the call. *)
Inductive fullUrl :=
| AsGiven (url : jsstring)
| Resolved (relativeUrl base : jsstring).

(** [buildFullUrl] (unnamed/part_003, 174-190); [thisBaseURL] is the field
    [this.baseURL]. *)
Definition buildFullUrl (thisBaseURL : jsstring) (url : jsstring)
  (requestBaseURL : option jsstring) : fullUrl :=
  if absoluteUrlPattern url then AsGiven url
  else
    let base := normalizeBaseURL (Some (or_default requestBaseURL thisBaseURL)) in
    if negb (JsString.truthy base) then AsGiven url
    else
      let relativeUrl := stripLeadingSlashes url in
      Resolved relativeUrl base.

(** The field [baseURL] the constructor sets (unnamed/part_003, 25-28). *)
Definition constructorBaseURL (configBaseURL : option jsstring) : jsstring :=
  normalizeBaseURL configBaseURL.

End HttpClient.

(* ================================================================== *)
(** ** The parameter checks of the client ([src/AnafClient.ts]) *)
(* ================================================================== *)

Module AnafClient.

(** The fields [validatePaginatedMessagesParams] reads.  A field is
    [Some x] when it is the number [x], and [None] when [typeof] gives
    anything but ["number"]. *)
Record PaginatedMessagesParams := {
  startTime : option number;
  endTime : option number;
  pagina : option number
}.

(** [typeof x !== 'number' || violated x] *)
Definition number_check (x : option number) (violated : number -> bool)
  (message : jsstring) : outcome number :=
  match x with
  | None => Throw (AnafValidationError message)
  | Some v => throw_if (violated v) message ;;; Ok v
  end.

(** [validatePaginatedMessagesParams] (AnafClient.ts, 702-718) *)
Definition validatePaginatedMessagesParams
  (params : option PaginatedMessagesParams) : outcome unit :=
  match params with
  | None =>
      Throw (AnafValidationError (js "Paginated message parameters are required"))
  | Some params' =>
      startTime' <- number_check (startTime params') (fun x => leb x pzero)
                      (js "Valid start time is required") ;;
      endTime' <- number_check (endTime params') (fun x => leb x pzero)
                    (js "Valid end time is required") ;;
      throw_if (leb endTime' startTime')
        (js "End time must be after start time") ;;;
      number_check (pagina params') (fun x => ltb x (lit "1"))
        (js "Page number must be 1 or greater") ;;;
      Ok tt
  end.

End AnafClient.

(* ================================================================== *)
(** ** The VAT codes of the company-details client ([AnafDetailsClient], unnamed/part_001) *)
(* ================================================================== *)

Module AnafDetailsClient.

(** [isNaN(x)] on a Number *)
Definition isNaN (x : number) : bool :=
  match x with
  | S754_nan => true
  | _ => false
  end.

(** [parseInt(s, 10)]: leading white space, a sign, then the longest run
    of decimal digits; [NaN] when there is none.  (Past 20 significant
    digits ECMA-262 lets an implementation replace digits by zeros; the
    integer is taken exactly here.) *)
Definition parseInt10 (s : jsstring) : number :=
  let s0 := trimStart s in
  let '(neg, s1) :=
    match s0 with
    | 45%N :: r => (true, r)
    | 43%N :: r => (false, r)
    | _ => (false, s0)
    end in
  let '(v, cnt, _) := scan_digits s1 0 0 in
  match cnt with
  | O => S754_nan
  | _ => of_decimal neg v 0
  end.

(** [s.replace(/^RO/i, '')]: without the [u] flag the characters that
    match [R] and [O] whatever the case are their two ASCII forms. *)
Definition stripRO (s : jsstring) : jsstring :=
  match s with
  | r :: o :: rest =>
      if (N.eqb r 82 || N.eqb r 114) && (N.eqb o 79 || N.eqb o 111) then rest
      else s
  | _ => s
  end.

Section VatCode.

(** [String.prototype.toUpperCase] follows the case tables of Unicode,
    which are not modelled: it is a parameter. *)
Variable toUpperCase : jsstring -> jsstring.

(** [vatCode.trim().toUpperCase().replace(/^RO/i, '')] *)
Definition cleanVatCode (vatCode : jsstring) : jsstring :=
  stripRO (toUpperCase (trim vatCode)).

(** [extractCuiNumber] (unnamed/part_001, 78-92); [None] is a value that
    is not a string, as an
    argument, and [null], as a result. *)
Definition extractCuiNumber (vatCode : option jsstring) : option number :=
  match vatCode with
  | None => None
  | Some vatCode' =>
      if negb (JsString.truthy vatCode') then None
      else
        let cuiString := cleanVatCode vatCode' in
        let cuiNumber := parseInt10 cuiString in
        if isNaN cuiNumber || leb cuiNumber pzero then None
        else Some cuiNumber
  end.

(** [isValidVatCode] (unnamed/part_001, 276-284) *)
Definition isValidVatCode (vatCode : option jsstring) : bool :=
  match vatCode with
  | None => false
  | Some vatCode' =>
      if negb (JsString.truthy vatCode') then false
      else
        let cleanVatCode' := cleanVatCode vatCode' in
        let cuiNumber := parseInt10 cleanVatCode' in
        negb (isNaN cuiNumber)
        && Nat.leb 2 (List.length cleanVatCode')
        && Nat.leb (List.length cleanVatCode') 10
        && gtb cuiNumber pzero
  end.

End VatCode.

End AnafDetailsClient.

(* ================================================================== *)
(** ** Sample data *)
(* ================================================================== *)

Module Sample.

(** Stand-ins for the collaborators whose code is missing. *)
Definition normalizeVatNumber (vat : jsstring) : jsstring :=
  match starts_with (js "RO") vat with
  | Some _ => vat
  | None => js "RO" ++ vat
  end.

Definition formatDateForAnaf (d : DateArg) : jsstring :=
  match d with
  | DateString s => s
  | DateObject _ => js "2024-01-15"
  end.

Definition UBL_CUSTOMIZATION_ID : jsstring :=
  js "urn:cen.eu:en16931:2017#compliant#urn:efactura.mfinante.ro:CIUS-RO:1.0.1".

Definition build : option InvoiceInput -> outcome xml :=
  buildInvoiceXml normalizeVatNumber AddressSanitizer.sanitizeCounty
    AddressSanitizer.sanitizeBucharestSector AddressSanitizer.isBucharest
    formatDateForAnaf UBL_CUSTOMIZATION_ID (js "RON") (js "RO") (js "EA").

Definition party : string -> Party -> outcome xml :=
  buildPartyXml normalizeVatNumber AddressSanitizer.sanitizeCounty
    AddressSanitizer.sanitizeBucharestSector AddressSanitizer.isBucharest
    (js "RO").

Definition line (quantity' unitPrice' : string) (taxPercent' : option string)
  : InvoiceLine :=
  {| id := None;
     name := Some (js "Test Item");
     description := None;
     quantity := lit quantity';
     unitCode := None;
     unitPrice := lit unitPrice';
     taxPercent := option_map lit taxPercent' |}.

Definition supplierCluj : Party :=
  {| registrationName := Some (js "Test Supplier SRL");
     companyId := Some (js "12345678");
     isVatPayer := Some true;
     address := Some {| street := Some (js "Str. Test 1");
                        city := Some (js "Cluj-Napoca");
                        postalZone := Some (js "400001");
                        county := Some (js "Cluj");
                        countryCode := None |} |}.

Definition customerBucharest : Party :=
  {| registrationName := Some (js "Test Customer SRL");
     companyId := Some (js "RO87654321");
     isVatPayer := None;
     address := Some {| street := Some (js "Str. Customer 2");
                        city := Some (js "Sector 3 Mun. Bucuresti");
                        postalZone := Some (js "010101");
                        county := Some (js "Municipiul Bucuresti");
                        countryCode := None |} |}.

Definition customerUnknownCounty : Party :=
  {| registrationName := Some (js "Test Customer SRL");
     companyId := Some (js "RO87654321");
     isVatPayer := Some false;
     address := Some {| street := Some (js "Str. Customer 2");
                        city := Some (js "Sibiel");
                        postalZone := Some (js "557234");
                        county := Some (js "transilvania");
                        countryCode := None |} |}.

Definition invoice (lines' : option (list InvoiceLine)) : InvoiceInput :=
  {| invoiceTypeCode := None;
     invoiceNumber := Some (js "INV-2024-001");
     issueDate := Some (DateString (js "2024-01-15"));
     dueDate := None;
     currency := None;
     supplier := Some supplierCluj;
     customer := Some customerBucharest;
     lines := lines';
     paymentIban := None |}.

(** The message of an error; [AnafValidationError] hands its message to
    [Error]. *)
Definition message_of (e : error) : jsstring :=
  match e with
  | AnafValidationError message => message
  | UndefinedUse => js "Cannot read properties of undefined"
  end.

Definition generate : option InvoiceInput -> outcome xml :=
  generateInvoiceXml normalizeVatNumber AddressSanitizer.sanitizeCounty
    AddressSanitizer.sanitizeBucharestSector AddressSanitizer.isBucharest
    formatDateForAnaf UBL_CUSTOMIZATION_ID (js "RON") (js "RO") (js "EA")
    message_of.


(** A line whose quantity is not a number. *)
Definition lineNaN : InvoiceLine :=
  {| id := None;
     name := Some (js "Test Item");
     description := None;
     quantity := S754_nan;
     unitCode := None;
     unitPrice := lit "10";
     taxPercent := Some (lit "19") |}.

Definition invoiceWithIban (iban : option jsstring) : InvoiceInput :=
  {| invoiceTypeCode := None;
     invoiceNumber := Some (js "INV-2024-001");
     issueDate := Some (DateString (js "2024-01-15"));
     dueDate := None;
     currency := None;
     supplier := Some supplierCluj;
     customer := Some customerBucharest;
     lines := Some [line "1" "100" (Some "19")];
     paymentIban := iban |}.

Definition invoiceOfSupplier (supplier' : Party) : InvoiceInput :=
  {| invoiceTypeCode := None;
     invoiceNumber := Some (js "INV-2024-001");
     issueDate := Some (DateString (js "2024-01-15"));
     dueDate := None;
     currency := None;
     supplier := Some supplier';
     customer := Some customerBucharest;
     lines := Some [line "1" "100" (Some "19"); line "1" "100" None];
     paymentIban := None |}.

(** The upper case of ASCII, standing in for [toUpperCase]. *)
Definition toUpperCase (s : jsstring) : jsstring :=
  map (fun c => if ((97 <=? c) && (c <=? 122))%N then (c - 32)%N else c) s.


End Sample.

Example toFixed2_475 :
  toFixed2 (mul (lit "2.5") (div (lit "19") (lit "100"))) = js "0.47".
Proof. vm_compute. reflexivity. Qed.

Example toFixed2_19475 :
  toFixed2 (mul (lit "102.5") (div (lit "19") (lit "100"))) = js "19.48".
Proof. vm_compute. reflexivity. Qed.

Example toFixed2_1e21 : toFixed2 (lit "1e21") = js "1e+21".
Proof. vm_compute. reflexivity. Qed.

Example round2_33 : round2 (lit "33.333333") = lit "33.33".
Proof. vm_compute. reflexivity. Qed.

(* ================================================================== *)
(** ** Arithmetic of the builder *)
(* ================================================================== *)

Lemma mul_comm (x y : number) : mul x y = mul y x.
Proof.
  unfold mul.
  destruct x as [sx|sx| |sx mx ex], y as [sy|sy| |sy my ey]; simpl;
    rewrite ?(xorb_comm sx sy); try reflexivity.
  now rewrite (Pos.mul_comm mx my), (Z.add_comm ex ey).
Qed.

Lemma Qpower_2 (e : Z) : (0 <= e)%Z -> (2 ^ e == inject_Z (2 ^ e))%Q.
Proof. intros He. now rewrite Zpower_Qpower. Qed.

(** [toFixed(2)] rounds half up: the hundredths it writes for the number
    [m * 2^e] are those of the exact value of the number, rounded half
    up. *)
Lemma hundredths_half_up (m : positive) (e : Z) :
  Z.of_N (hundredths m e) = roundHalfUp2 (exact (S754_finite false m e)).
Proof.
  unfold roundHalfUp2, exact, cond_Zopp, hundredths.
  assert (forall k : Z, (0 <= k)%Z -> Z.of_N (Z.to_N k) = k) as Hto
    by (intros; now apply Z2N.id).
  destruct e as [|p|p].
  - rewrite Hto by lia.
    transitivity ((2 * (100 * Z.pos m * 2 ^ 0) + 1) / 2)%Z.
    + apply Z.div_unique with (r := 1%Z); lia.
    + rewrite Zdiv_Qdiv. apply Qfloor_comp.
      change (2 ^ 0)%Z with 1%Z. rewrite !inject_Z_plus, !inject_Z_mult.
      change (Qpower 2 0) with 1%Q. field.
  - rewrite Hto by lia.
    transitivity ((2 * (100 * Z.pos m * 2 ^ Z.pos p) + 1) / 2)%Z.
    + apply Z.div_unique with (r := 1%Z); lia.
    + rewrite Zdiv_Qdiv. apply Qfloor_comp.
      rewrite !inject_Z_plus, !inject_Z_mult.
      rewrite (@Qpower_2 (Z.pos p)) by lia. field.
  - rewrite Hto by (apply Z.div_pos; lia).
    rewrite Zdiv_Qdiv. apply Qfloor_comp.
    rewrite Z.pow_add_r by lia. change (2 ^ 1)%Z with 2%Z.
    rewrite !inject_Z_plus, !inject_Z_mult.
    change (Qpower 2 (Z.neg p)) with (/ Qpower 2 (Z.pos p))%Q.
    rewrite (@Qpower_2 (Z.pos p)) by lia.
    assert (~ inject_Z (2 ^ Z.pos p) == 0)%Q as Hnz.
    { unfold Qeq. simpl. lia. }
    field. exact Hnz.
Qed.

Lemma toFixed2_repr_half_up (s : bool) (m : positive) (e : Z) :
  ge_1e21 m e = false ->
  toFixed2_repr (S754_finite s m e)
  = Fixed s (Z.to_N (roundHalfUp2 (exact (S754_finite false m e)))).
Proof.
  intros Hlt. unfold toFixed2_repr. rewrite Hlt.
  now rewrite <- hundredths_half_up, N2Z.id.
Qed.

(** The line extension is the formula of the specification over the
    operations of the program: the unit price rounded first, the product
    rounded after, the quantity as it is. *)
Lemma calculateLineExtension_formula (line : InvoiceLine) :
  calculateLineExtension line
  = lineExtensionFormula (quantity line) (unitPrice line).
Proof.
  unfold calculateLineExtension, lineExtensionFormula, round2.
  now rewrite mul_comm.
Qed.


(** The line of the test "should calculate line totals correctly". *)
Example line_5_at_20_50 :
  let line := Sample.line "5" "20.5" (Some "19") in
  toFixed2 (calculateLineExtension line) = js "102.50"
  /\ toFixed2 (lineTax line) = js "19.48"
  /\ toFixed2 (round2 (add (calculateLineExtension line) (lineTax line)))
     = js "121.98".
Proof. vm_compute. repeat split. Qed.

(** The line of the test "should handle single invoice line correctly". *)
Example line_2_at_150_50 :
  let line := Sample.line "2" "150.5" (Some "19") in
  toFixed2 (calculateLineExtension line) = js "301.00"
  /\ toFixed2 (lineTax line) = js "57.19"
  /\ toFixed2 (round2 (add (calculateLineExtension line) (lineTax line)))
     = js "358.19".
Proof. vm_compute. repeat split. Qed.

(** C1.  The claim does not hold of the program.  It says the tax amount
    of a line is round(lineExtension * taxPercent / 100, 2), rounded half
    up, and the line extension is round(round(unitPrice, 2) * quantity, 2).
    For one unit at 2.50 and 19 percent the line is valid, the line
    extension is exactly 2.5 and the percent exactly 19, so the claimed tax
    amount is 0.475 rounded half up: 48 hundredths.  The program multiplies
    in binary64, gets a number below 0.475, and writes 0.47.  In the same
    way 1.5 units at 0.01 have the line extension 0.015 rounded half up, 2
    hundredths, and the program writes 0.01. *)
Theorem C1_tax_amount_below_half_up :
  let line := Sample.line "1" "2.5" (Some "19") in
  let fraction := Sample.line "1.5" "0.01" None in
  validateLine line 0 = Ok tt
  /\ toFixed2 (calculateLineExtension line) = js "2.50"
  /\ (exact (calculateLineExtension line) == 5 # 2)%Q
  /\ (exact (taxPercent_or_0 line) == 19)%Q
  /\ decimalTaxAmount (calculateLineExtension line) (taxPercent_or_0 line) = 48%Z
  /\ toFixed2 (lineTax line) = js "0.47"
  /\ map (fun g => toFixed2 (taxAmount g)) (groupLinesByTax [line] true)
     = [js "0.47"]
  /\ validateLine fraction 0 = Ok tt
  /\ decimalLineExtension (quantity fraction) (unitPrice fraction) = 2%Z
  /\ toFixed2 (calculateLineExtension fraction) = js "0.01".
Proof. vm_compute. repeat split. Qed.

(* ================================================================== *)
(** ** The groups of [groupLinesByTax] *)
(* ================================================================== *)

Section Grouping.

Variable isSupplierVatPayer : bool.

Local Abbreviation key := (lineKey isSupplierVatPayer).

Lemma firstSeen_In (k : TaxKey) (keys : list TaxKey) :
  In k (firstSeen keys) <-> In k keys.
Proof.
  induction keys as [|a keys IH]; simpl; [tauto|].
  split.
  - intros [->|H]; [now left|].
    apply in_remove in H. right. now apply IH.
  - intros [->|H]; [now left|].
    destruct (TaxKey_eq_dec a k) as [->|Hne]; [now left|].
    right. apply in_in_remove; [congruence|]. now apply IH.
Qed.

Lemma firstSeen_NoDup (keys : list TaxKey) : NoDup (firstSeen keys).
Proof.
  induction keys as [|a keys IH]; simpl; constructor.
  - apply remove_In.
  - clear -IH. induction IH as [|x l Hx Hl IHl]; simpl; [constructor|].
    destruct (TaxKey_eq_dec a x); [assumption|].
    constructor; [|assumption].
    intros H. apply in_remove in H. tauto.
Qed.

Lemma firstSeen_snoc (keys : list TaxKey) (k : TaxKey) :
  firstSeen (keys ++ [k])
  = if in_dec TaxKey_eq_dec k keys then firstSeen keys
    else firstSeen keys ++ [k].
Proof.
  induction keys as [|a keys IH]; simpl.
  - reflexivity.
  - rewrite IH.
    destruct (TaxKey_eq_dec a k) as [->|Hne].
    + destruct (in_dec TaxKey_eq_dec k keys) as [Hin|Hnin]; [reflexivity|].
      rewrite remove_app. simpl.
      destruct (TaxKey_eq_dec k k); [|congruence].
      now rewrite app_nil_r.
    + destruct (in_dec TaxKey_eq_dec k keys) as [Hin|Hnin]; [reflexivity|].
      rewrite remove_app. simpl.
      destruct (TaxKey_eq_dec a k); [congruence|reflexivity].
Qed.

Lemma map_has_In (G : TaxKey -> TaxGroup) (k : TaxKey) (D : list TaxKey) :
  map_has k (map (fun k' => (k', G k')) D) = true <-> In k D.
Proof.
  induction D as [|a D IH]; simpl; [split; [discriminate|tauto]|].
  destruct (TaxKey_eq_dec k a) as [->|Hne].
  - split; auto.
  - rewrite IH. split; [auto|]. intros [H|H]; [congruence|assumption].
Qed.

Lemma map_update_In (G : TaxKey -> TaxGroup) (f : TaxGroup -> TaxGroup)
  (k : TaxKey) (D : list TaxKey) :
  NoDup D ->
  map_update k f (map (fun k' => (k', G k')) D)
  = map (fun k' => (k', if TaxKey_eq_dec k k' then f (G k') else G k')) D.
Proof.
  induction 1 as [|a D Ha HD IH]; simpl; [reflexivity|].
  destruct (TaxKey_eq_dec k a) as [->|Hne].
  - f_equal. apply map_ext_in. intros b Hb.
    destruct (TaxKey_eq_dec a b) as [->|]; [contradiction|reflexivity].
  - now rewrite IH.
Qed.

Lemma members_snoc_same (done : list InvoiceLine) (line : InvoiceLine) :
  filter (hasKey isSupplierVatPayer (key line)) (done ++ [line])
  = filter (hasKey isSupplierVatPayer (key line)) done ++ [line].
Proof.
  rewrite filter_app. simpl. unfold hasKey at 2.
  destruct (TaxKey_eq_dec (key line) (key line)); [reflexivity|congruence].
Qed.

Lemma members_snoc_other (done : list InvoiceLine) (line : InvoiceLine)
  (k : TaxKey) :
  key line <> k ->
  filter (hasKey isSupplierVatPayer k) (done ++ [line])
  = filter (hasKey isSupplierVatPayer k) done.
Proof.
  intros Hne. rewrite filter_app. simpl. unfold hasKey at 2.
  destruct (TaxKey_eq_dec (key line) k); [contradiction|apply app_nil_r].
Qed.

Lemma members_nonempty (done : list InvoiceLine) (k : TaxKey) :
  In k (map key done) -> filter (hasKey isSupplierVatPayer k) done <> [].
Proof.
  intros Hin. apply in_map_iff in Hin. destruct Hin as [l [Hk Hl]].
  intros Hnil.
  assert (In l (filter (hasKey isSupplierVatPayer k) done)) as Hf.
  { apply filter_In. split; [assumption|]. unfold hasKey.
    destruct (TaxKey_eq_dec (key l) k); [reflexivity|contradiction]. }
  rewrite Hnil in Hf. contradiction.
Qed.

Lemma members_empty (done : list InvoiceLine) (k : TaxKey) :
  ~ In k (map key done) -> filter (hasKey isSupplierVatPayer k) done = [].
Proof.
  intros Hnin. induction done as [|l done IH]; simpl; [reflexivity|].
  unfold hasKey at 1.
  destruct (TaxKey_eq_dec (key l) k) as [Hk|Hk].
  - exfalso. apply Hnin. simpl. now left.
  - apply IH. intros H. apply Hnin. simpl. now right.
Qed.

Lemma accumulated_snoc (amount : InvoiceLine -> number)
  (group : list InvoiceLine) (line : InvoiceLine) :
  group <> [] ->
  accumulated amount (group ++ [line])
  = round2 (add (accumulated amount group) (amount line)).
Proof.
  destruct group as [|first rest]; [congruence|]. intros _.
  simpl. now rewrite fold_left_app.
Qed.

(** One more line whose key is already in the map: its group
    accumulates the line. *)
Lemma groupOf_snoc_same (done : list InvoiceLine) (line : InvoiceLine) :
  In (key line) (map key done) ->
  groupOf isSupplierVatPayer (done ++ [line]) (key line)
  = accumulate (calculateLineExtension line) (lineTax line)
      (groupOf isSupplierVatPayer done (key line)).
Proof.
  intros Hin. unfold groupOf, accumulate. simpl.
  rewrite members_snoc_same.
  rewrite !accumulated_snoc by now apply members_nonempty.
  reflexivity.
Qed.

Lemma groupOf_snoc_other (done : list InvoiceLine) (line : InvoiceLine)
  (k : TaxKey) :
  key line <> k ->
  groupOf isSupplierVatPayer (done ++ [line]) k
  = groupOf isSupplierVatPayer done k.
Proof.
  intros Hne. unfold groupOf. now rewrite members_snoc_other.
Qed.

(** The map after the [forEach]: one entry per distinct key, in
    first-seen order, holding the group of the key. *)
Lemma fold_groupStep (lines' : list InvoiceLine) :
  fold_left (groupStep isSupplierVatPayer) lines' []
  = map (fun k => (k, groupOf isSupplierVatPayer lines' k))
        (firstSeen (map key lines')).
Proof.
  induction lines' as [|line done IH] using rev_ind; [reflexivity|].
  rewrite fold_left_app, IH. simpl.
  rewrite map_app. change (map key [line]) with [key line].
  rewrite firstSeen_snoc.
  unfold groupStep.
  change (taxPercent_or_0 line) with (snd (key line)).
  destruct (taxCategory isSupplierVatPayer (snd (key line)))
    as [categoryId' exemption] eqn:Hcat.
  assert (categoryId' = fst (key line)) as Hc.
  { unfold lineKey. simpl. simpl in Hcat. now rewrite Hcat. }
  assert ((categoryId', snd (key line)) = key line) as Hkey.
  { rewrite Hc. now destruct (key line). }
  rewrite Hkey.
  destruct (in_dec TaxKey_eq_dec (key line) (map key done)) as [Hin|Hnin].
  - assert (map_has (key line)
              (map (fun k => (k, groupOf isSupplierVatPayer done k))
                   (firstSeen (map key done))) = true) as ->.
    { apply (proj2 (map_has_In _ _ _)). now apply (proj2 (firstSeen_In _ _)). }
    rewrite map_update_In by apply firstSeen_NoDup.
    apply map_ext_in. intros k _.
    destruct (TaxKey_eq_dec (key line) k) as [<-|Hne].
    + now rewrite groupOf_snoc_same.
    + now rewrite groupOf_snoc_other.
  - assert (map_has (key line)
              (map (fun k => (k, groupOf isSupplierVatPayer done k))
                   (firstSeen (map key done))) = false) as ->.
    { destruct (map_has _ _) eqn:Hhas; [|reflexivity].
      apply (proj1 (map_has_In _ _ _)) in Hhas.
      apply (proj1 (firstSeen_In _ _)) in Hhas. contradiction. }
    unfold map_set_new. rewrite map_app. simpl. f_equal.
    + apply map_ext_in. intros k Hk.
      rewrite groupOf_snoc_other; [reflexivity|].
      intros <-. apply (proj1 (firstSeen_In _ _)) in Hk. contradiction.
    + f_equal. f_equal. unfold groupOf.
      rewrite members_snoc_same, members_empty by assumption. simpl.
      change (snd (key line)) with (taxPercent_or_0 line) in Hcat.
      rewrite Hcat. reflexivity.
Qed.

Lemma groupLinesByTax_groups (lines' : list InvoiceLine) :
  groupLinesByTax lines' isSupplierVatPayer
  = groupsBySpec isSupplierVatPayer lines'.
Proof.
  unfold groupLinesByTax, groupsBySpec.
  rewrite fold_groupStep, map_map. reflexivity.
Qed.

End Grouping.



(** On a line whose percent is in range the program's percent is the
    stated one: a missing percent and the two zeros are [+0], any other
    number is itself. *)
Lemma taxPercent_or_0_stated (line : InvoiceLine) :
  percentInRange line = true -> taxPercent_or_0 line = statedPercent line.
Proof.
  unfold percentInRange, taxPercent_or_0, statedPercent.
  destruct (taxPercent line) as [[s|s| |s m e]|]; try reflexivity.
  discriminate.
Qed.

(** The program selects the category the line states, whatever the
    percent. *)
Lemma taxCategory_stated (isSupplierVatPayer : bool) (line : InvoiceLine) :
  taxCategory isSupplierVatPayer (taxPercent_or_0 line)
  = statedCategory isSupplierVatPayer line.
Proof.
  unfold taxCategory, statedCategory, taxPercent_or_0.
  destruct isSupplierVatPayer; [|reflexivity]. cbn [negb].
  destruct (taxPercent line) as [[s|s| |s m e]|]; reflexivity.
Qed.




Lemma exemption_of_category (isSupplierVatPayer : bool) (p : number) :
  snd (taxCategory isSupplierVatPayer p)
  = if isSupplierVatPayer then None else Some (js "VATEX-EU-O").
Proof.
  unfold taxCategory. destruct isSupplierVatPayer; [|reflexivity].
  cbn [negb]. now destruct (gtb p pzero).
Qed.



(** A percent that is [NaN] is outside the range, and passes the
    validator all the same; the program groups its line with the lines at
    0 percent. *)
Example groups_NaN_with_zero :
  let unknown := {| id := None; name := Some (js "Test Item");
                    description := None; quantity := lit "1";
                    unitCode := None; unitPrice := lit "100";
                    taxPercent := Some S754_nan |} in
  validateLine unknown 0 = Ok tt
  /\ percentInRange unknown = false
  /\ map groupKey (groupLinesByTax [unknown; Sample.line "1" "100" (Some "0")] true)
     = [ (js "Z", pzero) ].
Proof. vm_compute. repeat split. Qed.

(** The two lines at 19 percent of the test "should handle multiple
    invoice lines correctly", a line at 9 percent between them. *)
Example groups_19_9_19 :
  map (fun g => (categoryId g, toFixed2 (percent g),
                 toFixed2 (taxableAmount g), toFixed2 (taxAmount g)))
      (groupLinesByTax [ Sample.line "1" "100" (Some "19");
                         Sample.line "1" "100" (Some "9");
                         Sample.line "2" "50" (Some "19") ] true)
  = [ (js "S", js "19.00", js "200.00", js "38.00");
      (js "S", js "9.00", js "100.00", js "9.00") ].
Proof. vm_compute. reflexivity. Qed.

(* ================================================================== *)
(** ** The tax category of a line *)
(* ================================================================== *)

Lemma group_category (isSupplierVatPayer : bool) (lines' : list InvoiceLine)
  (g : TaxGroup) :
  In g (groupLinesByTax lines' isSupplierVatPayer) ->
  (categoryId g, exemptionReasonCode g)
  = taxCategory isSupplierVatPayer (percent g).
Proof.
  rewrite groupLinesByTax_groups. unfold groupsBySpec.
  intros Hin. apply in_map_iff in Hin. destruct Hin as [k [<- Hk]].
  apply firstSeen_In, in_map_iff in Hk. destruct Hk as [line [<- _]].
  unfold groupOf, lineKey. simpl.
  now destruct (taxCategory isSupplierVatPayer (taxPercent_or_0 line)).
Qed.

Lemma line_has_group (isSupplierVatPayer : bool) (lines' : list InvoiceLine)
  (line : InvoiceLine) :
  In line lines' ->
  exists g, In g (groupLinesByTax lines' isSupplierVatPayer)
            /\ groupKey g = lineKey isSupplierVatPayer line.
Proof.
  intros Hin. rewrite groupLinesByTax_groups. unfold groupsBySpec.
  exists (groupOf isSupplierVatPayer lines' (lineKey isSupplierVatPayer line)).
  split.
  - apply in_map. apply firstSeen_In. now apply in_map.
  - reflexivity.
Qed.

Lemma invoiceLineXml_category (DEFAULT_UNIT_CODE currency' : jsstring)
  (isSupplierVatPayer : bool) (line : InvoiceLine) (index : nat) (x : xml) :
  invoiceLineXml DEFAULT_UNIT_CODE currency' isSupplierVatPayer line index = Ok x ->
  text_at ["cac:Item"; "cac:ClassifiedTaxCategory"; "cbc:ID"] x
  = Some (fst (taxCategory isSupplierVatPayer (taxPercent_or_0 line)))
  /\ text_at ["cac:Item"; "cac:ClassifiedTaxCategory"; "cbc:Percent"] x
     = Some (toFixed2 (taxPercent_or_0 line)).
Proof.
  unfold invoiceLineXml, taxCategory.
  destruct (name line) as [name'|]; [|discriminate].
  cbn [defined bind]. intros [= <-].
  destruct (description line) as [d|]; [destruct (JsString.truthy d)|];
    destruct (negb isSupplierVatPayer);
    try destruct (gtb (taxPercent_or_0 line) pzero); split; reflexivity.
Qed.

(* ================================================================== *)
(** ** The validator *)
(* ================================================================== *)

Lemma stopAtFirst_cons (c : bool) (message : jsstring) (checks : list check) :
  stopAtFirst ((c, message) :: checks)
  = throw_if c message ;;; stopAtFirst checks.
Proof. unfold stopAtFirst, firstViolation. simpl. now destruct c. Qed.

Lemma stopAtFirst_app (checks checks' : list check) :
  stopAtFirst (checks ++ checks') = stopAtFirst checks ;;; stopAtFirst checks'.
Proof.
  induction checks as [|[c message] checks IH]; [reflexivity|].
  simpl. rewrite !stopAtFirst_cons, IH. now destruct c.
Qed.

Lemma validateLine_checks (line : InvoiceLine) (index : nat) :
  validateLine line index = stopAtFirst (lineChecks line index).
Proof.
  unfold validateLine, lineChecks, linePrefix.
  rewrite !stopAtFirst_cons. rewrite <- !app_assoc.
  destruct (blank (name line)); [reflexivity|].
  destruct (leb (quantity line) pzero); [reflexivity|].
  destruct (ltb (unitPrice line) pzero); [reflexivity|].
  destruct (taxPercent line) as [p|]; [|reflexivity].
  cbn [throw_if bind]. now destruct (ltb p pzero || gtb p (lit "100")).
Qed.

Lemma validateLines_checks (lines' : list InvoiceLine) (index : nat) :
  validateLines lines' index = stopAtFirst (linesChecks lines' index).
Proof.
  revert index. induction lines' as [|line rest IH]; intros index;
    [reflexivity|].
  cbn [validateLines linesChecks].
  now rewrite stopAtFirst_app, validateLine_checks, IH.
Qed.

Lemma validateParty_checks (party : Party) (role : jsstring) :
  validateParty party role = stopAtFirst (partyChecks role (Some party)).
Proof.
  unfold validateParty, partyChecks, validateAddress.
  rewrite !stopAtFirst_cons. cbn [field].
  destruct (blank (registrationName party)); [reflexivity|].
  destruct (blank (companyId party)); [reflexivity|].
  destruct (address party) as [a|]; [|reflexivity].
  cbn [throw_if bind missing field].
  destruct (blank (street a)); [reflexivity|].
  destruct (blank (city a)); [reflexivity|].
  now destruct (blank (postalZone a)).
Qed.

(** The validator is the first violated check of [inputChecks]. *)
Lemma validateInvoiceInput_checks (input : InvoiceInput) :
  validateInvoiceInput (Some input) = stopAtFirst (inputChecks input).
Proof.
  unfold validateInvoiceInput, inputChecks.
  rewrite !stopAtFirst_app, !stopAtFirst_cons.
  destruct (blank (invoiceNumber input)); [reflexivity|].
  destruct (negb (some_truthy DateArg_truthy (issueDate input))); [reflexivity|].
  destruct (supplier input) as [s|]; [|reflexivity].
  cbn [throw_if bind missing]. rewrite <- validateParty_checks.
  destruct (validateParty s (js "Supplier")); [|reflexivity].
  destruct (customer input) as [c|]; [|reflexivity].
  cbn [throw_if bind missing stopAtFirst firstViolation find option_map].
  rewrite <- validateParty_checks.
  destruct (validateParty c (js "Customer")); [|reflexivity].
  destruct (lines input) as [ls|]; [|reflexivity].
  cbn [throw_if bind missing stopAtFirst firstViolation find option_map].
  rewrite validateLines_checks. now destruct (stopAtFirst (linesChecks ls 0)).
Qed.

(** Every check of the line at position [index] names the line by
    [index + 1]. *)
Lemma lineChecks_name_line (line : InvoiceLine) (index : nat) (c : check) :
  In c (lineChecks line index) ->
  exists rest,
    snd c = js "Line " ++ digits (N.of_nat (index + 1)) ++ js ": " ++ rest.
Proof.
  unfold lineChecks. simpl.
  intros [<-|[<-|[<-|[<-|[]]]]]; simpl; eexists; reflexivity.
Qed.

(** The checks of the lines are those of each line at its position, in
    sequence. *)
Lemma linesChecks_nth (lines' : list InvoiceLine) (start : nat) :
  linesChecks lines' start
  = List.concat (map (fun il => lineChecks (snd il) (fst il))
                (combine (seq start (List.length lines')) lines')).
Proof.
  revert start. induction lines' as [|line rest IH]; intros start;
    [reflexivity|].
  cbn [linesChecks List.length seq combine map List.concat fst snd].
  now rewrite IH.
Qed.

(** *** The text of an amount *)

Lemma js_String (c : ascii) (s : string) :
  js (String c s) = N_of_ascii c :: js s.
Proof. reflexivity. Qed.

Lemma string_of_uint_digits (d : Decimal.uint) :
  forallb isDigit (js (NilEmpty.string_of_uint d)) = true.
Proof.
  induction d; simpl NilEmpty.string_of_uint; rewrite ?js_String;
    simpl; [reflexivity|..]; assumption.
Qed.

Lemma digits_isDigit (n : N) : forallb isDigit (digits n) = true.
Proof.
  unfold digits, NilZero.string_of_uint.
  destruct (N.to_uint n); try apply string_of_uint_digits. reflexivity.
Qed.

Lemma digits_nonempty (n : N) : digits n <> [].
Proof.
  unfold digits, NilZero.string_of_uint.
  destruct (N.to_uint n); simpl NilEmpty.string_of_uint; rewrite ?js_String;
    discriminate.
Qed.

Lemma spanDigits_app (ds rest : jsstring) :
  forallb isDigit ds = true ->
  match rest with [] => True | c :: _ => isDigit c = false end ->
  spanDigits (ds ++ rest) = (ds, rest).
Proof.
  intros Hds Hrest. induction ds as [|d ds IH]; simpl.
  - destruct rest as [|c r]; [reflexivity|]. simpl. now rewrite Hrest.
  - simpl in Hds. apply andb_prop in Hds. destruct Hds as [Hd Hds].
    rewrite Hd, (IH Hds). reflexivity.
Qed.

Lemma isDigit_not_minus (c : N) : isDigit c = true -> N.eqb c 45 = false.
Proof.
  unfold isDigit. intros H. apply andb_prop in H. destruct H as [H _].
  apply N.leb_le in H. apply N.eqb_neq. lia.
Qed.

Lemma unsignedTwoDecimals_hundredths (n : N) :
  unsignedTwoDecimals
    (digits (n / 100)
       ++ 46%N :: [(48 + (n mod 100) / 10)%N; (48 + (n mod 100) mod 10)%N])
  = true.
Proof.
  assert (forall q : N, (q < 10)%N -> isDigit (48 + q) = true) as Hdig.
  { intros q Hq. unfold isDigit. apply andb_true_intro.
    split; apply N.leb_le; lia. }
  unfold unsignedTwoDecimals.
  rewrite spanDigits_app; [|apply digits_isDigit|reflexivity].
  pose proof (@digits_nonempty (n / 100)) as Hne.
  destruct (digits (n / 100)) as [|c ds]; [congruence|].
  rewrite !Hdig; [reflexivity|..].
  - apply N.mod_lt. discriminate.
  - apply N.Div0.div_lt_upper_bound.
    change (10 * 10)%N with 100%N. apply N.mod_lt. discriminate.
Qed.

Lemma hasTwoDecimals_fixed_string (neg : bool) (n : N) :
  hasTwoDecimals (fixed_string neg n) = true.
Proof.
  unfold hasTwoDecimals, fixed_string. destruct neg.
  - apply unsignedTwoDecimals_hundredths.
  - cbn [app]. change (js "." ++ ?r) with (46%N :: r).
    pose proof (digits_isDigit (n / 100)) as Hall.
    pose proof (unsignedTwoDecimals_hundredths n) as Hn.
    destruct (digits (n / 100)) as [|c ds]; [exact Hn|].
    simpl in Hall. apply andb_prop in Hall. destruct Hall as [Hc _].
    cbn [app dropMinus]. rewrite (isDigit_not_minus _ Hc). exact Hn.
Qed.

Lemma toFixed2_fixedRange (x : number) :
  fixedRange x = true -> exists neg n, toFixed2 x = fixed_string neg n.
Proof.
  unfold fixedRange, toFixed2, toFixed2_repr.
  destruct x as [s|s| |s m e]; try discriminate.
  - intros _. now exists false, 0%N.
  - destruct (ge_1e21 m e); [discriminate|]. intros _.
    now exists s, (hundredths m e).
Qed.

(** In its fixed range [toFixed(2)] writes exactly 2 decimal places. *)
Lemma hasTwoDecimals_toFixed2 (x : number) :
  fixedRange x = true -> hasTwoDecimals (toFixed2 x) = true.
Proof.
  intros H. destruct (toFixed2_fixedRange _ H) as (neg & n & ->).
  apply hasTwoDecimals_fixed_string.
Qed.

Section BuilderFacts.

Variable normalizeVatNumber : jsstring -> jsstring.
Variable sanitizeCounty : option jsstring -> option jsstring.
Variable sanitizeBucharestSector : option jsstring -> option jsstring.
Variable isBucharest : option jsstring -> bool.
Variable formatDateForAnaf : DateArg -> jsstring.
Variable UBL_CUSTOMIZATION_ID : jsstring.
Variable DEFAULT_CURRENCY : jsstring.
Variable DEFAULT_COUNTRY_CODE : jsstring.
Variable DEFAULT_UNIT_CODE : jsstring.

Local Abbreviation build :=
  (buildInvoiceXml normalizeVatNumber sanitizeCounty sanitizeBucharestSector
     isBucharest formatDateForAnaf UBL_CUSTOMIZATION_ID DEFAULT_CURRENCY
     DEFAULT_COUNTRY_CODE DEFAULT_UNIT_CODE).

Local Abbreviation buildParty :=
  (buildPartyXml normalizeVatNumber sanitizeCounty sanitizeBucharestSector
     isBucharest DEFAULT_COUNTRY_CODE).

Lemma validateParty_Ok (party : Party) (role : jsstring) :
  validateParty party role = Ok tt ->
  exists registrationName' companyId' address',
    registrationName party = Some registrationName'
    /\ companyId party = Some companyId'
    /\ address party = Some address'
    /\ validateAddress address' role = Ok tt.
Proof.
  unfold validateParty.
  destruct (registrationName party) as [r|]; [|discriminate].
  destruct (blank (Some r)); [discriminate|].
  destruct (companyId party) as [c|]; [|discriminate].
  destruct (blank (Some c)); [discriminate|].
  destruct (address party) as [a|]; [|discriminate].
  cbn [throw_if bind]. intros H. now exists r, c, a.
Qed.

Lemma validateAddress_Ok (address' : Address) (role : jsstring) :
  validateAddress address' role = Ok tt ->
  exists street' city' postalZone',
    street address' = Some street' /\ city address' = Some city'
    /\ postalZone address' = Some postalZone'
    /\ JsString.truthy (trim city') = true.
Proof.
  unfold validateAddress.
  destruct (street address') as [s|]; [|discriminate].
  destruct (blank (Some s)); [discriminate|].
  destruct (city address') as [c|]; [|discriminate].
  destruct (blank (Some c)) eqn:Hc; [discriminate|].
  destruct (postalZone address') as [z|]; [|discriminate].
  intros _. exists s, c, z. repeat split.
  simpl in Hc. now destruct (JsString.truthy (trim c)).
Qed.

Lemma buildPartyXml_Ok (tagName : string) (party : Party) (role : jsstring) :
  validateParty party role = Ok tt ->
  exists registrationName' companyId' address',
    registrationName party = Some registrationName'
    /\ companyId party = Some companyId'
    /\ address party = Some address'
    /\ buildParty tagName party
       = Ok (Ele tagName []
               [ Ele "cac:Party" []
                   ([ postalAddressXml sanitizeCounty sanitizeBucharestSector
                        isBucharest DEFAULT_COUNTRY_CODE address' ]
                    ++ (if some_truthy (fun b : bool => b) (isVatPayer party)
                        then [ partyTaxSchemeXml normalizeVatNumber companyId' ]
                        else [])
                    ++ [ Ele "cac:PartyLegalEntity" []
                           [ leaf "cbc:RegistrationName" [] registrationName';
                             leaf "cbc:CompanyID" [] companyId' ] ]) ]).
Proof.
  intros Hv. destruct (validateParty_Ok _ _ Hv) as (r & c & a & Hr & Hc & Ha & _).
  exists r, c, a. repeat split; try assumption.
  unfold buildPartyXml. now rewrite Hr, Hc, Ha.
Qed.

Lemma validateLines_Ok_names (lines' : list InvoiceLine) (index : nat) :
  validateLines lines' index = Ok tt ->
  forall currency' isSupplierVatPayer,
  exists xs,
    invoiceLinesXml DEFAULT_UNIT_CODE currency' isSupplierVatPayer lines' index
    = Ok xs
    /\ Forall (fun x => has_tag "cac:InvoiceLine" x = true) xs.
Proof.
  revert index. induction lines' as [|line rest IH]; intros index Hv cur vp.
  - exists []. split; [reflexivity|constructor].
  - simpl in Hv. unfold validateLine in Hv.
    destruct (name line) as [n|] eqn:Hn; [|discriminate].
    destruct (validateLines rest (S index)) as [[]|e] eqn:Hrest.
    + destruct (IH (S index) Hrest cur vp) as [xs [Hxs Htags]].
      simpl. unfold invoiceLineXml at 1. rewrite Hn. cbn [defined bind].
      rewrite Hxs. cbn [bind]. eexists. split; [reflexivity|].
      constructor; [reflexivity|assumption].
    + exfalso. revert Hv. clear.
      destruct (throw_if _ _ ;;; _); [|discriminate].
      discriminate.
Qed.

Lemma validateInvoiceInput_Ok (input : InvoiceInput) :
  validateInvoiceInput (Some input) = Ok tt ->
  exists number' date supplier' customer' lines',
    invoiceNumber input = Some number'
    /\ issueDate input = Some date
    /\ supplier input = Some supplier'
    /\ validateParty supplier' (js "Supplier") = Ok tt
    /\ customer input = Some customer'
    /\ validateParty customer' (js "Customer") = Ok tt
    /\ lines input = Some lines'
    /\ validateLines lines' 0 = Ok tt.
Proof.
  unfold validateInvoiceInput.
  destruct (invoiceNumber input) as [n|]; [|discriminate].
  destruct (blank (Some n)); [discriminate|].
  destruct (issueDate input) as [d|]; [|discriminate].
  destruct (negb (some_truthy DateArg_truthy (Some d))); [discriminate|].
  destruct (supplier input) as [s|]; [|discriminate].
  cbn [throw_if bind].
  destruct (validateParty s (js "Supplier")) as [[]|] eqn:Hs; [|discriminate].
  destruct (customer input) as [c|]; [|discriminate].
  cbn [bind].
  destruct (validateParty c (js "Customer")) as [[]|] eqn:Hc; [|discriminate].
  destruct (lines input) as [ls|]; [|discriminate].
  cbn [bind]. intros Hls. now exists n, d, s, c, ls.
Qed.

(** The document of a valid input. *)
Lemma build_Ok (input : InvoiceInput) :
  validateInvoiceInput (Some input) = Ok tt ->
  exists supplier' lines' header supplierKids customerKids lineXmls,
    supplier input = Some supplier'
    /\ lines input = Some lines'
    /\ Forall (fun x => has_tag "cac:TaxTotal" x = false
                        /\ has_tag "cac:LegalMonetaryTotal" x = false) header
    /\ Forall (fun x => has_tag "cac:InvoiceLine" x = true) lineXmls
    /\ let currency' := or_default (currency input) DEFAULT_CURRENCY in
       let isSupplierVatPayer :=
         some_truthy (fun b : bool => b) (isVatPayer supplier') in
       let taxGroups := taxGroupsOf lines' isSupplierVatPayer in
       build (Some input)
       = Ok (Ele "Invoice" invoiceNamespaces
               (header
                ++ [ Ele "cac:AccountingSupplierParty" [] supplierKids;
                     Ele "cac:AccountingCustomerParty" [] customerKids ]
                ++ paymentMeansXml input
                ++ [ taxTotalXml currency' (totalTax taxGroups) taxGroups;
                     legalMonetaryTotalXml currency' (totalTaxable taxGroups)
                       (round2 (add (totalTaxable taxGroups)
                                    (totalTax taxGroups))) ]
                ++ lineXmls)).
Proof.
  intros Hv.
  destruct (validateInvoiceInput_Ok _ Hv)
    as (n & d & s & c & ls & Hn & Hd & Hs & Hvs & Hc & Hvc & Hls & Hvl).
  destruct (buildPartyXml_Ok "cac:AccountingSupplierParty" _ _ Hvs)
    as (? & ? & ? & _ & _ & _ & Hsx).
  destruct (buildPartyXml_Ok "cac:AccountingCustomerParty" _ _ Hvc)
    as (? & ? & ? & _ & _ & _ & Hcx).
  destruct (validateLines_Ok_names _ _ Hvl
              (or_default (currency input) DEFAULT_CURRENCY)
              (some_truthy (fun b : bool => b) (isVatPayer s)))
    as [xs [Hxs Htags]].
  exists s, ls. eexists. eexists. eexists. exists xs.
  split; [assumption|]. split; [assumption|].
  split; [|split; [exact Htags|]].
  2:{ cbv zeta. unfold buildInvoiceXml. rewrite Hv.
      cbn [bind defined]. rewrite Hs. cbn [bind defined].
      rewrite Hd. cbn [bind defined]. rewrite Hls. cbn [bind defined].
      unfold headerXml. rewrite Hn. cbn [bind defined].
      rewrite Hsx. cbn [bind]. rewrite Hc. cbn [bind defined].
      rewrite Hcx. cbn [bind]. rewrite Hxs. cbn [bind].
      reflexivity. }
  repeat constructor.
Qed.

Lemma find_skip (p : xml -> bool) (skipped rest : list xml) :
  Forall (fun x => p x = false) skipped ->
  find p (skipped ++ rest) = find p rest.
Proof.
  induction 1 as [|x l Hx _ IH]; [reflexivity|].
  simpl. now rewrite Hx.
Qed.

Lemma paymentMeansXml_tags (input : InvoiceInput) :
  Forall (fun x => has_tag "cac:TaxTotal" x = false
                   /\ has_tag "cac:LegalMonetaryTotal" x = false)
         (paymentMeansXml input).
Proof.
  unfold paymentMeansXml.
  destruct (paymentIban input) as [iban|]; [|constructor].
  destruct (JsString.truthy iban); repeat constructor.
Qed.

(** The tax total and the legal monetary total of the document of a
    valid input. *)
Lemma build_totals (input : InvoiceInput) :
  validateInvoiceInput (Some input) = Ok tt ->
  exists supplier' lines' doc,
    supplier input = Some supplier'
    /\ lines input = Some lines'
    /\ build (Some input) = Ok doc
    /\ let currency' := or_default (currency input) DEFAULT_CURRENCY in
       let taxGroups :=
         taxGroupsOf lines'
           (some_truthy (fun b : bool => b) (isVatPayer supplier')) in
       child "cac:TaxTotal" doc
       = Some (taxTotalXml currency' (totalTax taxGroups) taxGroups)
       /\ child "cac:LegalMonetaryTotal" doc
          = Some (legalMonetaryTotalXml currency' (totalTaxable taxGroups)
                    (round2 (add (totalTaxable taxGroups)
                                 (totalTax taxGroups)))).
Proof.
  intros Hv.
  destruct (build_Ok _ Hv)
    as (s & ls & header & sk & ck & xs & Hs & Hls & Hh & _ & Hdoc).
  cbv zeta in Hdoc. exists s, ls. eexists.
  split; [assumption|]. split; [assumption|]. split; [exact Hdoc|].
  cbv zeta. unfold child. cbn [kids_of].
  pose proof (paymentMeansXml_tags input) as Hp.
  split.
  - rewrite find_skip by (eapply Forall_impl; [|exact Hh]; now intros ? []).
    cbn [app find has_tag String.eqb Ascii.eqb Bool.eqb].
    rewrite find_skip by (eapply Forall_impl; [|exact Hp]; now intros ? []).
    reflexivity.
  - rewrite find_skip by (eapply Forall_impl; [|exact Hh]; now intros ? []).
    cbn [app find has_tag String.eqb Ascii.eqb Bool.eqb].
    rewrite find_skip by (eapply Forall_impl; [|exact Hp]; now intros ? []).
    reflexivity.
Qed.

Lemma build_of_invalid (input : InvoiceInput) (e : error) :
  validateInvoiceInput (Some input) = Throw e ->
  build (Some input) = Throw e /\ exists message, e = AnafValidationError message.
Proof.
  intros He. split.
  - unfold buildInvoiceXml. now rewrite He.
  - rewrite validateInvoiceInput_checks in He. unfold stopAtFirst in He.
    destruct (firstViolation (inputChecks input)) as [m|]; [|discriminate].
    inversion He. now exists m.
Qed.

Lemma build_Throw (input : InvoiceInput) (e : error) :
  build (Some input) = Throw e -> validateInvoiceInput (Some input) = Throw e.
Proof.
  intros He.
  destruct (validateInvoiceInput (Some input)) as [[]|e'] eqn:Hv.
  - destruct (build_Ok _ Hv) as (? & ? & ? & ? & ? & ? & _ & _ & _ & _ & Hdoc).
    cbv zeta in Hdoc. rewrite Hdoc in He. discriminate.
  - unfold buildInvoiceXml in He. rewrite Hv in He.
    cbn [bind] in He. injection He as ->. reflexivity.
Qed.

(** No run of the builder uses an undefined value. *)
Lemma buildInvoiceXml_never_undefined (input : InvoiceInput) :
  build (Some input) <> Throw UndefinedUse.
Proof.
  intros H. destruct (build_of_invalid _ (build_Throw _ H)) as [_ [m Hm]].
  discriminate.
Qed.

(** C5.  The validator stops at the first violated check, the checks
    taken in the order invoice number, issue date, supplier presence and
    fields, customer presence and fields, lines presence, then the lines in
    sequence, each line named by its 1-based position.  The builder throws
    nothing but the [AnafValidationError] of the validator, and when the
    validator throws no document is produced. *)
Theorem C5_first_violation_in_order (input : InvoiceInput) :
  validateInvoiceInput (Some input) = stopAtFirst (inputChecks input)
  /\ (forall e, validateInvoiceInput (Some input) = Throw e ->
                build (Some input) = Throw e
                /\ exists message, e = AnafValidationError message)
  /\ (forall e, build (Some input) = Throw e ->
                validateInvoiceInput (Some input) = Throw e)
  /\ (forall lines', lines input = Some lines' ->
        linesChecks lines' 0
        = List.concat (map (fun il => lineChecks (snd il) (fst il))
                           (combine (seq 0 (List.length lines')) lines'))
        /\ forall index line c,
             nth_error lines' index = Some line ->
             In c (lineChecks line index) ->
             exists rest,
               snd c = js "Line " ++ digits (N.of_nat (index + 1))
                         ++ js ": " ++ rest).
Proof.
  split; [apply validateInvoiceInput_checks|].
  split; [|split].
  - intros e. apply build_of_invalid.
  - intros e. apply build_Throw.
  - intros ls _. split; [apply linesChecks_nth|].
    intros index line c _. apply lineChecks_name_line.
Qed.

(** C4, amended by the bound on the amounts.  For a valid input the total taxable and the total
    tax are the sums of the amounts of the groups, added as they are; the
    grand total is their sum rounded to 2 decimals; LineExtensionAmount
    and TaxExclusiveAmount carry the total taxable, TaxInclusiveAmount and
    PayableAmount the grand total; and a total that is finite and below
    10^21 is written with exactly 2 decimal places. *)
Theorem C4_totals_of_valid_input (input : InvoiceInput) :
  validateInvoiceInput (Some input) = Ok tt ->
  exists supplier' lines' doc,
    supplier input = Some supplier'
    /\ lines input = Some lines'
    /\ build (Some input) = Ok doc
    /\ let taxGroups :=
         taxGroupsOf lines'
           (some_truthy (fun b : bool => b) (isVatPayer supplier')) in
       let totalTaxableAmount :=
         fold_left (fun sum group => add sum (taxableAmount group))
                   taxGroups pzero in
       let totalTaxAmount :=
         fold_left (fun sum group => add sum (taxAmount group))
                   taxGroups pzero in
       let grandTotal := round2 (add totalTaxableAmount totalTaxAmount) in
       text_at ["cac:LegalMonetaryTotal"; "cbc:LineExtensionAmount"] doc
       = Some (toFixed2 totalTaxableAmount)
       /\ text_at ["cac:LegalMonetaryTotal"; "cbc:TaxExclusiveAmount"] doc
          = Some (toFixed2 totalTaxableAmount)
       /\ text_at ["cac:LegalMonetaryTotal"; "cbc:TaxInclusiveAmount"] doc
          = Some (toFixed2 grandTotal)
       /\ text_at ["cac:LegalMonetaryTotal"; "cbc:PayableAmount"] doc
          = Some (toFixed2 grandTotal)
       /\ text_at ["cac:TaxTotal"; "cbc:TaxAmount"] doc
          = Some (toFixed2 totalTaxAmount)
       /\ (fixedRange totalTaxableAmount = true ->
           hasTwoDecimals (toFixed2 totalTaxableAmount) = true)
       /\ (fixedRange grandTotal = true ->
           hasTwoDecimals (toFixed2 grandTotal) = true).
Proof.
  intros Hv.
  destruct (build_totals _ Hv) as (s & ls & doc & Hs & Hls & Hdoc & Htax & Hlmt).
  exists s, ls, doc. split; [assumption|]. split; [assumption|].
  split; [assumption|]. cbv zeta. cbn [text_at].
  rewrite Hlmt, Htax.
  repeat split; try reflexivity; apply hasTwoDecimals_toFixed2.
Qed.

(** C6.  An input that is valid but for having no line (its lines array
    is present and empty) passes validation; the builder succeeds on it;
    there is no tax group; the tax amount and the four amounts of the
    legal monetary total are "0.00"; and the tax total holds exactly one
    subtotal, the default one, of category "S" at "0.00" percent. *)
Theorem C6_empty_lines (input : InvoiceInput) (supplier' customer' : Party) :
  lines input = Some [] ->
  blank (invoiceNumber input) = false ->
  some_truthy DateArg_truthy (issueDate input) = true ->
  supplier input = Some supplier' ->
  validateParty supplier' (js "Supplier") = Ok tt ->
  customer input = Some customer' ->
  validateParty customer' (js "Customer") = Ok tt ->
  validateInvoiceInput (Some input) = Ok tt
  /\ taxGroupsOf [] (some_truthy (fun b : bool => b) (isVatPayer supplier'))
     = []
  /\ exists doc taxTotal subtotal,
       build (Some input) = Ok doc
       /\ child "cac:TaxTotal" doc = Some taxTotal
       /\ text_at ["cbc:TaxAmount"] taxTotal = Some (js "0.00")
       /\ children "cac:TaxSubtotal" taxTotal = [subtotal]
       /\ text_at ["cbc:TaxableAmount"] subtotal = Some (js "0.00")
       /\ text_at ["cbc:TaxAmount"] subtotal = Some (js "0.00")
       /\ text_at ["cac:TaxCategory"; "cbc:ID"] subtotal = Some (js "S")
       /\ text_at ["cac:TaxCategory"; "cbc:Percent"] subtotal
          = Some (js "0.00")
       /\ text_at ["cac:LegalMonetaryTotal"; "cbc:LineExtensionAmount"] doc
          = Some (js "0.00")
       /\ text_at ["cac:LegalMonetaryTotal"; "cbc:TaxExclusiveAmount"] doc
          = Some (js "0.00")
       /\ text_at ["cac:LegalMonetaryTotal"; "cbc:TaxInclusiveAmount"] doc
          = Some (js "0.00")
       /\ text_at ["cac:LegalMonetaryTotal"; "cbc:PayableAmount"] doc
          = Some (js "0.00").
Proof.
  intros Hls Hn Hd Hs Hvs Hc Hvc.
  assert (validateInvoiceInput (Some input) = Ok tt) as Hv.
  { unfold validateInvoiceInput.
    rewrite Hn, Hd, Hs. cbn [negb throw_if bind]. rewrite Hvs. cbn [bind].
    rewrite Hc, Hvc. cbn [bind]. now rewrite Hls. }
  split; [exact Hv|]. split; [reflexivity|].
  destruct (build_totals _ Hv) as (s & ls & doc & Hs' & Hls' & Hdoc & Htax & Hlmt).
  rewrite Hls in Hls'. injection Hls' as <-.
  cbv zeta in Htax, Hlmt. cbn [taxGroupsOf] in Htax, Hlmt.
  exists doc. eexists. eexists.
  split; [exact Hdoc|]. split; [exact Htax|].
  cbn [text_at]. rewrite Hlmt.
  assert (toFixed2 pzero = js "0.00") as Hzero by (vm_compute; reflexivity).
  assert (round2 (add pzero pzero) = pzero) as Hsum by (vm_compute; reflexivity).
  unfold totalTax, totalTaxable. cbn [fold_left]. rewrite Hsum.
  unfold taxTotalXml, legalMonetaryTotalXml. rewrite Hzero.
  repeat split; reflexivity.
Qed.

(** C9.  For a valid party the CountrySubentity of the postal address is
    the result of [sanitizeCounty] on the county of the address, the
    empty text when there is none, and the party block is built all the
    same; the CityName is the result of [sanitizeBucharestSector] on the
    city when [isBucharest] holds of the sanitized county, and the city
    as given otherwise. *)
Theorem C9_county_and_city (tagName : string) (party : Party) (role : jsstring) :
  validateParty party role = Ok tt ->
  exists address' city' x,
    address party = Some address'
    /\ city address' = Some city'
    /\ buildParty tagName party = Ok x
    /\ let county' := sanitizeCounty (county address') in
       text_at ["cac:Party"; "cac:PostalAddress"; "cbc:CountrySubentity"] x
       = Some (match county' with Some code => code | None => [] end)
       /\ (isBucharest county' = true ->
           text_at ["cac:Party"; "cac:PostalAddress"; "cbc:CityName"] x
           = Some (match sanitizeBucharestSector (Some city') with
                   | Some sector => sector
                   | None => []
                   end))
       /\ (isBucharest county' = false ->
           text_at ["cac:Party"; "cac:PostalAddress"; "cbc:CityName"] x
           = Some city').
Proof.
  intros Hv.
  destruct (validateParty_Ok _ _ Hv) as (r & c & a & Hr & Hc & Ha & Hva).
  destruct (validateAddress_Ok _ _ Hva) as (st & ci & pz & Hst & Hci & Hpz & _).
  destruct (buildPartyXml_Ok tagName _ _ Hv) as (r' & c' & a' & _ & _ & Ha' & Hx).
  rewrite Ha in Ha'. injection Ha' as <-.
  exists a, ci. eexists. split; [assumption|]. split; [assumption|].
  split; [exact Hx|]. cbv zeta.
  assert (forall o : option jsstring,
            or_default o [] = match o with Some v => v | None => [] end) as Hor.
  { intros [[|? ?]|]; reflexivity. }
  split; [|split].
  - cbn. now rewrite Hor.
  - intros Hb. cbn. rewrite Hb, Hci, Hor. reflexivity.
  - intros Hb. cbn. rewrite Hb, Hci, Hor. reflexivity.
Qed.

(** C10.  The party block of a valid party holds a PartyTaxScheme exactly
    when the party is flagged as a VAT payer; its CompanyID is then the
    company id through [normalizeVatNumber] and its scheme "VAT".  The
    PartyLegalEntity always carries the company id as given. *)
Theorem C10_party_tax_scheme (tagName : string) (party : Party) (role : jsstring) :
  validateParty party role = Ok tt ->
  exists companyId' x partyElement,
    companyId party = Some companyId'
    /\ buildParty tagName party = Ok x
    /\ child "cac:Party" x = Some partyElement
    /\ text_at ["cac:PartyLegalEntity"; "cbc:CompanyID"] partyElement
       = Some companyId'
    /\ (isVatPayer party = Some true ->
        exists taxScheme,
          children "cac:PartyTaxScheme" partyElement = [taxScheme]
          /\ text_at ["cbc:CompanyID"] taxScheme
             = Some (normalizeVatNumber companyId')
          /\ text_at ["cac:TaxScheme"; "cbc:ID"] taxScheme = Some (js "VAT"))
    /\ (isVatPayer party <> Some true ->
        children "cac:PartyTaxScheme" partyElement = []).
Proof.
  intros Hv.
  destruct (buildPartyXml_Ok tagName _ _ Hv) as (r & c & a & Hr & Hc & Ha & Hx).
  exists c. eexists. eexists. split; [assumption|]. split; [exact Hx|].
  split; [reflexivity|].
  destruct (isVatPayer party) as [[|]|]; cbn; (split; [reflexivity|]); split;
    try (intros H; congruence); try reflexivity.
  - intros _. eexists. repeat split; reflexivity.
Qed.

End BuilderFacts.

(* ================================================================== *)
(** ** The address sanitizer *)
(* ================================================================== *)

Lemma lookup_In (table : list (string * string)) (key code : jsstring) :
  AddressSanitizer.lookup table key = Some code ->
  In code (map (fun kv => js (snd kv)) table).
Proof.
  induction table as [|[k v] table IH]; simpl; [discriminate|].
  destruct (JsString.eqb (js k) key).
  - intros [= <-]. now left.
  - intros H. right. now apply IH.
Qed.

(** C7.  [sanitizeCounty] is null on a missing, empty or white-space
    input; otherwise it looks the normalized input up in the table and,
    when that fails, looks it up once more with the qualifier words
    stripped; it is total, and a result is a code of the table.  The named
    inputs give the named codes. *)
Theorem C7_sanitizeCounty (input : option jsstring) :
  (input = None -> AddressSanitizer.sanitizeCounty input = None)
  /\ (forall s, input = Some s -> trim s = [] ->
                AddressSanitizer.sanitizeCounty input = None)
  /\ (forall s, input = Some s -> trim s <> [] ->
        AddressSanitizer.sanitizeCounty input
        = match AddressSanitizer.lookup AddressSanitizer.countyTable
                  (AddressSanitizer.normalizeInput s) with
          | Some code => Some code
          | None =>
              AddressSanitizer.lookup AddressSanitizer.countyTable
                (AddressSanitizer.stripQualifiers
                   (AddressSanitizer.normalizeInput s))
          end)
  /\ (forall code, AddressSanitizer.sanitizeCounty input = Some code ->
        In code (map (fun kv => js (snd kv)) AddressSanitizer.countyTable))
  /\ AddressSanitizer.sanitizeCounty (Some (js "cluj")) = Some (js "RO-CJ")
  /\ AddressSanitizer.sanitizeCounty (Some (js "Ia" ++ [537%N] ++ js "i"))
     = Some (js "RO-IS")
  /\ AddressSanitizer.sanitizeCounty (Some (js "bistrita-nasaud"))
     = Some (js "RO-BN")
  /\ AddressSanitizer.sanitizeCounty (Some (js "Mun. Iasi")) = Some (js "RO-IS")
  /\ AddressSanitizer.sanitizeCounty (Some (js "bucuresti")) = Some (js "RO-B")
  /\ AddressSanitizer.sanitizeCounty (Some (js "transilvania")) = None.
Proof.
  split; [now intros ->|].
  split; [intros s -> Hs; unfold AddressSanitizer.sanitizeCounty; now rewrite Hs|].
  split.
  { intros s -> Hs. unfold AddressSanitizer.sanitizeCounty.
    destruct (trim s) as [|c0 t0]; [congruence|reflexivity]. }
  split.
  { intros code. unfold AddressSanitizer.sanitizeCounty.
    destruct input as [s|]; [|discriminate].
    destruct (trim s) as [|c0 t0]; [discriminate|].
    destruct (AddressSanitizer.lookup AddressSanitizer.countyTable
                (AddressSanitizer.normalizeInput s)) as [c|] eqn:Hdirect.
    - intros [= <-]. now apply lookup_In in Hdirect.
    - apply lookup_In. }
  vm_compute. repeat split.
Qed.

Lemma C7_sanitizeCounty_witness :
  AddressSanitizer.sanitizeCounty (Some (js "   ")) = None
  /\ AddressSanitizer.sanitizeCounty (Some (js "Judetul Cluj"))
     = Some (js "RO-CJ")
  /\ In (js "RO-CJ") (map (fun kv => js (snd kv)) AddressSanitizer.countyTable).
Proof.
  destruct (C7_sanitizeCounty (Some (js "   "))) as (_ & Hblank & _).
  destruct (C7_sanitizeCounty (Some (js "Judetul Cluj")))
    as (_ & _ & Hlookup & Hcode & _).
  split; [exact (Hblank _ eq_refl eq_refl)|].
  assert (AddressSanitizer.sanitizeCounty (Some (js "Judetul Cluj"))
          = Some (js "RO-CJ")) as Hcluj.
  { rewrite (Hlookup _ eq_refl); [reflexivity|discriminate]. }
  split; [exact Hcluj|exact (Hcode _ Hcluj)].
Defined.

(** C8.  [sanitizeBucharestSector] is null on a missing, empty or
    white-space input; otherwise it takes the first sector token of the
    normalized input; a result is "SECTOR" and a number from 1 to 6 written
    without padding, and the input is null when there is no token or its
    number is outside 1 to 6.  The named inputs give the named results. *)
Theorem C8_sanitizeBucharestSector (input : option jsstring) :
  (input = None -> AddressSanitizer.sanitizeBucharestSector input = None)
  /\ (forall s, input = Some s -> trim s = [] ->
                AddressSanitizer.sanitizeBucharestSector input = None)
  /\ (forall s n, input = Some s -> trim s <> [] ->
        AddressSanitizer.firstSectorToken (AddressSanitizer.normalizeInput s) true
        = Some n ->
        (1 <= n <= 6)%N ->
        AddressSanitizer.sanitizeBucharestSector input
        = Some (js "SECTOR" ++ digits n))
  /\ (forall s n, input = Some s ->
        AddressSanitizer.firstSectorToken (AddressSanitizer.normalizeInput s) true
        = Some n ->
        ~ (1 <= n <= 6)%N ->
        AddressSanitizer.sanitizeBucharestSector input = None)
  /\ (forall s, input = Some s ->
        AddressSanitizer.firstSectorToken (AddressSanitizer.normalizeInput s) true
        = None ->
        AddressSanitizer.sanitizeBucharestSector input = None)
  /\ (forall result, AddressSanitizer.sanitizeBucharestSector input = Some result ->
        In result [ js "SECTOR1"; js "SECTOR2"; js "SECTOR3";
                    js "SECTOR4"; js "SECTOR5"; js "SECTOR6" ])
  /\ AddressSanitizer.sanitizeBucharestSector (Some (js "sector 1"))
     = Some (js "SECTOR1")
  /\ AddressSanitizer.sanitizeBucharestSector (Some (js "s06"))
     = Some (js "SECTOR6")
  /\ AddressSanitizer.sanitizeBucharestSector (Some (js "Sector 4 Bucuresti"))
     = Some (js "SECTOR4")
  /\ AddressSanitizer.sanitizeBucharestSector (Some (js "sector 0")) = None
  /\ AddressSanitizer.sanitizeBucharestSector (Some (js "sector 7")) = None.
Proof.
  assert (forall n : N, ((1 <=? n) && (n <=? 6))%N = true <-> (1 <= n <= 6)%N)
    as Hrange.
  { intros n. rewrite andb_true_iff, !N.leb_le. tauto. }
  split; [now intros ->|].
  split.
  { intros s -> Hs. unfold AddressSanitizer.sanitizeBucharestSector.
    now rewrite Hs. }
  split.
  { intros s n -> Hs Htoken Hn. unfold AddressSanitizer.sanitizeBucharestSector.
    destruct (trim s) as [|c0 t0]; [congruence|]. rewrite Htoken.
    apply Hrange in Hn. now rewrite Hn. }
  split.
  { intros s n -> Htoken Hn. unfold AddressSanitizer.sanitizeBucharestSector.
    destruct (trim s) as [|c0 t0]; [reflexivity|]. rewrite Htoken.
    destruct ((1 <=? n) && (n <=? 6))%N eqn:Hb; [|reflexivity].
    apply Hrange in Hb. contradiction. }
  split.
  { intros s -> Htoken. unfold AddressSanitizer.sanitizeBucharestSector.
    destruct (trim s) as [|c0 t0]; [reflexivity|]. now rewrite Htoken. }
  split.
  { intros result. unfold AddressSanitizer.sanitizeBucharestSector.
    destruct input as [s|]; [|discriminate].
    destruct (trim s) as [|c0 t0]; [discriminate|].
    destruct (AddressSanitizer.firstSectorToken _ _) as [n|]; [|discriminate].
    destruct ((1 <=? n) && (n <=? 6))%N eqn:Hb; [|discriminate].
    apply Hrange in Hb. intros [= <-].
    assert (n = 1 \/ n = 2 \/ n = 3 \/ n = 4 \/ n = 5 \/ n = 6)%N as Hn by lia.
    destruct Hn as [->|[->|[->|[->|[->| ->]]]]]; vm_compute; tauto. }
  vm_compute. repeat split.
Qed.

Lemma C8_sanitizeBucharestSector_witness :
  AddressSanitizer.sanitizeBucharestSector (Some (js "sector 06"))
  = Some (js "SECTOR6")
  /\ AddressSanitizer.sanitizeBucharestSector (Some (js "sectorul 9")) = None
  /\ AddressSanitizer.sanitizeBucharestSector (Some (js "ilfov")) = None.
Proof.
  destruct (C8_sanitizeBucharestSector (Some (js "sector 06")))
    as (_ & _ & Hin & _).
  destruct (C8_sanitizeBucharestSector (Some (js "sectorul 9")))
    as (_ & _ & _ & Hout & _).
  destruct (C8_sanitizeBucharestSector (Some (js "ilfov")))
    as (_ & _ & _ & _ & Hnone & _).
  split; [|split].
  - apply (Hin (js "sector 06") 6%N eq_refl); [discriminate|reflexivity|].
    split; discriminate.
  - apply (Hout (js "sectorul 9") 9%N eq_refl); [reflexivity|].
    intros [_ H]. now apply H.
  - apply (Hnone (js "ilfov") eq_refl). reflexivity.
Defined.

(* ================================================================== *)
(** ** The builder on the sample data *)
(* ================================================================== *)

(** The invoice of the test "should calculate line totals correctly". *)
Lemma C4_totals_of_valid_input_witness :
  let input := Sample.invoice (Some [Sample.line "5" "20.5" (Some "19")]) in
  validateInvoiceInput (Some input) = Ok tt
  /\ exists doc,
       Sample.build (Some input) = Ok doc
       /\ text_at ["cac:LegalMonetaryTotal"; "cbc:LineExtensionAmount"] doc
          = Some (js "102.50")
       /\ text_at ["cac:TaxTotal"; "cbc:TaxAmount"] doc = Some (js "19.48")
       /\ text_at ["cac:LegalMonetaryTotal"; "cbc:PayableAmount"] doc
          = Some (js "121.98")
       /\ hasTwoDecimals (js "121.98") = true.
Proof.
  intros input.
  assert (validateInvoiceInput (Some input) = Ok tt) as Hv
    by (vm_compute; reflexivity).
  split; [exact Hv|].
  destruct (@C4_totals_of_valid_input Sample.normalizeVatNumber
              AddressSanitizer.sanitizeCounty
              AddressSanitizer.sanitizeBucharestSector
              AddressSanitizer.isBucharest Sample.formatDateForAnaf
              Sample.UBL_CUSTOMIZATION_ID (js "RON") (js "RO") (js "EA")
              input Hv)
    as (s & ls & doc & Hs & Hls & Hdoc & Hline & _ & _ & Hpay & Htax & _ & Htwo).
  injection Hs as <-. injection Hls as <-.
  exists doc. split; [exact Hdoc|].
  split; [rewrite Hline; vm_compute; reflexivity|].
  split; [rewrite Htax; vm_compute; reflexivity|].
  split; [rewrite Hpay; vm_compute; reflexivity|].
  assert (toFixed2
            (round2
               (add
                  (fold_left (fun sum group => add sum (taxableAmount group))
                     (taxGroupsOf [Sample.line "5" "20.5" (Some "19")]
                        (some_truthy (fun b : bool => b)
                           (isVatPayer Sample.supplierCluj))) pzero)
                  (fold_left (fun sum group => add sum (taxAmount group))
                     (taxGroupsOf [Sample.line "5" "20.5" (Some "19")]
                        (some_truthy (fun b : bool => b)
                           (isVatPayer Sample.supplierCluj))) pzero)))
          = js "121.98") as Hgrand by (vm_compute; reflexivity).
  rewrite <- Hgrand. apply Htwo. vm_compute. reflexivity.
Defined.

(** The invoice of the test "should handle multiple tax rates correctly":
    two groups, totals 200.00, 28.00 and 228.00. *)
Example invoice_19_and_9 :
  let input := Sample.invoice (Some [ Sample.line "1" "100" (Some "19");
                                      Sample.line "1" "100" (Some "9") ]) in
  exists doc taxTotal,
    Sample.build (Some input) = Ok doc
    /\ child "cac:TaxTotal" doc = Some taxTotal
    /\ List.length (children "cac:TaxSubtotal" taxTotal) = 2%nat
    /\ text_at ["cbc:TaxAmount"] taxTotal = Some (js "28.00")
    /\ text_at ["cac:LegalMonetaryTotal"; "cbc:TaxExclusiveAmount"] doc
       = Some (js "200.00")
    /\ text_at ["cac:LegalMonetaryTotal"; "cbc:PayableAmount"] doc
       = Some (js "228.00").
Proof.
  intros input.
  destruct (Sample.build (Some input)) as [doc|e] eqn:Hdoc;
    [|vm_compute in Hdoc; discriminate Hdoc].
  vm_compute in Hdoc. injection Hdoc as <-.
  eexists. eexists. split; [reflexivity|].
  split; [vm_compute; reflexivity|]. vm_compute. repeat split.
Qed.

(** One unit at a price of 10^21: a valid input whose total taxable
    [toFixed(2)] writes in exponent notation, with no decimal place. *)
Lemma C4_counterexample :
  let input := Sample.invoice (Some [Sample.line "1" "1e21" None]) in
  validateInvoiceInput (Some input) = Ok tt
  /\ exists doc,
       Sample.build (Some input) = Ok doc
       /\ text_at ["cac:LegalMonetaryTotal"; "cbc:LineExtensionAmount"] doc
          = Some (js "1e+21")
       /\ text_at ["cac:LegalMonetaryTotal"; "cbc:PayableAmount"] doc
          = Some (js "1e+21")
       /\ hasTwoDecimals (js "1e+21") = false.
Proof.
  intros input. split; [vm_compute; reflexivity|].
  destruct (Sample.build (Some input)) as [doc|e] eqn:Hdoc;
    [|vm_compute in Hdoc; discriminate Hdoc].
  exists doc. split; [reflexivity|].
  vm_compute in Hdoc. injection Hdoc as <-.
  vm_compute. repeat split.
Qed.

(** The second line has quantity 0: the validator names line 2 and the
    builder throws that error. *)
Lemma C5_first_violation_in_order_witness :
  let input := Sample.invoice (Some [ Sample.line "1" "100" (Some "19");
                                      Sample.line "0" "100" (Some "19") ]) in
  Sample.build (Some input)
  = Throw (AnafValidationError
             (js "Line 2: Quantity must be a positive number")).
Proof.
  intros input.
  destruct (@C5_first_violation_in_order Sample.normalizeVatNumber
              AddressSanitizer.sanitizeCounty
              AddressSanitizer.sanitizeBucharestSector
              AddressSanitizer.isBucharest Sample.formatDateForAnaf
              Sample.UBL_CUSTOMIZATION_ID (js "RON") (js "RO") (js "EA") input)
    as (Hfirst & Hthrow & _).
  apply Hthrow. rewrite Hfirst. vm_compute. reflexivity.
Defined.

(** The sample invoice without lines. *)
Lemma C6_empty_lines_witness :
  let input := Sample.invoice (Some []) in
  validateInvoiceInput (Some input) = Ok tt
  /\ exists doc taxTotal,
       Sample.build (Some input) = Ok doc
       /\ child "cac:TaxTotal" doc = Some taxTotal
       /\ List.length (children "cac:TaxSubtotal" taxTotal) = 1%nat
       /\ text_at ["cac:LegalMonetaryTotal"; "cbc:PayableAmount"] doc
          = Some (js "0.00").
Proof.
  intros input.
  destruct (@C6_empty_lines Sample.normalizeVatNumber
              AddressSanitizer.sanitizeCounty
              AddressSanitizer.sanitizeBucharestSector
              AddressSanitizer.isBucharest Sample.formatDateForAnaf
              Sample.UBL_CUSTOMIZATION_ID (js "RON") (js "RO") (js "EA")
              input Sample.supplierCluj Sample.customerBucharest
              eq_refl eq_refl eq_refl eq_refl eq_refl eq_refl eq_refl)
    as (Hv & _ & doc & taxTotal & subtotal & Hdoc & Htax & _ & Hsub
        & _ & _ & _ & _ & _ & _ & _ & Hpay).
  split; [exact Hv|].
  exists doc, taxTotal. split; [exact Hdoc|]. split; [exact Htax|].
  split; [now rewrite Hsub|exact Hpay].
Defined.

(** A customer in Bucharest: the county is written as its code and the
    city as its sector.  A customer whose county is not recognised: the
    county is left empty and the city is written as given. *)
Lemma C9_county_and_city_witness :
  (exists x,
     Sample.party "cac:AccountingCustomerParty" Sample.customerBucharest = Ok x
     /\ text_at ["cac:Party"; "cac:PostalAddress"; "cbc:CountrySubentity"] x
        = Some (js "RO-B")
     /\ text_at ["cac:Party"; "cac:PostalAddress"; "cbc:CityName"] x
        = Some (js "SECTOR3"))
  /\ (exists x,
        Sample.party "cac:AccountingCustomerParty" Sample.customerUnknownCounty
        = Ok x
        /\ text_at ["cac:Party"; "cac:PostalAddress"; "cbc:CountrySubentity"] x
           = Some []
        /\ text_at ["cac:Party"; "cac:PostalAddress"; "cbc:CityName"] x
           = Some (js "Sibiel")).
Proof.
  split.
  - destruct (@C9_county_and_city Sample.normalizeVatNumber
                AddressSanitizer.sanitizeCounty
                AddressSanitizer.sanitizeBucharestSector
                AddressSanitizer.isBucharest (js "RO")
                "cac:AccountingCustomerParty" Sample.customerBucharest
                (js "Customer") eq_refl)
      as (a & c & x & Ha & Hc & Hx & Hcounty & Hsector & _).
    injection Ha as <-. injection Hc as <-.
    exists x. split; [exact Hx|]. split.
    + rewrite Hcounty. reflexivity.
    + rewrite Hsector; reflexivity.
  - destruct (@C9_county_and_city Sample.normalizeVatNumber
                AddressSanitizer.sanitizeCounty
                AddressSanitizer.sanitizeBucharestSector
                AddressSanitizer.isBucharest (js "RO")
                "cac:AccountingCustomerParty" Sample.customerUnknownCounty
                (js "Customer") eq_refl)
      as (a & c & x & Ha & Hc & Hx & Hcounty & _ & Hcity).
    injection Ha as <-. injection Hc as <-.
    exists x. split; [exact Hx|]. split.
    + rewrite Hcounty. reflexivity.
    + rewrite Hcity; reflexivity.
Defined.

(** The supplier is a VAT payer and has one PartyTaxScheme; the customer
    carries no flag and has none. *)
Lemma C10_party_tax_scheme_witness :
  (exists x partyElement taxScheme,
     Sample.party "cac:AccountingSupplierParty" Sample.supplierCluj = Ok x
     /\ child "cac:Party" x = Some partyElement
     /\ children "cac:PartyTaxScheme" partyElement = [taxScheme]
     /\ text_at ["cbc:CompanyID"] taxScheme = Some (js "RO12345678")
     /\ text_at ["cac:PartyLegalEntity"; "cbc:CompanyID"] partyElement
        = Some (js "12345678"))
  /\ (exists x partyElement,
        Sample.party "cac:AccountingCustomerParty" Sample.customerBucharest
        = Ok x
        /\ child "cac:Party" x = Some partyElement
        /\ children "cac:PartyTaxScheme" partyElement = []).
Proof.
  split.
  - destruct (@C10_party_tax_scheme Sample.normalizeVatNumber
                AddressSanitizer.sanitizeCounty
                AddressSanitizer.sanitizeBucharestSector
                AddressSanitizer.isBucharest (js "RO")
                "cac:AccountingSupplierParty" Sample.supplierCluj
                (js "Supplier") eq_refl)
      as (c & x & p & Hc & Hx & Hp & Hlegal & Hvat & _).
    injection Hc as <-.
    destruct (Hvat eq_refl) as (t & Ht & Hid & _).
    exists x, p, t. split; [exact Hx|]. split; [exact Hp|].
    split; [exact Ht|]. split; [rewrite Hid; reflexivity|exact Hlegal].
  - destruct (@C10_party_tax_scheme Sample.normalizeVatNumber
                AddressSanitizer.sanitizeCounty
                AddressSanitizer.sanitizeBucharestSector
                AddressSanitizer.isBucharest (js "RO")
                "cac:AccountingCustomerParty" Sample.customerBucharest
                (js "Customer") eq_refl)
      as (c & x & p & _ & Hx & Hp & _ & _ & Hnone).
    exists x, p. split; [exact Hx|]. split; [exact Hp|].
    apply Hnone. discriminate.
Defined.

(* ================================================================== *)
(** ** Reading back what [toFixed(2)] writes *)
(* ================================================================== *)

Lemma scan_digits_pos (d : Decimal.uint) (rest : jsstring) :
  match rest with [] => True | c :: _ => isDigit c = false end ->
  forall (acc : positive) (cnt : nat),
  exists cnt',
    scan_digits (js (NilEmpty.string_of_uint d) ++ rest) (Npos acc) cnt
    = (Npos (Pos.of_uint_acc d acc), cnt', rest).
Proof.
  intros Hrest.
  induction d as [|d IH|d IH|d IH|d IH|d IH|d IH|d IH|d IH|d IH|d IH];
    intros acc cnt;
    [ exists cnt; destruct rest as [|c r]; [reflexivity|]; simpl;
      now rewrite Hrest | .. ];
    cbn [NilEmpty.string_of_uint Pos.of_uint_acc]; rewrite js_String;
    cbn [app scan_digits];
    match goal with
    | |- context [isDigit ?c] => change (isDigit c) with true
    end; cbv iota;
    match goal with
    | |- context [scan_digits _ ?a (S cnt)] =>
        match goal with
        | |- context [Pos.of_uint_acc d ?p] =>
            replace a with (Npos p) by (vm_compute N_of_ascii; lia)
        end
    end; apply IH.
Qed.

Lemma scan_digits_uint (d : Decimal.uint) (rest : jsstring) :
  match rest with [] => True | c :: _ => isDigit c = false end ->
  forall cnt : nat,
  exists cnt',
    scan_digits (js (NilEmpty.string_of_uint d) ++ rest) 0 cnt
    = (N.of_uint d, cnt', rest).
Proof.
  intros Hrest.
  induction d as [|d IH|d IH|d IH|d IH|d IH|d IH|d IH|d IH|d IH|d IH];
    intros cnt;
    [ exists cnt; destruct rest as [|c r]; [reflexivity|]; simpl;
      now rewrite Hrest
    | apply IH
    | apply (scan_digits_pos d rest Hrest) .. ].
Qed.

(** Scanning the digits of [a] gives [a] back. *)
Lemma scan_digits_digits (a : N) (rest : jsstring) :
  match rest with [] => True | c :: _ => isDigit c = false end ->
  exists cnt, scan_digits (digits a ++ rest) 0 0 = (a, cnt, rest).
Proof.
  intros Hrest. unfold digits, NilZero.string_of_uint.
  pose proof (DecimalN.Unsigned.of_to a) as Ha.
  destruct (N.to_uint a) eqn:Hd; rewrite <- Ha;
    try (apply scan_digits_uint; assumption).
  exists 1%nat. destruct rest as [|c r]; [reflexivity|].
  simpl. simpl in Hrest. now rewrite Hrest.
Qed.

Lemma isDigit_cases (c : N) :
  isDigit c = true ->
  (c = 48 \/ c = 49 \/ c = 50 \/ c = 51 \/ c = 52 \/ c = 53 \/ c = 54
   \/ c = 55 \/ c = 56 \/ c = 57)%N.
Proof.
  unfold isDigit. intros H. apply andb_prop in H. destruct H as [Hl Hu].
  apply N.leb_le in Hl. apply N.leb_le in Hu. lia.
Qed.

Lemma hundredths_digits (n : N) :
  (10 * (10 * (n / 100) + (48 + (n mod 100) / 10 - 48))
   + (48 + (n mod 100) mod 10 - 48))%N = n.
Proof.
  pose proof (N.Div0.div_mod n 100) as Hn.
  pose proof (N.Div0.div_mod (n mod 100) 10) as Hr.
  revert Hn Hr.
  generalize ((n mod 100) / 10)%N ((n mod 100) mod 10)%N.
  generalize (n / 100)%N (n mod 100)%N. lia.
Qed.

(** The unsigned part of the string of [n] hundredths starts with a
    digit, and the StrDecimalLiteral [parseFloat] finds in it is all of
    it. *)
Lemma parseFloat_unsigned (neg : bool) (n : N) :
  let s := digits (n / 100) ++ js "."
             ++ [48 + (n mod 100) / 10; 48 + (n mod 100) mod 10]%N in
  trimStart s = s
  /\ match starts_with (js "Infinity") s with
     | Some _ => S754_infinity neg
     | None =>
         let '(ip, ni, r1) := scan_digits s 0 0 in
         let '(v, nf, r2) :=
           match r1 with
           | 46%N :: r => scan_digits r ip 0
           | _ => (ip, O, r1)
           end in
         match (ni + nf)%nat with
         | O => S754_nan
         | _ => of_decimal neg v (scan_exponent r2 - Z.of_nat nf)
         end
     end = of_decimal neg n (-2)
  /\ exists c r, s = c :: r /\ isDigit c = true.
Proof.
  intros s. subst s.
  assert (forall q : N, (q < 10)%N -> isDigit (48 + q) = true) as Hdig.
  { intros q Hq. unfold isDigit. apply andb_true_intro.
    split; apply N.leb_le; lia. }
  assert ((n mod 100) / 10 < 10)%N as H1.
  { apply N.Div0.div_lt_upper_bound.
    change (10 * 10)%N with 100%N. apply N.mod_lt. discriminate. }
  assert ((n mod 100) mod 10 < 10)%N as H2 by (apply N.mod_lt; discriminate).
  destruct (scan_digits_digits (n / 100)
              (js "." ++ [48 + (n mod 100) / 10; 48 + (n mod 100) mod 10]%N))
    as [cnt Hscan]; [reflexivity|].
  rewrite Hscan.
  pose proof (digits_isDigit (n / 100)) as Hall.
  pose proof (@digits_nonempty (n / 100)) as Hne.
  destruct (digits (n / 100)) as [|c ds]; [congruence|].
  simpl in Hall. apply andb_prop in Hall. destruct Hall as [Hc _].
  split; [|split].
  - destruct (isDigit_cases _ Hc)
      as [->|[->|[->|[->|[->|[->|[->|[->|[->| ->]]]]]]]]]; reflexivity.
  - assert (starts_with (js "Infinity")
              ((c :: ds) ++ js "."
                 ++ [48 + (n mod 100) / 10; 48 + (n mod 100) mod 10]%N)
            = None) as ->.
    { destruct (isDigit_cases _ Hc)
        as [->|[->|[->|[->|[->|[->|[->|[->|[->| ->]]]]]]]]]; reflexivity. }
    change (js "." ++ ?r) with (46%N :: r).
    cbn [scan_digits]. rewrite (Hdig _ H1), (Hdig _ H2).
    rewrite hundredths_digits.
    rewrite Nat.add_comm. reflexivity.
  - exists c, (ds ++ js "."
                  ++ [48 + (n mod 100) / 10; 48 + (n mod 100) mod 10]%N).
    split; [reflexivity|assumption].
Qed.

(** [parseFloat] reads the string of [n] hundredths as the Number nearest
    to [n / 100], with the sign written. *)
Lemma parseFloat_fixed_string (neg : bool) (n : N) :
  parseFloat (fixed_string neg n) = of_decimal neg n (-2).
Proof.
  destruct (parseFloat_unsigned neg n) as (Htrim & Hparse & c & r & Hs & Hc).
  cbv zeta in Htrim, Hparse. unfold parseFloat, fixed_string.
  change (js "." ++ ?x) with (46%N :: x) in *.
  destruct neg.
  - change (js "-" ++ ?x) with (45%N :: x).
    cbn [trimStart]. change (isWhiteSpace 45) with false. cbv iota.
    exact Hparse.
  - cbn [app]. rewrite Htrim.
    rewrite Hs in Hparse |- *.
    destruct (isDigit_cases _ Hc)
      as [->|[->|[->|[->|[->|[->|[->|[->|[->| ->]]]]]]]]]; exact Hparse.
Qed.

(** X1.  The rounding idiom [parseFloat(x.toFixed(2))] of the builder, on
    a number that is finite and below 10^21 in magnitude: [toFixed] writes
    a sign and a whole number [n] of hundredths, [n] being the exact value
    of the number rounded half up, and [parseFloat] reads that string back
    as the Number nearest to [n / 100] (a zero of that sign when [n] is 0).
    So every rounded amount of the builder, the line extension among them,
    is the nearest Number to a whole number of hundredths. *)
Theorem round2_nearest_hundredths (x : number) :
  fixedRange x = true ->
  exists neg n,
    toFixed2 x = fixed_string neg n
    /\ round2 x = of_decimal neg n (-2)
    /\ (forall s m e, x = S754_finite s m e ->
          neg = s
          /\ Z.of_N n = roundHalfUp2 (exact (S754_finite false m e)))
    /\ (forall line,
          x = mul (quantity line) (round2 (unitPrice line)) ->
          calculateLineExtension line = of_decimal neg n (-2)).
Proof.
  unfold round2 at 1, toFixed2, fixedRange, toFixed2_repr.
  destruct x as [s|s| |s m e]; try discriminate.
  - intros _. exists false, 0%N. split; [reflexivity|].
    split; [apply parseFloat_fixed_string|].
    split; [discriminate|].
    intros line Hx. unfold calculateLineExtension.
    change (parseFloat (toFixed2 (unitPrice line)))
      with (round2 (unitPrice line)).
    rewrite <- Hx. reflexivity.
  - destruct (ge_1e21 m e) eqn:Hge; [discriminate|]. intros _.
    exists s, (hundredths m e). split; [reflexivity|].
    split; [apply parseFloat_fixed_string|].
    split.
    + intros s' m' e' [= <- <- <-]. split; [reflexivity|].
      apply hundredths_half_up.
    + intros line Hx. unfold calculateLineExtension.
      change (parseFloat (toFixed2 (unitPrice line)))
        with (round2 (unitPrice line)).
      rewrite <- Hx. unfold toFixed2, toFixed2_repr. rewrite Hge.
      apply parseFloat_fixed_string.
Qed.

(* ================================================================== *)
(** ** Lines the validator lets through *)
(* ================================================================== *)

(** X2.  A quantity that is [NaN] passes the validator: [NaN <= 0] is
    false.  On a line that is valid in its name, its unit price and its
    tax percent, and has the quantity [NaN], [validateLine] throws
    nothing, and the line extension and the tax amount of the line are
    [NaN], written "NaN". *)
Theorem validateLine_accepts_NaN_quantity (line : InvoiceLine) (index : nat) :
  blank (name line) = false ->
  quantity line = S754_nan ->
  ltb (unitPrice line) pzero = false ->
  (forall p, taxPercent line = Some p ->
             ltb p pzero || gtb p (lit "100") = false) ->
  validateLine line index = Ok tt
  /\ calculateLineExtension line = S754_nan
  /\ lineTax line = S754_nan
  /\ toFixed2 (calculateLineExtension line) = js "NaN"
  /\ toFixed2 (lineTax line) = js "NaN".
Proof.
  intros Hname Hq Hprice Htax.
  assert (calculateLineExtension line = S754_nan) as Hext.
  { unfold calculateLineExtension. rewrite Hq. reflexivity. }
  assert (lineTax line = S754_nan) as Hlt.
  { unfold lineTax. rewrite Hext. reflexivity. }
  split.
  - unfold validateLine. rewrite Hname, Hq, Hprice. cbn [throw_if bind].
    change (leb S754_nan pzero) with false. cbn [throw_if bind].
    destruct (taxPercent line) as [p|]; [|reflexivity].
    now rewrite (Htax p eq_refl).
  - rewrite Hext, Hlt. repeat split; reflexivity.
Qed.

(** X3.  A line without a tax percent, or with one that is falsy (0, -0
    or [NaN]), is taken at 0 percent: whatever its line extension, as long
    as that is finite and below 10^21, its tax amount is [+0], written
    "0.00", and under a supplier that pays VAT its category is "Z". *)
Theorem zero_rated_line_tax (line : InvoiceLine) :
  some_truthy JsNumber.truthy (taxPercent line) = false ->
  fixedRange (calculateLineExtension line) = true ->
  taxPercent_or_0 line = pzero
  /\ lineTax line = pzero
  /\ toFixed2 (lineTax line) = js "0.00"
  /\ lineKey true line = (js "Z", pzero).
Proof.
  intros Hp Hfix.
  assert (taxPercent_or_0 line = pzero) as Hzero.
  { unfold taxPercent_or_0. destruct (taxPercent line) as [p|]; [|reflexivity].
    simpl in Hp. now rewrite Hp. }
  assert (lineTax line = pzero) as Htax.
  { unfold lineTax. rewrite Hzero.
    change (div pzero (lit "100")) with pzero.
    destruct (calculateLineExtension line) as [s|s| |s m e];
      try discriminate; destruct s; reflexivity. }
  split; [exact Hzero|]. split; [exact Htax|].
  split; [rewrite Htax; reflexivity|].
  unfold lineKey. rewrite Hzero. reflexivity.
Qed.

(* ================================================================== *)
(** ** The blocks of the document *)
(* ================================================================== *)

Lemma firstSeen_length (keys : list TaxKey) :
  (List.length (firstSeen keys) <= List.length keys)%nat.
Proof.
  induction keys as [|k keys IH]; [apply le_n|].
  cbn [firstSeen List.length]. apply le_n_S.
  eapply Nat.le_trans; [apply remove_length_le|exact IH].
Qed.

(** A sequence of lines that is not empty has at least one group and at
    most as many groups as lines. *)
Lemma groupLinesByTax_length (lines' : list InvoiceLine)
  (isSupplierVatPayer : bool) :
  lines' <> [] ->
  (1 <= List.length (groupLinesByTax lines' isSupplierVatPayer)
   <= List.length lines')%nat.
Proof.
  intros Hne. rewrite groupLinesByTax_groups. unfold groupsBySpec.
  rewrite length_map. split.
  - destruct lines' as [|line rest]; [congruence|].
    simpl. apply le_n_S, Nat.le_0_l.
  - rewrite <- (length_map (lineKey isSupplierVatPayer) lines').
    apply firstSeen_length.
Qed.

Lemma filter_all (A : Type) (p : A -> bool) (l : list A) :
  Forall (fun x => p x = true) l -> filter p l = l.
Proof.
  induction 1 as [|x l Hx _ IH]; [reflexivity|].
  simpl. now rewrite Hx, IH.
Qed.

Lemma filter_none (A : Type) (p : A -> bool) (l : list A) :
  Forall (fun x => p x = false) l -> filter p l = [].
Proof.
  induction 1 as [|x l Hx _ IH]; [reflexivity|].
  simpl. now rewrite Hx.
Qed.

Lemma has_tag_other (t t' : string) (x : xml) :
  has_tag t x = true -> t' <> t -> has_tag t' x = false.
Proof.
  destruct x as [tag atts kids|txt]; [|discriminate].
  simpl. intros Ht Hne. apply String.eqb_eq in Ht. subst tag.
  now apply String.eqb_neq.
Qed.

Lemma invoiceLines_other_tag (t : string) (xs : list xml) :
  t <> "cac:InvoiceLine" ->
  Forall (fun x => has_tag "cac:InvoiceLine" x = true) xs ->
  filter (has_tag t) xs = [].
Proof.
  intros Hne Hxs. apply filter_none.
  eapply Forall_impl; [|exact Hxs].
  intros x Hx. now apply has_tag_other with (t := "cac:InvoiceLine").
Qed.

(** The subtotals of a tax total with groups are those of its groups. *)
Lemma taxTotalXml_subtotals (currency' : jsstring) (total : number)
  (groups : list TaxGroup) :
  groups <> [] ->
  children "cac:TaxSubtotal" (taxTotalXml currency' total groups)
  = map (taxSubtotalXml currency') groups.
Proof.
  intros Hne. unfold children, taxTotalXml. cbn [kids_of].
  destruct groups as [|g rest]; [congruence|].
  cbn [filter has_tag leaf String.eqb Ascii.eqb Bool.eqb].
  apply filter_all. apply Forall_forall. intros x Hx.
  apply in_map_iff in Hx. destruct Hx as [g' [<- _]]. reflexivity.
Qed.

Section BuilderDocument.

Variable normalizeVatNumber : jsstring -> jsstring.
Variable sanitizeCounty : option jsstring -> option jsstring.
Variable sanitizeBucharestSector : option jsstring -> option jsstring.
Variable isBucharest : option jsstring -> bool.
Variable formatDateForAnaf : DateArg -> jsstring.
Variable UBL_CUSTOMIZATION_ID : jsstring.
Variable DEFAULT_CURRENCY : jsstring.
Variable DEFAULT_COUNTRY_CODE : jsstring.
Variable DEFAULT_UNIT_CODE : jsstring.
Variable message_of : error -> jsstring.

Local Abbreviation build :=
  (buildInvoiceXml normalizeVatNumber sanitizeCounty sanitizeBucharestSector
     isBucharest formatDateForAnaf UBL_CUSTOMIZATION_ID DEFAULT_CURRENCY
     DEFAULT_COUNTRY_CODE DEFAULT_UNIT_CODE).

Local Abbreviation buildParty :=
  (buildPartyXml normalizeVatNumber sanitizeCounty sanitizeBucharestSector
     isBucharest DEFAULT_COUNTRY_CODE).

Local Abbreviation linesXml := (invoiceLinesXml DEFAULT_UNIT_CODE).

Local Abbreviation generate :=
  (generateInvoiceXml normalizeVatNumber sanitizeCounty
     sanitizeBucharestSector isBucharest formatDateForAnaf
     UBL_CUSTOMIZATION_ID DEFAULT_CURRENCY DEFAULT_COUNTRY_CODE
     DEFAULT_UNIT_CODE message_of).

(** The children of the [Invoice] element of a valid input, block by
    block. *)
Lemma build_document (input : InvoiceInput) :
  validateInvoiceInput (Some input) = Ok tt ->
  exists number' date supplier' customer' lines' supplierKids customerKids
         lineXmls,
    invoiceNumber input = Some number'
    /\ issueDate input = Some date
    /\ supplier input = Some supplier'
    /\ customer input = Some customer'
    /\ lines input = Some lines'
    /\ validateLines lines' 0 = Ok tt
    /\ linesXml (or_default (currency input) DEFAULT_CURRENCY)
         (some_truthy (fun b : bool => b) (isVatPayer supplier')) lines' 0
       = Ok lineXmls
    /\ let currency' := or_default (currency input) DEFAULT_CURRENCY in
       let taxGroups :=
         taxGroupsOf lines'
           (some_truthy (fun b : bool => b) (isVatPayer supplier')) in
       build (Some input)
       = Ok (Ele "Invoice" invoiceNamespaces
               ([ leaf "cbc:CustomizationID" [] UBL_CUSTOMIZATION_ID;
                  leaf "cbc:ID" [] number';
                  leaf "cbc:IssueDate" [] (formatDateForAnaf date);
                  leaf "cbc:DueDate" []
                    (match dueDate input with
                     | Some d => if DateArg_truthy d then formatDateForAnaf d
                                 else formatDateForAnaf date
                     | None => formatDateForAnaf date
                     end);
                  leaf "cbc:InvoiceTypeCode" []
                    (InvoiceTypeCode_value
                       (match invoiceTypeCode input with
                        | Some c => c
                        | None => COMMERCIAL_INVOICE
                        end));
                  leaf "cbc:DocumentCurrencyCode" [] currency' ]
                ++ [ Ele "cac:AccountingSupplierParty" [] supplierKids;
                     Ele "cac:AccountingCustomerParty" [] customerKids ]
                ++ paymentMeansXml input
                ++ [ taxTotalXml currency' (totalTax taxGroups) taxGroups;
                     legalMonetaryTotalXml currency' (totalTaxable taxGroups)
                       (round2 (add (totalTaxable taxGroups)
                                    (totalTax taxGroups))) ]
                ++ lineXmls)).
Proof.
  intros Hv.
  destruct (validateInvoiceInput_Ok _ Hv)
    as (n & d & s & c & ls & Hn & Hd & Hs & Hvs & Hc & Hvc & Hls & Hvl).
  destruct (buildPartyXml_Ok normalizeVatNumber sanitizeCounty
              sanitizeBucharestSector isBucharest DEFAULT_COUNTRY_CODE
              "cac:AccountingSupplierParty" _ _ Hvs)
    as (? & ? & ? & _ & _ & _ & Hsx).
  destruct (buildPartyXml_Ok normalizeVatNumber sanitizeCounty
              sanitizeBucharestSector isBucharest DEFAULT_COUNTRY_CODE
              "cac:AccountingCustomerParty" _ _ Hvc)
    as (? & ? & ? & _ & _ & _ & Hcx).
  destruct (validateLines_Ok_names DEFAULT_UNIT_CODE _ _ Hvl
              (or_default (currency input) DEFAULT_CURRENCY)
              (some_truthy (fun b : bool => b) (isVatPayer s)))
    as [xs [Hxs _]].
  exists n, d, s, c, ls. eexists. eexists. exists xs.
  repeat (split; [assumption|]).
  cbv zeta. unfold buildInvoiceXml. rewrite Hv.
  cbn [bind defined]. rewrite Hs. cbn [bind defined].
  rewrite Hd. cbn [bind defined]. rewrite Hls. cbn [bind defined].
  unfold headerXml. rewrite Hn. cbn [bind defined].
  rewrite Hsx. cbn [bind]. rewrite Hc. cbn [bind defined].
  rewrite Hcx. cbn [bind]. rewrite Hxs. cbn [bind].
  reflexivity.
Qed.

(** What each [cac:InvoiceLine] element carries, line by line. *)
Lemma invoiceLinesXml_texts (currency' : jsstring) (isSupplierVatPayer : bool)
  (lines' : list InvoiceLine) (index : nat) (xs : list xml) :
  linesXml currency' isSupplierVatPayer lines' index = Ok xs ->
  Forall (fun x => has_tag "cac:InvoiceLine" x = true) xs
  /\ map (text_at ["cbc:ID"]) xs
     = map (fun il => Some (lineIdText (snd il) (fst il)))
           (combine (seq index (List.length lines')) lines')
  /\ map (text_at ["cbc:InvoicedQuantity"]) xs
     = map (fun line => Some (Number_toString (quantity line))) lines'
  /\ map (text_at ["cbc:LineExtensionAmount"]) xs
     = map (fun line => Some (toFixed2 (calculateLineExtension line))) lines'
  /\ map (text_at ["cac:Item"; "cbc:Name"]) xs = map name lines'
  /\ map (text_at ["cac:Price"; "cbc:PriceAmount"]) xs
     = map (fun line => Some (toFixed2 (round2 (unitPrice line)))) lines'.
Proof.
  revert index xs. induction lines' as [|line rest IH]; intros index xs.
  - intros [= <-]. repeat split; constructor.
  - cbn [invoiceLinesXml]. unfold invoiceLineXml at 1.
    destruct (name line) as [name'|] eqn:Hname; [|discriminate].
    cbn [defined bind].
    destruct (linesXml currency' isSupplierVatPayer rest (S index))
      as [xs'|e] eqn:Hrest; [|discriminate].
    cbn [bind]. intros [= <-].
    destruct (IH _ _ Hrest) as (Htag & Hid & Hq & Hext & Hn & Hp).
    cbn [map List.length seq combine fst snd].
    rewrite Hid, Hq, Hext, Hn, Hp, Hname.
    split; [constructor; [reflexivity|assumption]|].
    repeat split; reflexivity.
Qed.

Lemma paymentMeansXml_no_line (input : InvoiceInput) :
  Forall (fun x => has_tag "cac:InvoiceLine" x = false) (paymentMeansXml input).
Proof.
  unfold paymentMeansXml.
  destruct (paymentIban input) as [iban|]; [|constructor].
  destruct (JsString.truthy iban); repeat constructor.
Qed.

(** X4.  The header of the document of a valid input: the customization
    id, the invoice number as given, the issue date through
    [formatDateForAnaf]; the due date is the issue date when no due date
    is given (or an empty one), and the due date through
    [formatDateForAnaf] otherwise; the type code is "380" when none is
    given; the currency is the default one when none is given (or an empty
    one). *)
Theorem header_of_valid_input (input : InvoiceInput) :
  validateInvoiceInput (Some input) = Ok tt ->
  exists number' date doc,
    invoiceNumber input = Some number'
    /\ issueDate input = Some date
    /\ build (Some input) = Ok doc
    /\ text_at ["cbc:CustomizationID"] doc = Some UBL_CUSTOMIZATION_ID
    /\ text_at ["cbc:ID"] doc = Some number'
    /\ text_at ["cbc:IssueDate"] doc = Some (formatDateForAnaf date)
    /\ (some_truthy DateArg_truthy (dueDate input) = false ->
        text_at ["cbc:DueDate"] doc = Some (formatDateForAnaf date))
    /\ (forall due, dueDate input = Some due -> DateArg_truthy due = true ->
        text_at ["cbc:DueDate"] doc = Some (formatDateForAnaf due))
    /\ (invoiceTypeCode input = None ->
        text_at ["cbc:InvoiceTypeCode"] doc = Some (js "380"))
    /\ (forall code, invoiceTypeCode input = Some code ->
        text_at ["cbc:InvoiceTypeCode"] doc = Some (InvoiceTypeCode_value code))
    /\ (currency input = None \/ currency input = Some [] ->
        text_at ["cbc:DocumentCurrencyCode"] doc = Some DEFAULT_CURRENCY)
    /\ (forall currency', currency input = Some currency' ->
        currency' <> [] ->
        text_at ["cbc:DocumentCurrencyCode"] doc = Some currency').
Proof.
  intros Hv.
  destruct (build_document _ Hv)
    as (n & d & s & c & ls & sk & ck & xs & Hn & Hd & _ & _ & _ & _ & _ & Hdoc).
  cbv zeta in Hdoc. exists n, d. eexists.
  split; [assumption|]. split; [assumption|]. split; [exact Hdoc|].
  split; [reflexivity|]. split; [reflexivity|]. split; [reflexivity|].
  split; [|split; [|split; [|split; [|split]]]].
  - intros Hdue. cbn. destruct (dueDate input) as [due|]; [|reflexivity].
    simpl in Hdue. now rewrite Hdue.
  - intros due -> Hdue. cbn. now rewrite Hdue.
  - intros ->. reflexivity.
  - intros code ->. reflexivity.
  - intros [-> | ->]; reflexivity.
  - intros cur -> Hcur. destruct cur as [|c0 r0]; [congruence|reflexivity].
Qed.


(** X6.  The document of a valid input holds no [cac:PaymentMeans] when
    no IBAN is given (or an empty one), and exactly one when one is given:
    its code is "30" and its account id is the IBAN as given. *)
Theorem payment_means_of_valid_input (input : InvoiceInput) :
  validateInvoiceInput (Some input) = Ok tt ->
  exists doc,
    build (Some input) = Ok doc
    /\ (paymentIban input = None \/ paymentIban input = Some [] ->
        children "cac:PaymentMeans" doc = [])
    /\ (forall iban, paymentIban input = Some iban -> iban <> [] ->
        exists means,
          children "cac:PaymentMeans" doc = [means]
          /\ text_at ["cbc:PaymentMeansCode"] means = Some (js "30")
          /\ text_at ["cac:PayeeFinancialAccount"; "cbc:ID"] means = Some iban).
Proof.
  intros Hv.
  destruct (build_document _ Hv)
    as (n & d & s & c & ls & sk & ck & xs & _ & _ & _ & _ & _ & _ & Hxs & Hdoc).
  cbv zeta in Hdoc.
  destruct (invoiceLinesXml_texts _ _ _ _ Hxs) as (Htag & _).
  eexists. split; [exact Hdoc|].
  unfold children. cbn [kids_of].
  rewrite !filter_app, (@invoiceLines_other_tag "cac:PaymentMeans" xs) by
    (discriminate || exact Htag).
  cbn [filter has_tag leaf taxTotalXml legalMonetaryTotalXml app
         String.eqb Ascii.eqb Bool.eqb].
  rewrite app_nil_r. unfold paymentMeansXml.
  split.
  - intros [-> | ->]; reflexivity.
  - intros iban -> Hne. destruct iban as [|c0 r0]; [congruence|].
    eexists. repeat split; reflexivity.
Qed.

(** X7.  The tax total of the document of a valid input with at least one
    line holds one [cac:TaxSubtotal] per tax group, in the order of the
    groups, and never the default subtotal: at least one and at most as
    many as there are lines.  Each subtotal carries the taxable amount, the
    tax amount and the percent of its group with 2 decimals, and the
    category of the group. *)
Theorem tax_subtotals_of_valid_input (input : InvoiceInput) :
  validateInvoiceInput (Some input) = Ok tt ->
  exists supplier' lines' doc taxTotal,
    supplier input = Some supplier'
    /\ lines input = Some lines'
    /\ build (Some input) = Ok doc
    /\ child "cac:TaxTotal" doc = Some taxTotal
    /\ (lines' <> [] ->
        let groups :=
          groupLinesByTax lines'
            (some_truthy (fun b : bool => b) (isVatPayer supplier')) in
        let subtotals := children "cac:TaxSubtotal" taxTotal in
        (1 <= List.length subtotals <= List.length lines')%nat
        /\ List.length subtotals = List.length groups
        /\ map (text_at ["cbc:TaxableAmount"]) subtotals
           = map (fun g => Some (toFixed2 (taxableAmount g))) groups
        /\ map (text_at ["cbc:TaxAmount"]) subtotals
           = map (fun g => Some (toFixed2 (taxAmount g))) groups
        /\ map (text_at ["cac:TaxCategory"; "cbc:ID"]) subtotals
           = map (fun g => Some (categoryId g)) groups
        /\ map (text_at ["cac:TaxCategory"; "cbc:Percent"]) subtotals
           = map (fun g => Some (toFixed2 (percent g))) groups).
Proof.
  intros Hv.
  destruct (build_totals normalizeVatNumber sanitizeCounty
              sanitizeBucharestSector isBucharest formatDateForAnaf
              UBL_CUSTOMIZATION_ID DEFAULT_CURRENCY DEFAULT_COUNTRY_CODE
              DEFAULT_UNIT_CODE _ Hv)
    as (s & ls & doc & Hs & Hls & Hdoc & Htax & _).
  cbv zeta in Htax. exists s, ls, doc. eexists.
  split; [assumption|]. split; [assumption|]. split; [assumption|].
  split; [exact Htax|].
  intros Hne. cbv zeta.
  assert (taxGroupsOf ls (some_truthy (fun b : bool => b) (isVatPayer s))
          = groupLinesByTax ls (some_truthy (fun b : bool => b) (isVatPayer s)))
    as ->.
  { destruct ls; [congruence|reflexivity]. }
  pose proof (groupLinesByTax_length
                (some_truthy (fun b : bool => b) (isVatPayer s)) Hne) as Hlen.
  rewrite taxTotalXml_subtotals
    by (intros Hnil; rewrite Hnil in Hlen; simpl in Hlen; lia).
  rewrite !map_map, length_map.
  split; [exact Hlen|]. split; [reflexivity|].
  repeat split; apply map_ext; reflexivity.
Qed.

(** X8.  In the document of a valid input with at least one line, every
    tax subtotal of a supplier that is not flagged as a VAT payer has the
    category "O" and the exemption reason code "VATEX-EU-O"; every tax
    subtotal of a supplier that is has the category "S" or "Z" and no
    exemption reason code. *)
Theorem exemption_reason_of_valid_input (input : InvoiceInput) :
  validateInvoiceInput (Some input) = Ok tt ->
  exists supplier' lines' doc taxTotal,
    supplier input = Some supplier'
    /\ lines input = Some lines'
    /\ build (Some input) = Ok doc
    /\ child "cac:TaxTotal" doc = Some taxTotal
    /\ (lines' <> [] ->
        forall subtotal,
          In subtotal (children "cac:TaxSubtotal" taxTotal) ->
          (isVatPayer supplier' <> Some true ->
           text_at ["cac:TaxCategory"; "cbc:ID"] subtotal = Some (js "O")
           /\ text_at ["cac:TaxCategory"; "cbc:TaxExemptionReasonCode"] subtotal
              = Some (js "VATEX-EU-O"))
          /\ (isVatPayer supplier' = Some true ->
              (text_at ["cac:TaxCategory"; "cbc:ID"] subtotal = Some (js "S")
               \/ text_at ["cac:TaxCategory"; "cbc:ID"] subtotal = Some (js "Z"))
              /\ text_at ["cac:TaxCategory"; "cbc:TaxExemptionReasonCode"] subtotal
                 = None)).
Proof.
  intros Hv.
  destruct (build_totals normalizeVatNumber sanitizeCounty
              sanitizeBucharestSector isBucharest formatDateForAnaf
              UBL_CUSTOMIZATION_ID DEFAULT_CURRENCY DEFAULT_COUNTRY_CODE
              DEFAULT_UNIT_CODE _ Hv)
    as (s & ls & doc & Hs & Hls & Hdoc & Htax & _).
  cbv zeta in Htax. exists s, ls, doc. eexists.
  split; [assumption|]. split; [assumption|]. split; [assumption|].
  split; [exact Htax|].
  intros Hne subtotal Hin.
  assert (taxGroupsOf ls (some_truthy (fun b : bool => b) (isVatPayer s))
          = groupLinesByTax ls (some_truthy (fun b : bool => b) (isVatPayer s)))
    as Hgroups.
  { destruct ls; [congruence|reflexivity]. }
  rewrite Hgroups in Hin.
  pose proof (groupLinesByTax_length
                (some_truthy (fun b : bool => b) (isVatPayer s)) Hne) as Hlen.
  rewrite taxTotalXml_subtotals in Hin
    by (intros Hnil; rewrite Hnil in Hlen; simpl in Hlen; lia).
  apply in_map_iff in Hin. destruct Hin as [g [<- Hg]].
  pose proof (group_category _ _ _ Hg) as Hcat.
  unfold taxCategory in Hcat.
  split.
  - intros Hvat.
    assert (some_truthy (fun b : bool => b) (isVatPayer s) = false) as Hpayer.
    { destruct (isVatPayer s) as [[|]|]; [congruence|reflexivity|reflexivity]. }
    rewrite Hpayer in Hcat. cbn [negb] in Hcat. injection Hcat as Hid Hcode.
    cbn. rewrite Hid, Hcode. split; reflexivity.
  - intros Hvat. rewrite Hvat in Hcat. cbn [some_truthy negb] in Hcat.
    destruct (gtb (percent g) pzero); injection Hcat as Hid Hcode;
      cbn; rewrite Hid, Hcode; split; auto.
Qed.

(** X9.  [generateInvoiceXml] returns the document of [buildInvoiceXml]
    when the validator accepts the input, and throws in no other case;
    what it throws is an [AnafValidationError] whose message is "Failed to
    generate invoice XML: " followed by the message of the first violated
    check.  An input that is missing altogether is reported the same
    way. *)
Theorem generateInvoiceXml_outcome (input : InvoiceInput) :
  (forall message, message_of (AnafValidationError message) = message) ->
  (validateInvoiceInput (Some input) = Ok tt ->
   exists doc, build (Some input) = Ok doc /\ generate (Some input) = Ok doc)
  /\ (forall e, generate (Some input) = Throw e ->
        exists message,
          validateInvoiceInput (Some input)
          = Throw (AnafValidationError message)
          /\ firstViolation (inputChecks input) = Some message
          /\ e = AnafValidationError
                   (js "Failed to generate invoice XML: " ++ message))
  /\ (forall message,
        firstViolation (inputChecks input) = Some message ->
        generate (Some input)
        = Throw (AnafValidationError
                   (js "Failed to generate invoice XML: " ++ message)))
  /\ generate None
     = Throw (AnafValidationError
                (js "Failed to generate invoice XML: "
                   ++ js "Invoice input data is required")).
Proof.
  intros Hmessage. unfold generateInvoiceXml.
  split; [|split; [|split]].
  - intros Hv.
    destruct (build_document _ Hv)
      as (n & d & s & c & ls & sk & ck & xs & _ & _ & _ & _ & _ & _ & _ & Hdoc).
    cbv zeta in Hdoc. eexists. split; [exact Hdoc|]. now rewrite Hdoc.
  - intros e.
    destruct (build (Some input)) as [doc|e'] eqn:Hb; [discriminate|].
    intros [= <-].
    pose proof (build_Throw normalizeVatNumber sanitizeCounty
                  sanitizeBucharestSector isBucharest formatDateForAnaf
                  UBL_CUSTOMIZATION_ID DEFAULT_CURRENCY DEFAULT_COUNTRY_CODE
                  DEFAULT_UNIT_CODE _ Hb) as Hv.
    destruct (build_of_invalid normalizeVatNumber sanitizeCounty
                sanitizeBucharestSector isBucharest formatDateForAnaf
                UBL_CUSTOMIZATION_ID DEFAULT_CURRENCY DEFAULT_COUNTRY_CODE
                DEFAULT_UNIT_CODE _ Hv) as [_ [m ->]].
    exists m. split; [exact Hv|]. split; [|now rewrite Hmessage].
    rewrite validateInvoiceInput_checks in Hv. unfold stopAtFirst in Hv.
    destruct (firstViolation (inputChecks input)) as [m'|]; [|discriminate].
    now injection Hv as ->.
  - intros m Hm.
    assert (validateInvoiceInput (Some input) = Throw (AnafValidationError m))
      as Hv.
    { rewrite validateInvoiceInput_checks. unfold stopAtFirst. now rewrite Hm. }
    destruct (build_of_invalid normalizeVatNumber sanitizeCounty
                sanitizeBucharestSector isBucharest formatDateForAnaf
                UBL_CUSTOMIZATION_ID DEFAULT_CURRENCY DEFAULT_COUNTRY_CODE
                DEFAULT_UNIT_CODE _ Hv) as [Hb _].
    now rewrite Hb, Hmessage.
  - unfold buildInvoiceXml. cbn [validateInvoiceInput bind].
    now rewrite Hmessage.
Qed.

(** X10.  The postal address and the legal entity of a valid party carry
    the street, the postal zone and the registration name as given, and
    the country code of the address, or the default one when the address
    has none (or an empty one). *)
Theorem party_fields_as_given (tagName : string) (party : Party)
  (role : jsstring) :
  validateParty party role = Ok tt ->
  exists registrationName' address' street' postalZone' x,
    registrationName party = Some registrationName'
    /\ address party = Some address'
    /\ street address' = Some street'
    /\ postalZone address' = Some postalZone'
    /\ buildParty tagName party = Ok x
    /\ tag_of x = Some tagName
    /\ text_at ["cac:Party"; "cac:PostalAddress"; "cbc:StreetName"] x
       = Some street'
    /\ text_at ["cac:Party"; "cac:PostalAddress"; "cbc:PostalZone"] x
       = Some postalZone'
    /\ text_at ["cac:Party"; "cac:PostalAddress"; "cac:Country";
                "cbc:IdentificationCode"] x
       = Some (or_default (countryCode address') DEFAULT_COUNTRY_CODE)
    /\ text_at ["cac:Party"; "cac:PartyLegalEntity"; "cbc:RegistrationName"] x
       = Some registrationName'.
Proof.
  intros Hv.
  destruct (validateParty_Ok _ _ Hv) as (r & c & a & Hr & Hc & Ha & Hva).
  pose proof Hva as Hblank.
  destruct (validateAddress_Ok _ _ Hva) as (st & ci & pz & Hst & Hci & Hpz & _).
  destruct (buildPartyXml_Ok normalizeVatNumber sanitizeCounty
              sanitizeBucharestSector isBucharest DEFAULT_COUNTRY_CODE
              tagName _ _ Hv) as (r' & c' & a' & Hr' & _ & Ha' & Hx).
  rewrite Ha in Ha'. injection Ha' as <-.
  rewrite Hr in Hr'. injection Hr' as <-.
  unfold validateAddress in Hblank. rewrite Hst, Hpz in Hblank.
  assert (st <> []) as Hstreet.
  { intros ->. discriminate Hblank. }
  assert (pz <> []) as Hzone.
  { intros ->. revert Hblank.
    destruct (blank (Some st)); [discriminate|].
    destruct (blank (city a)); discriminate. }
  exists r, a, st, pz. eexists.
  repeat (split; [assumption|]). split; [exact Hx|].
  split; [reflexivity|].
  destruct st as [|s0 st']; [congruence|].
  destruct pz as [|z0 pz']; [congruence|].
  destruct (isVatPayer party) as [[|]|]; cbn; rewrite ?Hst, ?Hpz;
    repeat split; reflexivity.
Qed.

(** The [cac:InvoiceLine] children and the [cac:TaxTotal] of the document
    of a valid input. *)
Lemma document_lines_and_total (input : InvoiceInput) :
  validateInvoiceInput (Some input) = Ok tt ->
  exists supplier' lines' doc lineXmls,
    supplier input = Some supplier'
    /\ lines input = Some lines'
    /\ build (Some input) = Ok doc
    /\ let currency' := or_default (currency input) DEFAULT_CURRENCY in
       let payer := some_truthy (fun b : bool => b) (isVatPayer supplier') in
       let taxGroups := taxGroupsOf lines' payer in
       linesXml currency' payer lines' 0 = Ok lineXmls
       /\ children "cac:InvoiceLine" doc = lineXmls
       /\ child "cac:TaxTotal" doc
          = Some (taxTotalXml currency' (totalTax taxGroups) taxGroups).
Proof.
  intros Hv.
  destruct (build_document _ Hv)
    as (n & d & s & c & ls & sk & ck & xs & _ & _ & Hs & _ & Hls & _ & Hxs & Hdoc).
  destruct (build_totals normalizeVatNumber sanitizeCounty
              sanitizeBucharestSector isBucharest formatDateForAnaf
              UBL_CUSTOMIZATION_ID DEFAULT_CURRENCY DEFAULT_COUNTRY_CODE
              DEFAULT_UNIT_CODE _ Hv)
    as (s' & ls' & doc & Hs' & Hls' & Hdoc' & Htax & _).
  rewrite Hs in Hs'. injection Hs' as <-.
  rewrite Hls in Hls'. injection Hls' as <-.
  cbv zeta in Hdoc, Htax.
  exists s, ls, doc, xs.
  split; [assumption|]. split; [assumption|]. split; [assumption|].
  cbv zeta. split; [exact Hxs|]. split; [|exact Htax].
  rewrite Hdoc' in Hdoc. injection Hdoc as ->.
  destruct (invoiceLinesXml_texts _ _ _ _ Hxs) as (Htag & _).
  unfold children. cbn [kids_of].
  cbn [filter has_tag leaf String.eqb Ascii.eqb Bool.eqb].
  rewrite filter_app, (filter_none _ (paymentMeansXml_no_line input)).
  cbn [filter has_tag taxTotalXml legalMonetaryTotalXml
         String.eqb Ascii.eqb Bool.eqb app].
  apply filter_all, Htag.
Qed.

(** The category and the percent each [cac:InvoiceLine] element
    carries. *)
Lemma invoiceLinesXml_categories (currency' : jsstring)
  (isSupplierVatPayer : bool) (lines' : list InvoiceLine) (index : nat)
  (xs : list xml) :
  linesXml currency' isSupplierVatPayer lines' index = Ok xs ->
  map (text_at ["cac:Item"; "cac:ClassifiedTaxCategory"; "cbc:ID"]) xs
  = map (fun line =>
           Some (fst (taxCategory isSupplierVatPayer (taxPercent_or_0 line))))
        lines'
  /\ map (text_at ["cac:Item"; "cac:ClassifiedTaxCategory"; "cbc:Percent"]) xs
     = map (fun line => Some (toFixed2 (taxPercent_or_0 line))) lines'.
Proof.
  revert index xs. induction lines' as [|line rest IH]; intros index xs.
  - intros [= <-]. split; reflexivity.
  - cbn [invoiceLinesXml].
    destruct (invoiceLineXml DEFAULT_UNIT_CODE currency' isSupplierVatPayer
                line index) as [x|e] eqn:Hx; [|discriminate].
    cbn [bind].
    destruct (linesXml currency' isSupplierVatPayer rest (S index))
      as [xs'|e] eqn:Hrest; [|discriminate].
    cbn [bind]. intros [= <-].
    destruct (IH _ _ Hrest) as [Hid Hpercent].
    destruct (invoiceLineXml_category _ _ _ _ _ Hx) as [Hxid Hxpercent].
    cbn [map]. now rewrite Hid, Hpercent, Hxid, Hxpercent.
Qed.

(** C3.  In the document of a valid input the category is selected per
    line from the fields of the input.  When the supplier is not flagged
    as a VAT payer it is "O" with the exemption reason code "VATEX-EU-O",
    whatever percent the line states; otherwise it is "S" for a line that
    states a percent above 0, and "Z" for a line that states none or one
    that is not above 0.  That selection is the category of the
    ClassifiedTaxCategory of each emitted line, in the order of the lines;
    it is the category and the exemption reason of the tax group of the
    line, which holds the percent the line states; every group carries the
    selection of one of the lines; and the tax subtotals of the document
    carry the category and the exemption reason of the groups. *)
Theorem C3_category_selection (input : InvoiceInput) :
  validateInvoiceInput (Some input) = Ok tt ->
  exists supplier' lines' doc taxTotal,
    supplier input = Some supplier'
    /\ lines input = Some lines'
    /\ build (Some input) = Ok doc
    /\ child "cac:TaxTotal" doc = Some taxTotal
    /\ let payer := some_truthy (fun b : bool => b) (isVatPayer supplier') in
       let groups := groupLinesByTax lines' payer in
       let subtotals := children "cac:TaxSubtotal" taxTotal in
       (isVatPayer supplier' <> Some true ->
        forall line,
          statedCategory payer line = (js "O", Some (js "VATEX-EU-O")))
       /\ (isVatPayer supplier' = Some true ->
           forall line p,
             taxPercent line = Some p -> gtb p pzero = true ->
             statedCategory payer line = (js "S", None))
       /\ (isVatPayer supplier' = Some true ->
           forall line,
             taxPercent line = None
             \/ (exists p, taxPercent line = Some p /\ gtb p pzero = false) ->
             statedCategory payer line = (js "Z", None))
       /\ map (text_at ["cac:Item"; "cac:ClassifiedTaxCategory"; "cbc:ID"])
              (children "cac:InvoiceLine" doc)
          = map (fun line => Some (fst (statedCategory payer line))) lines'
       /\ (forall line,
             In line lines' ->
             exists g,
               In g groups
               /\ (categoryId g, exemptionReasonCode g)
                  = statedCategory payer line
               /\ (percentInRange line = true ->
                   percent g = statedPercent line))
       /\ (forall g,
             In g groups ->
             exists line,
               In line lines'
               /\ (categoryId g, exemptionReasonCode g)
                  = statedCategory payer line)
       /\ (lines' <> [] ->
           map (text_at ["cac:TaxCategory"; "cbc:ID"]) subtotals
           = map (fun g => Some (categoryId g)) groups
           /\ map (text_at ["cac:TaxCategory"; "cbc:TaxExemptionReasonCode"])
                  subtotals
              = map exemptionReasonCode groups).
Proof.
  intros Hv.
  destruct (document_lines_and_total _ Hv)
    as (s & ls & doc & xs & Hs & Hls & Hdoc & Hxs & Hlines & Htotal).
  cbv zeta in Hxs, Htotal.
  exists s, ls, doc. eexists.
  split; [assumption|]. split; [assumption|]. split; [assumption|].
  split; [exact Htotal|]. cbv zeta.
  set (payer := some_truthy (fun b : bool => b) (isVatPayer s)).
  split; [|split; [|split; [|split; [|split; [|split]]]]].
  - intros Hvat line.
    assert (payer = false) as ->; [|reflexivity].
    subst payer. destruct (isVatPayer s) as [[|]|]; [congruence| |]; reflexivity.
  - intros Hvat line p Hp Hgt. subst payer. rewrite Hvat.
    unfold statedCategory. cbn [some_truthy negb]. now rewrite Hp, Hgt.
  - intros Hvat line Hp. subst payer. rewrite Hvat.
    unfold statedCategory. cbn [some_truthy negb].
    destruct Hp as [-> | (p & -> & ->)]; reflexivity.
  - rewrite Hlines.
    destruct (invoiceLinesXml_categories _ _ _ _ Hxs) as [Hid _].
    rewrite Hid. apply map_ext. intros line. now rewrite taxCategory_stated.
  - intros line Hin.
    destruct (line_has_group payer ls line Hin) as [g [Hg Hkey]].
    exists g. split; [assumption|].
    assert (percent g = taxPercent_or_0 line) as Hpercent.
    { unfold groupKey, lineKey in Hkey. now inversion Hkey. }
    split.
    + rewrite (group_category _ _ _ Hg), Hpercent. apply taxCategory_stated.
    + intros Hrange. rewrite Hpercent. now apply taxPercent_or_0_stated.
  - intros g Hg. pose proof (group_category _ _ _ Hg) as Hcat.
    rewrite groupLinesByTax_groups in Hg. unfold groupsBySpec in Hg.
    apply in_map_iff in Hg. destruct Hg as [k [<- Hk]].
    apply firstSeen_In, in_map_iff in Hk. destruct Hk as [line [<- Hin]].
    exists line. split; [assumption|].
    rewrite Hcat. cbn [groupOf percent lineKey snd]. apply taxCategory_stated.
  - intros Hne.
    assert (taxGroupsOf ls payer = groupLinesByTax ls payer) as ->.
    { destruct ls; [congruence|reflexivity]. }
    pose proof (groupLinesByTax_length payer Hne) as Hlen.
    rewrite taxTotalXml_subtotals
      by (intros Hnil; rewrite Hnil in Hlen; simpl in Hlen; lia).
    rewrite !map_map. split; [apply map_ext; reflexivity|].
    apply map_ext_in. intros g Hg.
    pose proof (group_category _ _ _ Hg) as Hcat.
    apply (f_equal snd) in Hcat. cbn [snd] in Hcat.
    rewrite exemption_of_category in Hcat. rewrite Hcat.
    cbn. rewrite Hcat. now destruct payer.
Qed.

End BuilderDocument.

(** X11.  The element of a line that has a name: the quantity carries
    the unit code of the line, or the default one when the line has none
    (or an empty one); the line extension and the price carry the currency
    of the document; the item holds a description exactly when the line
    has one that is not empty, and it is the description as given. *)
Theorem invoiceLineXml_item (DEFAULT_UNIT_CODE currency' : jsstring)
  (isSupplierVatPayer : bool) (line : InvoiceLine) (index : nat)
  (name' : jsstring) :
  name line = Some name' ->
  exists x quantity' extension item price,
    invoiceLineXml DEFAULT_UNIT_CODE currency' isSupplierVatPayer line index
    = Ok x
    /\ child "cbc:InvoicedQuantity" x = Some quantity'
    /\ attribute "unitCode" quantity'
       = Some (or_default (unitCode line) DEFAULT_UNIT_CODE)
    /\ child "cbc:LineExtensionAmount" x = Some extension
    /\ attribute "currencyID" extension = Some currency'
    /\ text_at ["cac:Price"; "cbc:PriceAmount"] x
       = Some (toFixed2 (round2 (unitPrice line)))
    /\ field (child "cbc:PriceAmount") (child "cac:Price" x) = Some price
    /\ attribute "currencyID" price = Some currency'
    /\ child "cac:Item" x = Some item
    /\ text_at ["cbc:Name"] item = Some name'
    /\ (description line = None \/ description line = Some [] ->
        children "cbc:Description" item = [])
    /\ (forall d, description line = Some d -> d <> [] ->
        children "cbc:Description" item = [leaf "cbc:Description" [] d]).
Proof.
  intros Hname. unfold invoiceLineXml. rewrite Hname. cbn [defined bind].
  eexists. eexists. eexists. eexists. eexists.
  split; [reflexivity|]. split; [reflexivity|]. split; [reflexivity|].
  split; [reflexivity|]. split; [reflexivity|]. split; [reflexivity|].
  split; [reflexivity|]. split; [reflexivity|]. split; [reflexivity|].
  split; [reflexivity|].
  split.
  - intros [-> | ->]; reflexivity.
  - intros d -> Hd. destruct d as [|c0 r0]; [congruence|reflexivity].
Qed.

(* ================================================================== *)
(** ** The CNP validator *)
(* ================================================================== *)

Lemma controlDigit_lt_10 (code : jsstring) : (Validators.controlDigit code < 10)%N.
Proof.
  unfold Validators.controlDigit.
  pose proof (N.mod_lt (Validators.controlSum code) 11) as Hlt.
  revert Hlt. generalize (Validators.controlSum code mod 11)%N. intros r Hlt.
  destruct (N.eqb_spec r 10); lia.
Qed.

Lemma forallb_nth (p : N -> bool) (s : jsstring) (i : nat) :
  forallb p s = true -> (i < List.length s)%nat -> p (nth i s 0%N) = true.
Proof.
  intros Hall Hi. apply (proj1 (forallb_forall p s) Hall). now apply nth_In.
Qed.

Lemma sex_digit (c : N) :
  isDigit c = true ->
  existsb (N.eqb (Validators.parseIntDigit c)) [1; 2; 3; 4; 5; 6; 7; 8; 9]%N
  = negb (N.eqb c 48).
Proof.
  intros Hc.
  destruct (isDigit_cases _ Hc)
    as [->|[->|[->|[->|[->|[->|[->|[->|[->| ->]]]]]]]]]; reflexivity.
Qed.

Lemma isValidCNP_thirteen (code : jsstring) :
  Validators.isValidCNP code = true -> Validators.isThirteenDigits code = true.
Proof.
  unfold Validators.isValidCNP.
  destruct (Validators.isThirteenDigits code); [reflexivity|discriminate].
Qed.

(** The validator on a code that is thirteen digits and not all zeros. *)
Lemma isValidCNP_digits (code : jsstring) :
  Validators.isThirteenDigits code = true ->
  code <> js "0000000000000" ->
  Validators.isValidCNP code
  = N.eqb (nth 12 code 0%N) (48 + Validators.controlDigit code)
    && negb (N.eqb (nth 0 code 0%N) 48).
Proof.
  intros Hdigits Hne. unfold Validators.isValidCNP. rewrite Hdigits.
  cbn [negb]. unfold JsString.eqb.
  destruct (list_eq_dec N.eq_dec code (js "0000000000000")) as [Heq|_];
    [contradiction|].
  unfold Validators.isThirteenDigits in Hdigits.
  apply andb_prop in Hdigits. destruct Hdigits as [Hlen Hall].
  apply Nat.eqb_eq in Hlen.
  assert (isDigit (nth 12 code 0%N) = true) as H12
    by (apply forallb_nth; [assumption|lia]).
  assert (isDigit (nth 0 code 0%N) = true) as H0
    by (apply forallb_nth; [assumption|lia]).
  rewrite (sex_digit _ H0).
  assert (N.eqb (Validators.parseIntDigit (nth 12 code 0%N))
                (Validators.controlDigit code)
          = N.eqb (nth 12 code 0%N) (48 + Validators.controlDigit code)) as ->.
  { unfold Validators.parseIntDigit, isDigit in *.
    apply andb_prop in H12. destruct H12 as [Hl _]. apply N.leb_le in Hl.
    destruct (N.eqb_spec (nth 12 code 0%N - 48) (Validators.controlDigit code));
      destruct (N.eqb_spec (nth 12 code 0%N)
                  (48 + Validators.controlDigit code)); try reflexivity; lia. }
  destruct (N.eqb (nth 12 code 0%N) (48 + Validators.controlDigit code));
    [|reflexivity].
  cbn [negb andb]. now destruct (N.eqb (nth 0 code 0%N) 48).
Qed.

(** The control sum reads the first twelve characters only. *)
Lemma controlSum_prefix (prefix : jsstring) (c : N) :
  List.length prefix = 12%nat ->
  Validators.controlSum (prefix ++ [c]) = Validators.controlSum (prefix ++ [48%N]).
Proof.
  intros Hlen. unfold Validators.controlSum. cbn [seq fold_left].
  rewrite !app_nth1 by (rewrite Hlen; lia). reflexivity.
Qed.

(** X12.  A code [isValidCNP] accepts is thirteen decimal digits, no
    more and no less; it is thirteen zeros, or its first digit is not 0 and
    its last digit is the control digit of the twelve before it. *)
Theorem isValidCNP_accepts (code : jsstring) :
  Validators.isValidCNP code = true ->
  List.length code = 13%nat
  /\ forallb isDigit code = true
  /\ (code = js "0000000000000"
      \/ (nth 0 code 0%N <> 48%N
          /\ nth 12 code 0%N = (48 + Validators.controlDigit code)%N
          /\ (Validators.controlDigit code < 10)%N)).
Proof.
  intros Hvalid.
  pose proof (isValidCNP_thirteen _ Hvalid) as Hdigits.
  pose proof Hdigits as Hshape.
  unfold Validators.isThirteenDigits in Hshape.
  apply andb_prop in Hshape. destruct Hshape as [Hlen Hall].
  apply Nat.eqb_eq in Hlen.
  split; [exact Hlen|]. split; [exact Hall|].
  destruct (list_eq_dec N.eq_dec code (js "0000000000000")) as [Heq|Hne];
    [now left|right].
  rewrite (isValidCNP_digits Hdigits Hne) in Hvalid.
  apply andb_prop in Hvalid. destruct Hvalid as [Hcontrol Hsex].
  apply N.eqb_eq in Hcontrol.
  split; [|split; [exact Hcontrol|apply controlDigit_lt_10]].
  intros H48. rewrite H48 in Hsex. discriminate.
Qed.

(** X13.  Twelve digits whose first is not 0 have exactly one thirteenth
    character that makes them a code [isValidCNP] accepts, and it is a
    digit: a remainder of 10 is turned into the control digit 1, so no
    twelve digits are left without a valid code. *)
Theorem isValidCNP_control_digit (prefix : jsstring) :
  List.length prefix = 12%nat ->
  forallb isDigit prefix = true ->
  nth 0 prefix 0%N <> 48%N ->
  exists d,
    isDigit d = true
    /\ forall c, Validators.isValidCNP (prefix ++ [c]) = true <-> c = d.
Proof.
  intros Hlen Hall Hfirst.
  exists (48 + Validators.controlDigit (prefix ++ [48%N]))%N.
  pose proof (controlDigit_lt_10 (prefix ++ [48%N])) as Hlt.
  assert (isDigit (48 + Validators.controlDigit (prefix ++ [48%N])) = true)
    as Hd.
  { unfold isDigit. apply andb_true_intro. split; apply N.leb_le; lia. }
  split; [exact Hd|].
  assert (forall c, nth 0 (prefix ++ [c]) 0%N = nth 0 prefix 0%N) as Hnth0.
  { intros c. apply app_nth1. rewrite Hlen. lia. }
  assert (forall c, nth 12 (prefix ++ [c]) 0%N = c) as Hnth12.
  { intros c. rewrite app_nth2 by (rewrite Hlen; lia). now rewrite Hlen. }
  assert (forall c, prefix ++ [c] <> js "0000000000000") as Hne.
  { intros c Heq. apply Hfirst. rewrite <- (Hnth0 c), Heq. reflexivity. }
  assert (forall c, Validators.controlDigit (prefix ++ [c])
                    = Validators.controlDigit (prefix ++ [48%N])) as Hcontrol.
  { intros c. unfold Validators.controlDigit.
    now rewrite (controlSum_prefix _ c Hlen). }
  assert (forall c, isDigit c = true ->
                    Validators.isThirteenDigits (prefix ++ [c]) = true)
    as Hthirteen.
  { intros c Hc. unfold Validators.isThirteenDigits.
    rewrite length_app, Hlen, forallb_app, Hall. simpl. now rewrite Hc. }
  intros c. split.
  - intros Hvalid.
    rewrite (isValidCNP_digits (isValidCNP_thirteen _ Hvalid) (Hne c))
      in Hvalid.
    apply andb_prop in Hvalid. destruct Hvalid as [Hlast _].
    apply N.eqb_eq in Hlast. now rewrite Hnth12, (Hcontrol c) in Hlast.
  - intros ->.
    rewrite (isValidCNP_digits (Hthirteen _ Hd) (Hne _)).
    rewrite Hnth12, Hnth0.
    rewrite (Hcontrol (48 + Validators.controlDigit (prefix ++ [48%N]))%N).
    rewrite N.eqb_refl.
    apply (proj2 (N.eqb_neq _ _)) in Hfirst. now rewrite Hfirst.
Qed.

(* ================================================================== *)
(** ** The URLs of the HTTP client *)
(* ================================================================== *)

Lemma endsWith_slash_added (s : jsstring) :
  HttpClient.endsWith (s ++ js "/") (js "/") = true.
Proof.
  unfold HttpClient.endsWith. rewrite rev_app_distr. reflexivity.
Qed.

(** A normalized base URL is empty or ends with a slash. *)
Lemma normalizeBaseURL_slash (baseURL : option jsstring) :
  HttpClient.normalizeBaseURL baseURL = []
  \/ HttpClient.endsWith (HttpClient.normalizeBaseURL baseURL) (js "/") = true.
Proof.
  unfold HttpClient.normalizeBaseURL.
  destruct baseURL as [[|c r]|]; [now left| |now left].
  cbn [JsString.truthy negb].
  destruct (HttpClient.endsWith (c :: r) (js "/")) eqn:Hends; right.
  - exact Hends.
  - apply endsWith_slash_added.
Qed.

(** Normalizing a normalized base URL changes nothing. *)
Lemma normalizeBaseURL_twice (baseURL : option jsstring) :
  HttpClient.normalizeBaseURL (Some (HttpClient.normalizeBaseURL baseURL))
  = HttpClient.normalizeBaseURL baseURL.
Proof.
  destruct (normalizeBaseURL_slash baseURL) as [Hempty | Hslash].
  - rewrite Hempty. reflexivity.
  - unfold HttpClient.normalizeBaseURL at 1. rewrite Hslash.
    now destruct (HttpClient.normalizeBaseURL baseURL).
Qed.

Lemma stripLeadingSlashes_no_slash (url : jsstring) :
  starts_with (js "/") (HttpClient.stripLeadingSlashes url) = None.
Proof.
  induction url as [|c r IH]; [reflexivity|].
  cbn [HttpClient.stripLeadingSlashes].
  destruct (N.eqb c 47) eqn:Hc; [exact IH|].
  change (js "/") with [47%N]. cbn [starts_with].
  rewrite N.eqb_sym, Hc. reflexivity.
Qed.

(** X14.  [normalizeBaseURL] gives the empty string for a missing or
    empty base URL, and otherwise the base URL itself when it ends with a
    slash, and with one slash added when it does not; so its result is
    empty or ends with a slash, and normalizing it once more changes
    nothing. *)
Theorem normalizeBaseURL_idempotent (baseURL : option jsstring) :
  HttpClient.normalizeBaseURL (Some (HttpClient.normalizeBaseURL baseURL))
  = HttpClient.normalizeBaseURL baseURL
  /\ (HttpClient.normalizeBaseURL baseURL = []
      \/ HttpClient.endsWith (HttpClient.normalizeBaseURL baseURL) (js "/")
         = true)
  /\ (HttpClient.normalizeBaseURL baseURL = []
      <-> baseURL = None \/ baseURL = Some [])
  /\ (forall s, baseURL = Some s -> s <> [] ->
        HttpClient.normalizeBaseURL baseURL
        = if HttpClient.endsWith s (js "/") then s else s ++ js "/").
Proof.
  split; [apply normalizeBaseURL_twice|].
  split; [apply normalizeBaseURL_slash|].
  split.
  - unfold HttpClient.normalizeBaseURL.
    destruct baseURL as [[|c r]|]; [tauto| |tauto].
    cbn [JsString.truthy negb].
    destruct (HttpClient.endsWith (c :: r) (js "/")); split;
      try discriminate; intros [H|H]; discriminate.
  - intros s -> Hne. destruct s as [|c r]; [congruence|reflexivity].
Qed.

(** X15.  [buildFullUrl], the field [baseURL] being the one the
    constructor sets.  A URL with a scheme is returned as it is, whatever
    the base URLs.  When a URL is resolved against a base, the base ends
    with a slash and the relative URL is the URL without its leading
    slashes, so it starts with none; and without a base URL of the request
    the base is the field as it is.  Without any base URL the URL is
    returned as it is. *)
Theorem buildFullUrl_resolution (configBaseURL requestBaseURL : option jsstring)
  (url : jsstring) :
  let thisBaseURL := HttpClient.constructorBaseURL configBaseURL in
  let result := HttpClient.buildFullUrl thisBaseURL url requestBaseURL in
  (HttpClient.absoluteUrlPattern url = true -> result = HttpClient.AsGiven url)
  /\ (forall relativeUrl base,
        result = HttpClient.Resolved relativeUrl base ->
        HttpClient.absoluteUrlPattern url = false
        /\ HttpClient.endsWith base (js "/") = true
        /\ relativeUrl = HttpClient.stripLeadingSlashes url
        /\ starts_with (js "/") relativeUrl = None
        /\ (requestBaseURL = None \/ requestBaseURL = Some [] ->
            base = thisBaseURL))
  /\ ((requestBaseURL = None \/ requestBaseURL = Some []) ->
      (configBaseURL = None \/ configBaseURL = Some []) ->
      result = HttpClient.AsGiven url).
Proof.
  cbv zeta. unfold HttpClient.buildFullUrl, HttpClient.constructorBaseURL.
  split; [now intros ->|]. split.
  - intros relativeUrl base.
    destruct (HttpClient.absoluteUrlPattern url); [discriminate|].
    destruct (normalizeBaseURL_slash
                (Some (or_default requestBaseURL
                         (HttpClient.normalizeBaseURL configBaseURL))))
      as [Hempty | Hslash].
    + rewrite Hempty. discriminate.
    + destruct (HttpClient.normalizeBaseURL
                  (Some (or_default requestBaseURL
                           (HttpClient.normalizeBaseURL configBaseURL))))
        as [|c r] eqn:Hbase; [discriminate|].
      cbn [JsString.truthy negb]. intros [= <- <-].
      split; [reflexivity|]. split; [exact Hslash|].
      split; [reflexivity|]. split; [apply stripLeadingSlashes_no_slash|].
      intros Hrequest. rewrite <- Hbase.
      assert (or_default requestBaseURL
                (HttpClient.normalizeBaseURL configBaseURL)
              = HttpClient.normalizeBaseURL configBaseURL) as ->
        by (destruct Hrequest as [-> | ->]; reflexivity).
      apply normalizeBaseURL_twice.
  - intros Hrequest Hconfig.
    destruct (HttpClient.absoluteUrlPattern url); [reflexivity|].
    assert (HttpClient.normalizeBaseURL
              (Some (or_default requestBaseURL
                       (HttpClient.normalizeBaseURL configBaseURL))) = [])
      as ->; [|reflexivity].
    destruct Hrequest as [-> | ->], Hconfig as [-> | ->]; reflexivity.
Qed.

(* ================================================================== *)
(** ** The parameter checks of the client *)
(* ================================================================== *)

(** Comparing two Numbers the other way round gives the opposite. *)
Lemma SFcompare_antisym (x y : number) :
  SFcompare y x = option_map CompOpp (SFcompare x y).
Proof.
  destruct x as [sx|sx| |sx mx ex], y as [sy|sy| |sy my ey];
    try reflexivity; try (destruct sx; reflexivity);
    try (destruct sy; reflexivity);
    try (destruct sx, sy; reflexivity).
  destruct sx, sy; try reflexivity; cbn [SFcompare option_map];
    rewrite (Z.compare_antisym ex ey);
    destruct (ex ?= ey)%Z; cbn [CompOpp]; try reflexivity;
    pose proof (Pos.compare_cont_antisym mx my Eq) as Hm;
    cbn [CompOpp] in Hm; rewrite <- Hm;
    now destruct (Pos.compare_cont Eq mx my).
Qed.

(** For two Numbers that are not [NaN], [x <= y] is false exactly when
    [y < x]. *)
Lemma leb_false_ltb (x y : number) :
  x <> S754_nan -> y <> S754_nan -> leb x y = false -> ltb y x = true.
Proof.
  intros Hx Hy. unfold leb, ltb, SFleb, SFltb.
  rewrite (SFcompare_antisym x y).
  destruct (SFcompare x y) as [[| |]|] eqn:Hc; try discriminate; try reflexivity.
  destruct x, y; try discriminate; congruence.
Qed.

Lemma ltb_false_leb (x y : number) :
  x <> S754_nan -> y <> S754_nan -> ltb x y = false -> leb y x = true.
Proof.
  intros Hx Hy. unfold leb, ltb, SFleb, SFltb.
  rewrite (SFcompare_antisym x y).
  destruct (SFcompare x y) as [[| |]|] eqn:Hc; try discriminate; try reflexivity.
  destruct x, y; try discriminate; congruence.
Qed.

(** X16.  Parameters [validatePaginatedMessagesParams] accepts have a
    start time, an end time and a page that are Numbers; among those that
    are not [NaN] the start time is above 0, the end time is above the
    start time, and the page is at least 1.  A [NaN] fails none of the
    comparisons, and is let through. *)
Theorem validatePaginatedMessagesParams_accepts
  (params : AnafClient.PaginatedMessagesParams) :
  AnafClient.validatePaginatedMessagesParams (Some params) = Ok tt ->
  exists startTime' endTime' pagina',
    AnafClient.startTime params = Some startTime'
    /\ AnafClient.endTime params = Some endTime'
    /\ AnafClient.pagina params = Some pagina'
    /\ (startTime' <> S754_nan -> ltb pzero startTime' = true)
    /\ (endTime' <> S754_nan -> ltb pzero endTime' = true)
    /\ (startTime' <> S754_nan -> endTime' <> S754_nan ->
        ltb startTime' endTime' = true)
    /\ (pagina' <> S754_nan -> leb (lit "1") pagina' = true).
Proof.
  unfold AnafClient.validatePaginatedMessagesParams, AnafClient.number_check.
  destruct (AnafClient.startTime params) as [s|]; [|discriminate].
  destruct (leb s pzero) eqn:Hs; [discriminate|].
  destruct (AnafClient.endTime params) as [e|]; [|discriminate].
  destruct (leb e pzero) eqn:He; [discriminate|].
  cbn [throw_if bind].
  destruct (leb e s) eqn:Hes; [discriminate|].
  destruct (AnafClient.pagina params) as [p|]; [|discriminate].
  destruct (ltb p (lit "1")) eqn:Hp; [discriminate|].
  intros _. exists s, e, p. repeat split.
  - intros Hnan. now apply leb_false_ltb.
  - intros Hnan. now apply leb_false_ltb.
  - intros Hs' He'. now apply leb_false_ltb.
  - intros Hnan. apply ltb_false_leb; [assumption|discriminate|assumption].
Qed.

(* ================================================================== *)
(** ** The VAT codes of the company-details client *)
(* ================================================================== *)

Lemma gtb_not_leb (x : number) :
  gtb x pzero = true -> leb x pzero = false /\ AnafDetailsClient.isNaN x = false.
Proof.
  unfold gtb, leb, SFltb, SFleb. rewrite (SFcompare_antisym x pzero).
  destruct x as [s|s| |s m e]; try discriminate;
    destruct (SFcompare _ pzero) as [[| |]|]; try discriminate; now split.
Qed.

(** X17.  [isValidVatCode] accepts exactly the codes for which
    [extractCuiNumber] gives a number and whose text, once trimmed, put in
    upper case and without a leading "RO", has 2 to 10 characters; the
    number [extractCuiNumber] gives is the one [parseInt] reads in that
    text, and it is above 0. *)
Theorem isValidVatCode_extractCuiNumber
  (toUpperCase : jsstring -> jsstring) (vatCode : option jsstring) :
  (AnafDetailsClient.isValidVatCode toUpperCase vatCode = true
   <-> exists s n,
         vatCode = Some s
         /\ AnafDetailsClient.extractCuiNumber toUpperCase vatCode = Some n
         /\ (2 <= List.length (AnafDetailsClient.cleanVatCode toUpperCase s)
             <= 10)%nat)
  /\ (forall n,
        AnafDetailsClient.extractCuiNumber toUpperCase vatCode = Some n ->
        exists s,
          vatCode = Some s /\ s <> []
          /\ n = AnafDetailsClient.parseInt10
                   (AnafDetailsClient.cleanVatCode toUpperCase s)
          /\ gtb n pzero = true).
Proof.
  unfold AnafDetailsClient.isValidVatCode, AnafDetailsClient.extractCuiNumber.
  destruct vatCode as [[|c r]|].
  - split; [split; [discriminate|]|discriminate].
    intros (s & n & _ & Hn & _). discriminate.
  - cbn [JsString.truthy negb].
    set (clean := AnafDetailsClient.cleanVatCode toUpperCase (c :: r)).
    set (n := AnafDetailsClient.parseInt10 clean).
    assert (AnafDetailsClient.isNaN n || leb n pzero = false
            <-> gtb n pzero = true) as Hpositive.
    { split.
      - intros H. apply orb_false_elim in H. destruct H as [Hnan Hle].
        apply leb_false_ltb; [|discriminate|exact Hle].
        intros Hn. rewrite Hn in Hnan. discriminate.
      - intros H. destruct (gtb_not_leb _ H) as [-> ->]. reflexivity. }
    destruct (gtb n pzero) eqn:Hgt.
    + destruct (gtb_not_leb _ Hgt) as [_ Hnan].
      rewrite (proj2 Hpositive eq_refl), Hnan. cbn [negb andb].
      rewrite andb_true_r.
      split; [split|].
      * intros H. apply andb_prop in H. destruct H as [Hmin Hmax].
        apply Nat.leb_le in Hmin. apply Nat.leb_le in Hmax.
        exists (c :: r), n. now repeat split.
      * intros (s & n' & [= <-] & _ & Hmin & Hmax). fold clean in Hmin, Hmax.
        apply Nat.leb_le in Hmin. apply Nat.leb_le in Hmax.
        now rewrite Hmin, Hmax.
      * intros n' [= <-]. exists (c :: r).
        split; [reflexivity|]. split; [discriminate|]. now split.
    + assert (AnafDetailsClient.isNaN n || leb n pzero = true) as ->.
      { destruct (AnafDetailsClient.isNaN n || leb n pzero); [reflexivity|].
        now apply Hpositive. }
      rewrite andb_false_r.
      split; [split; [discriminate|]|discriminate].
      intros (s & n' & _ & Hn & _). discriminate.
  - split; [split; [discriminate|]|discriminate].
    intros (s & n & Hs & _). discriminate.
Qed.

(* ================================================================== *)
(** ** The added properties on the sample data *)
(* ================================================================== *)

Lemma round2_nearest_hundredths_witness :
  fixedRange (lit "33.333333") = true
  /\ exists neg n,
       toFixed2 (lit "33.333333") = fixed_string neg n
       /\ round2 (lit "33.333333") = of_decimal neg n (-2).
Proof.
  split; [reflexivity|].
  destruct (round2_nearest_hundredths (lit "33.333333") eq_refl)
    as (neg & n & Htext & Hround & _).
  exists neg, n. split; [exact Htext|exact Hround].
Defined.

Lemma validateLine_accepts_NaN_quantity_witness :
  validateLine Sample.lineNaN 0 = Ok tt
  /\ toFixed2 (calculateLineExtension Sample.lineNaN) = js "NaN".
Proof.
  assert (forall p, taxPercent Sample.lineNaN = Some p ->
                    ltb p pzero || gtb p (lit "100") = false) as Htax.
  { intros p [= <-]. reflexivity. }
  destruct (@validateLine_accepts_NaN_quantity Sample.lineNaN 0
              eq_refl eq_refl eq_refl Htax) as (Hvalid & _ & _ & Htext & _).
  split; [exact Hvalid|exact Htext].
Defined.

(** An invoice with the line whose quantity is [NaN]: it is built, and
    its amounts are written "NaN". *)
Example invoice_with_NaN_quantity :
  exists doc,
    Sample.build (Some (Sample.invoice (Some [Sample.lineNaN]))) = Ok doc
    /\ text_at ["cac:LegalMonetaryTotal"; "cbc:PayableAmount"] doc
       = Some (js "NaN")
    /\ map (text_at ["cbc:InvoicedQuantity"]) (children "cac:InvoiceLine" doc)
       = [Some (js "NaN")].
Proof.
  destruct (Sample.build (Some (Sample.invoice (Some [Sample.lineNaN]))))
    as [doc|e] eqn:Hdoc; [|vm_compute in Hdoc; discriminate Hdoc].
  exists doc. split; [reflexivity|].
  vm_compute in Hdoc. injection Hdoc as <-.
  vm_compute. repeat split.
Qed.

Lemma zero_rated_line_tax_witness :
  lineTax (Sample.line "1" "100" None) = pzero
  /\ lineKey true (Sample.line "1" "100" None) = (js "Z", pzero).
Proof.
  destruct (@zero_rated_line_tax (Sample.line "1" "100" None)
              eq_refl eq_refl) as (_ & Htax & _ & Hkey).
  split; [exact Htax|exact Hkey].
Defined.

Lemma header_of_valid_input_witness :
  let input := Sample.invoice (Some [Sample.line "1" "100" (Some "19")]) in
  exists doc,
    Sample.build (Some input) = Ok doc
    /\ text_at ["cbc:ID"] doc = Some (js "INV-2024-001")
    /\ text_at ["cbc:DueDate"] doc = Some (js "2024-01-15")
    /\ text_at ["cbc:InvoiceTypeCode"] doc = Some (js "380")
    /\ text_at ["cbc:DocumentCurrencyCode"] doc = Some (js "RON").
Proof.
  intros input.
  assert (validateInvoiceInput (Some input) = Ok tt) as Hv
    by (vm_compute; reflexivity).
  destruct (@header_of_valid_input Sample.normalizeVatNumber
              AddressSanitizer.sanitizeCounty
              AddressSanitizer.sanitizeBucharestSector
              AddressSanitizer.isBucharest Sample.formatDateForAnaf
              Sample.UBL_CUSTOMIZATION_ID (js "RON") (js "RO") (js "EA")
              input Hv)
    as (n & d & doc & Hn & Hd & Hdoc & _ & Hid & _ & Hdue & _ & Htype & _
        & Hcur & _).
  injection Hn as <-. injection Hd as <-.
  exists doc. split; [exact Hdoc|]. split; [exact Hid|].
  split; [exact (Hdue eq_refl)|]. split; [exact (Htype eq_refl)|].
  exact (Hcur (or_introl eq_refl)).
Defined.


Lemma payment_means_of_valid_input_witness :
  let input := Sample.invoiceWithIban (Some (js "RO49AAAA1B31007593840000")) in
  exists doc means,
    Sample.build (Some input) = Ok doc
    /\ children "cac:PaymentMeans" doc = [means]
    /\ text_at ["cac:PayeeFinancialAccount"; "cbc:ID"] means
       = Some (js "RO49AAAA1B31007593840000").
Proof.
  intros input.
  assert (validateInvoiceInput (Some input) = Ok tt) as Hv
    by (vm_compute; reflexivity).
  destruct (@payment_means_of_valid_input Sample.normalizeVatNumber
              AddressSanitizer.sanitizeCounty
              AddressSanitizer.sanitizeBucharestSector
              AddressSanitizer.isBucharest Sample.formatDateForAnaf
              Sample.UBL_CUSTOMIZATION_ID (js "RON") (js "RO") (js "EA")
              input Hv)
    as (doc & Hdoc & _ & Hiban).
  destruct (Hiban (js "RO49AAAA1B31007593840000") eq_refl)
    as (means & Hmeans & _ & Haccount); [discriminate|].
  exists doc, means. split; [exact Hdoc|]. split; [exact Hmeans|exact Haccount].
Defined.

Lemma tax_subtotals_of_valid_input_witness :
  let input := Sample.invoice (Some [ Sample.line "1" "100" (Some "19");
                                      Sample.line "1" "100" (Some "9");
                                      Sample.line "2" "50" (Some "19") ]) in
  exists doc taxTotal,
    Sample.build (Some input) = Ok doc
    /\ child "cac:TaxTotal" doc = Some taxTotal
    /\ map (text_at ["cbc:TaxableAmount"]) (children "cac:TaxSubtotal" taxTotal)
       = [Some (js "200.00"); Some (js "100.00")].
Proof.
  intros input.
  assert (validateInvoiceInput (Some input) = Ok tt) as Hv
    by (vm_compute; reflexivity).
  destruct (@tax_subtotals_of_valid_input Sample.normalizeVatNumber
              AddressSanitizer.sanitizeCounty
              AddressSanitizer.sanitizeBucharestSector
              AddressSanitizer.isBucharest Sample.formatDateForAnaf
              Sample.UBL_CUSTOMIZATION_ID (js "RON") (js "RO") (js "EA")
              input Hv)
    as (s & ls & doc & taxTotal & Hs & Hls & Hdoc & Htotal & Hsub).
  injection Hs as <-. injection Hls as <-.
  exists doc, taxTotal. split; [exact Hdoc|]. split; [exact Htotal|].
  destruct Hsub as (_ & _ & Htaxable & _); [discriminate|].
  rewrite Htaxable. vm_compute. reflexivity.
Defined.

(** A supplier that is not a VAT payer. *)
Lemma exemption_reason_of_valid_input_witness :
  let input := Sample.invoiceOfSupplier Sample.customerUnknownCounty in
  exists doc taxTotal,
    Sample.build (Some input) = Ok doc
    /\ child "cac:TaxTotal" doc = Some taxTotal
    /\ forall subtotal,
         In subtotal (children "cac:TaxSubtotal" taxTotal) ->
         text_at ["cac:TaxCategory"; "cbc:TaxExemptionReasonCode"] subtotal
         = Some (js "VATEX-EU-O").
Proof.
  intros input.
  assert (validateInvoiceInput (Some input) = Ok tt) as Hv
    by (vm_compute; reflexivity).
  destruct (@exemption_reason_of_valid_input Sample.normalizeVatNumber
              AddressSanitizer.sanitizeCounty
              AddressSanitizer.sanitizeBucharestSector
              AddressSanitizer.isBucharest Sample.formatDateForAnaf
              Sample.UBL_CUSTOMIZATION_ID (js "RON") (js "RO") (js "EA")
              input Hv)
    as (s & ls & doc & taxTotal & Hs & Hls & Hdoc & Htotal & Hsub).
  injection Hs as <-. injection Hls as <-.
  exists doc, taxTotal. split; [exact Hdoc|]. split; [exact Htotal|].
  intros subtotal Hin.
  destruct (Hsub ltac:(discriminate) subtotal Hin) as [Hexempt _].
  apply Hexempt. discriminate.
Defined.

(** The sample invoice without its lines array. *)
Lemma generateInvoiceXml_outcome_witness :
  Sample.generate (Some (Sample.invoice None))
  = Throw (AnafValidationError
             (js "Failed to generate invoice XML: Invoice lines array is required")).
Proof.
  destruct (@generateInvoiceXml_outcome Sample.normalizeVatNumber
              AddressSanitizer.sanitizeCounty
              AddressSanitizer.sanitizeBucharestSector
              AddressSanitizer.isBucharest Sample.formatDateForAnaf
              Sample.UBL_CUSTOMIZATION_ID (js "RON") (js "RO") (js "EA")
              Sample.message_of (Sample.invoice None)
              (fun message => eq_refl))
    as (_ & _ & Hthrow & _).
  exact (Hthrow (js "Invoice lines array is required") eq_refl).
Defined.

Lemma party_fields_as_given_witness :
  exists x,
    Sample.party "cac:AccountingSupplierParty" Sample.supplierCluj = Ok x
    /\ text_at ["cac:Party"; "cac:PostalAddress"; "cbc:StreetName"] x
       = Some (js "Str. Test 1")
    /\ text_at ["cac:Party"; "cac:PostalAddress"; "cac:Country";
                "cbc:IdentificationCode"] x
       = Some (js "RO").
Proof.
  destruct (@party_fields_as_given Sample.normalizeVatNumber
              AddressSanitizer.sanitizeCounty
              AddressSanitizer.sanitizeBucharestSector
              AddressSanitizer.isBucharest (js "RO")
              "cac:AccountingSupplierParty" Sample.supplierCluj
              (js "Supplier") eq_refl)
    as (r & a & st & pz & x & _ & Ha & Hst & _ & Hx & _ & Hstreet & _
        & Hcountry & _).
  injection Ha as <-. injection Hst as <-.
  exists x. split; [exact Hx|]. split; [exact Hstreet|exact Hcountry].
Defined.

Lemma invoiceLineXml_item_witness :
  exists x quantity' item,
    invoiceLineXml (js "EA") (js "RON") true
      (Sample.line "1" "100" (Some "19")) 0 = Ok x
    /\ child "cbc:InvoicedQuantity" x = Some quantity'
    /\ attribute "unitCode" quantity' = Some (js "EA")
    /\ child "cac:Item" x = Some item
    /\ children "cbc:Description" item = [].
Proof.
  destruct (@invoiceLineXml_item (js "EA") (js "RON") true
              (Sample.line "1" "100" (Some "19")) 0 (js "Test Item") eq_refl)
    as (x & q & ext & item & price & Hx & Hq & Hunit & _ & _ & _ & _ & _
        & Hitem & _ & Hnone & _).
  exists x, q, item. split; [exact Hx|]. split; [exact Hq|].
  split; [exact Hunit|]. split; [exact Hitem|].
  exact (Hnone (or_introl eq_refl)).
Defined.

(** The code of the test "returns true for a valid CNP". *)
Lemma isValidCNP_accepts_witness :
  Validators.isValidCNP (js "1960129460018") = true
  /\ nth 12 (js "1960129460018") 0%N
     = (48 + Validators.controlDigit (js "1960129460018"))%N.
Proof.
  split; [reflexivity|].
  destruct (@isValidCNP_accepts (js "1960129460018") eq_refl)
    as (_ & _ & [Hzeros | (_ & Hlast & _)]); [discriminate Hzeros|exact Hlast].
Defined.

Lemma isValidCNP_control_digit_witness :
  exists d,
    isDigit d = true
    /\ forall c,
         Validators.isValidCNP (js "196012946001" ++ [c]) = true <-> c = d.
Proof.
  apply (@isValidCNP_control_digit (js "196012946001") eq_refl eq_refl).
  discriminate.
Defined.

Lemma normalizeBaseURL_idempotent_witness :
  HttpClient.normalizeBaseURL (Some (js "https://api.anaf.ro/test"))
  = js "https://api.anaf.ro/test/"
  /\ HttpClient.normalizeBaseURL (Some (js "https://api.anaf.ro/test/"))
     = js "https://api.anaf.ro/test/".
Proof.
  destruct (normalizeBaseURL_idempotent (Some (js "https://api.anaf.ro/test")))
    as (Htwice & _ & _ & Hgiven).
  pose proof (Hgiven _ eq_refl ltac:(discriminate)) as Hfirst.
  split; [exact Hfirst|].
  rewrite Hfirst in Htwice. exact Htwice.
Defined.

(** The request of the test "uses normalized base URL with trailing slash
    and strips leading slash from relative paths". *)
Lemma buildFullUrl_resolution_witness :
  let thisBaseURL :=
    HttpClient.constructorBaseURL (Some (js "https://api.anaf.ro/test/FCTEL/rest")) in
  HttpClient.buildFullUrl thisBaseURL (js "/validare/FACT1") None
  = HttpClient.Resolved (js "validare/FACT1")
      (js "https://api.anaf.ro/test/FCTEL/rest/")
  /\ HttpClient.endsWith (js "https://api.anaf.ro/test/FCTEL/rest/") (js "/")
     = true
  /\ starts_with (js "/") (js "validare/FACT1") = None.
Proof.
  intros thisBaseURL.
  destruct (buildFullUrl_resolution
              (Some (js "https://api.anaf.ro/test/FCTEL/rest")) None
              (js "/validare/FACT1")) as (_ & Hresolved & _).
  cbv zeta in Hresolved.
  destruct (Hresolved (js "validare/FACT1")
              (js "https://api.anaf.ro/test/FCTEL/rest/") eq_refl)
    as (_ & Hslash & _ & Hrelative & _).
  split; [reflexivity|]. split; [exact Hslash|exact Hrelative].
Defined.

(** Parameters that are all [NaN] are accepted. *)
Lemma validatePaginatedMessagesParams_accepts_witness :
  let params :=
    {| AnafClient.startTime := Some S754_nan;
       AnafClient.endTime := Some S754_nan;
       AnafClient.pagina := Some (lit "2") |} in
  AnafClient.validatePaginatedMessagesParams (Some params) = Ok tt
  /\ leb (lit "1") (lit "2") = true.
Proof.
  intros params. split; [reflexivity|].
  destruct (@validatePaginatedMessagesParams_accepts params eq_refl)
    as (s & e & p & _ & _ & Hp & _ & _ & _ & Hpage).
  injection Hp as <-. apply Hpage. discriminate.
Defined.

(** With the upper case of ASCII for [toUpperCase]: the code of the test
    "should validate correct VAT codes". *)
Lemma isValidVatCode_extractCuiNumber_witness :
  let toUpperCase := Sample.toUpperCase in
  AnafDetailsClient.isValidVatCode toUpperCase (Some (js "RO12345678")) = true
  /\ exists n,
       AnafDetailsClient.extractCuiNumber toUpperCase (Some (js "RO12345678"))
       = Some n
       /\ gtb n pzero = true.
Proof.
  intros toUpperCase.
  assert (AnafDetailsClient.isValidVatCode toUpperCase (Some (js "RO12345678"))
          = true) as Hvalid by (vm_compute; reflexivity).
  split; [exact Hvalid|].
  destruct (isValidVatCode_extractCuiNumber toUpperCase (Some (js "RO12345678")))
    as [Hiff Hextract].
  destruct (proj1 Hiff Hvalid) as (s & n & _ & Hn & _).
  exists n. split; [exact Hn|].
  destruct (Hextract n Hn) as (_ & _ & _ & _ & Hpositive). exact Hpositive.
Defined.

(** A supplier that pays VAT, with a line at 19 percent and a line without
    a percent: "S" and "Z".  The same lines under a supplier that is not a
    VAT payer: "O" and "O". *)
Lemma C3_category_selection_witness :
  (exists doc,
     Sample.build (Some (Sample.invoiceOfSupplier Sample.supplierCluj)) = Ok doc
     /\ map (text_at ["cac:Item"; "cac:ClassifiedTaxCategory"; "cbc:ID"])
            (children "cac:InvoiceLine" doc)
        = [Some (js "S"); Some (js "Z")])
  /\ (exists doc,
        Sample.build (Some (Sample.invoiceOfSupplier Sample.customerUnknownCounty))
        = Ok doc
        /\ map (text_at ["cac:Item"; "cac:ClassifiedTaxCategory"; "cbc:ID"])
               (children "cac:InvoiceLine" doc)
           = [Some (js "O"); Some (js "O")]).
Proof.
  split.
  - assert (validateInvoiceInput
              (Some (Sample.invoiceOfSupplier Sample.supplierCluj)) = Ok tt)
      as Hv by (vm_compute; reflexivity).
    destruct (@C3_category_selection Sample.normalizeVatNumber
                AddressSanitizer.sanitizeCounty
                AddressSanitizer.sanitizeBucharestSector
                AddressSanitizer.isBucharest Sample.formatDateForAnaf
                Sample.UBL_CUSTOMIZATION_ID (js "RON") (js "RO") (js "EA")
                _ Hv)
      as (s & ls & doc & taxTotal & Hs & Hls & Hdoc & _ & _ & HS & HZ
          & Hemitted & _).
    injection Hs as <-. injection Hls as <-.
    exists doc. split; [exact Hdoc|]. rewrite Hemitted. cbn [map].
    rewrite (HS eq_refl (Sample.line "1" "100" (Some "19")) (lit "19")
               eq_refl eq_refl).
    rewrite (HZ eq_refl (Sample.line "1" "100" None) (or_introl eq_refl)).
    reflexivity.
  - assert (validateInvoiceInput
              (Some (Sample.invoiceOfSupplier Sample.customerUnknownCounty))
            = Ok tt) as Hv by (vm_compute; reflexivity).
    destruct (@C3_category_selection Sample.normalizeVatNumber
                AddressSanitizer.sanitizeCounty
                AddressSanitizer.sanitizeBucharestSector
                AddressSanitizer.isBucharest Sample.formatDateForAnaf
                Sample.UBL_CUSTOMIZATION_ID (js "RON") (js "RO") (js "EA")
                _ Hv)
      as (s & ls & doc & taxTotal & Hs & Hls & Hdoc & _ & HO & _ & _
          & Hemitted & _).
    injection Hs as <-. injection Hls as <-.
    exists doc. split; [exact Hdoc|].
    rewrite Hemitted. cbn [map].
    rewrite !(HO ltac:(discriminate)). reflexivity.
Defined.
